(** * Real-time leaderboard: a shallow embedding of the models, the
      validation middleware, the session routes and the socket service,
      with the properties of the specification checked against them.

    Conventions of the embedding.
    - JavaScript strings are [string]; a missing / [null] / [undefined]
      option is [None]; the truthiness test [x && ...] on a string is
      [truthy], false for [None] and for the empty string.
    - Scores, counters and millisecond timestamps are integers ([Z]).  All
      arithmetic on them in the source (comparison, [+], [-], [Math.max],
      one correctly rounded division followed by [Math.round]) is exact on
      integer-valued doubles of the magnitudes the schemas admit.  The one
      place where a non-integer intermediate is rounded twice,
      [calculatePositionBonus], is modelled in IEEE-754 binary64 with the
      kernel's [SpecFloat] operations.
    - [Date.now()] / [new Date()] is the parameter [now] of an operation.
    - A Mongo collection of players is a list of documents in natural
      order; [findOne] returns the first match, [findOneAndUpdate] updates
      the first match.  Sessions are kept in a finite map keyed by
      [sessionId]. *)

From Stdlib Require Import ZArith List String Lia Permutation Sorted Bool.
From Stdlib Require Import Floats.SpecFloat.
From stdpp Require Import gmap strings list fin_maps.

#[local] Set Warnings "-clear-no-such-hyp".

Local Open Scope string_scope.
Local Open Scope Z_scope.
Local Open Scope list_scope.
Local Open Scope stdpp_scope.

(** ** JavaScript helpers *)

Module JS.

(** [s && ...] on an optional string. *)
Definition truthy (s : option string) : bool :=
  match s with
  | None => false
  | Some v => negb (String.eqb v "")
  end.

(** [a || b] on optional strings. *)
Definition or_else (a : option string) (b : string) : string :=
  match a with
  | Some v => if String.eqb v "" then b else v
  | None => b
  end.

(** [Math.round(a / b)] for integers [a] and [b > 0]: the nearest
    integer, halves towards plus infinity. *)
Definition round_div (a b : Z) : Z := (2 * a + b) / (2 * b).

(** [Math.ceil(a / b)] for integers [a] and [b > 0]. *)
Definition ceil_div (a b : Z) : Z := - ((- a) / b).

(** [arr.findIndex(f)], [None] standing for [-1]. *)
Fixpoint findIndex {A : Type} (f : A -> bool) (l : list A) : option nat :=
  match l with
  | [] => None
  | x :: l' => if f x then Some 0%nat else S <$> findIndex f l'
  end.

End JS.

(** ** models/Player *)

Module Player.

Record doc := mkDoc {
  playerId : string;
  username : string;
  region : string;
  currentScore : Z;
  totalGamesPlayed : Z;
  averageScore : Z;
  bestScore : Z;
  currentGameMode : string;
  isOnline : bool;
  lastActiveAt : Z;
  wins : Z;
  losses : Z;
  draws : Z
}.

Definition set_currentScore (v : Z) (p : doc) : doc :=
  mkDoc (playerId p) (username p) (region p) v (totalGamesPlayed p)
        (averageScore p) (bestScore p) (currentGameMode p) (isOnline p)
        (lastActiveAt p) (wins p) (losses p) (draws p).

Definition set_totalGamesPlayed (v : Z) (p : doc) : doc :=
  mkDoc (playerId p) (username p) (region p) (currentScore p) v
        (averageScore p) (bestScore p) (currentGameMode p) (isOnline p)
        (lastActiveAt p) (wins p) (losses p) (draws p).

Definition set_averageScore (v : Z) (p : doc) : doc :=
  mkDoc (playerId p) (username p) (region p) (currentScore p)
        (totalGamesPlayed p) v (bestScore p) (currentGameMode p)
        (isOnline p) (lastActiveAt p) (wins p) (losses p) (draws p).

Definition set_bestScore (v : Z) (p : doc) : doc :=
  mkDoc (playerId p) (username p) (region p) (currentScore p)
        (totalGamesPlayed p) (averageScore p) v (currentGameMode p)
        (isOnline p) (lastActiveAt p) (wins p) (losses p) (draws p).

Definition set_currentGameMode (v : string) (p : doc) : doc :=
  mkDoc (playerId p) (username p) (region p) (currentScore p)
        (totalGamesPlayed p) (averageScore p) (bestScore p) v
        (isOnline p) (lastActiveAt p) (wins p) (losses p) (draws p).

Definition set_isOnline (v : bool) (p : doc) : doc :=
  mkDoc (playerId p) (username p) (region p) (currentScore p)
        (totalGamesPlayed p) (averageScore p) (bestScore p)
        (currentGameMode p) v (lastActiveAt p) (wins p) (losses p)
        (draws p).

Definition set_lastActiveAt (v : Z) (p : doc) : doc :=
  mkDoc (playerId p) (username p) (region p) (currentScore p)
        (totalGamesPlayed p) (averageScore p) (bestScore p)
        (currentGameMode p) (isOnline p) v (wins p) (losses p) (draws p).


(** A document as [new Player({username, region, currentGameMode})]
    creates it: every other field takes its schema default. *)
Definition fresh (pid name reg mode : string) (now : Z) : doc :=
  mkDoc pid name reg 0 0 0 0 mode false now 0 0 0.

(** [playerSchema.pre('save')]. *)
Definition preSave (p : doc) : doc :=
  let p1 :=
    if 0 <? totalGamesPlayed p
    then set_averageScore
           (JS.round_div (currentScore p) (Z.max (totalGamesPlayed p) 1)) p
    else p in
  if bestScore p1 <? currentScore p1
  then set_bestScore (currentScore p1) p1
  else p1.

Definition hasId (pid : string) (p : doc) : bool :=
  String.eqb (playerId p) pid.

(** [Player.findOne({ playerId })]. *)
Definition findOne (store : list doc) (pid : string) : option doc :=
  List.find (hasId pid) store.

(** Replace the first document carrying [pid]. *)
Fixpoint replaceFirst (pid : string) (f : doc -> doc) (store : list doc)
  : list doc :=
  match store with
  | [] => []
  | p :: rest =>
      if hasId pid p then f p :: rest else p :: replaceFirst pid f rest
  end.

(** [doc.save()]: the pre-save hook runs, then the document is written
    back over the stored one (or inserted when it is new). *)
Definition save (store : list doc) (p : doc) : list doc * doc :=
  let p' := preSave p in
  match findOne store (playerId p) with
  | Some _ => (replaceFirst (playerId p) (fun _ => p') store, p')
  | None => (store ++ [p'], p')
  end.

(** The query object built by [getLeaderboard] and [getPlayerRank]: a
    conjunction of the conditions that are present. *)
Record matchConditions := mkMatch {
  mc_scoreGt : option Z;
  mc_region : option string;
  mc_currentGameMode : option string;
  mc_isOnline : option bool
}.

Definition matches (mc : matchConditions) (p : doc) : bool :=
  match mc_scoreGt mc with
  | Some s => s <? currentScore p
  | None => true
  end
  && match mc_region mc with
     | Some r => String.eqb (region p) r
     | None => true
     end
  && match mc_currentGameMode mc with
     | Some m => String.eqb (currentGameMode p) m
     | None => true
     end
  && match mc_isOnline mc with
     | Some b => Bool.eqb (isOnline p) b
     | None => true
     end.

(** [if (region && region !== 'GLOBAL') matchConditions.region = region]. *)
Definition regionCondition (region : option string) : option string :=
  match region with
  | Some r =>
      if JS.truthy region && negb (String.eqb r "GLOBAL")
      then Some r else None
  | None => None
  end.

(** [if (gameMode) matchConditions.currentGameMode = gameMode]. *)
Definition gameModeCondition (gameMode : option string) : option string :=
  if JS.truthy gameMode then gameMode else None.

Record options := mkOptions {
  limit : nat;
  skip : nat;
  opt_region : option string;
  opt_gameMode : option string;
  onlineOnly : bool
}.

Definition leaderboardConditions (o : options) : matchConditions :=
  mkMatch None
          (regionCondition (opt_region o))
          (gameModeCondition (opt_gameMode o))
          (if onlineOnly o then Some true else None).

(** [sort({ currentScore: -1, lastActiveAt: -1 })]: [a] is listed before
    [b]. *)
Definition before (a b : doc) : bool :=
  (currentScore b <? currentScore a)
  || ((currentScore a =? currentScore b)
      && (lastActiveAt b <? lastActiveAt a)).

Fixpoint insertSorted (x : doc) (l : list doc) : list doc :=
  match l with
  | [] => [x]
  | y :: l' => if before y x then y :: insertSorted x l' else x :: y :: l'
  end.

Definition sortLeaderboard (l : list doc) : list doc :=
  List.fold_right insertSorted [] l.

(** A cursor limit of [0] means no limit. *)
Definition applyLimit (n : nat) (l : list doc) : list doc :=
  match n with
  | O => l
  | _ => firstn n l
  end.

(** [Player.getLeaderboard(options)].  The cursor skips before it
    limits, whatever the order of the two calls; [select] only trims
    fields and is left out. *)
Definition getLeaderboard (store : list doc) (o : options) : list doc :=
  applyLimit (limit o)
    (skipn (skip o)
      (sortLeaderboard
        (List.filter (matches (leaderboardConditions o)) store))).

Definition rankConditions (p : doc) (region gameMode : option string)
  : matchConditions :=
  mkMatch (Some (currentScore p))
          (regionCondition region)
          (gameModeCondition gameMode)
          None.

(** [Player.countDocuments(matchConditions)]. *)
Definition countDocuments (store : list doc) (mc : matchConditions) : Z :=
  Z.of_nat (length (List.filter (matches mc) store)).

(** [Player.getPlayerRank(playerId, { region, gameMode })]; [None] is
    the [null] returned for an unknown player. *)
Definition getPlayerRank (store : list doc) (pid : string)
           (region gameMode : option string) : option Z :=
  match findOne store pid with
  | None => None
  | Some player =>
      Some (countDocuments store (rankConditions player region gameMode) + 1)
  end.

(** The update document of [updatePlayerScore] applied to one stored
    document: [$set] of the score, the activity time and (when given)
    the game mode, [$inc] of the games counter.  [findOneAndUpdate]
    writes straight to the collection: no ['save'] middleware runs. *)
Definition applyScoreUpdate (newScore : Z) (gameMode : option string)
           (now : Z) (p : doc) : doc :=
  let p1 := set_currentScore newScore p in
  let p2 := set_lastActiveAt now p1 in
  let p3 := set_totalGamesPlayed (totalGamesPlayed p2 + 1) p2 in
  if JS.truthy gameMode
  then set_currentGameMode (JS.or_else gameMode (currentGameMode p3)) p3
  else p3.

(** [Player.updatePlayerScore(playerId, newScore, gameMode)] with
    [{ new: true, upsert: false }]: the updated document, or [None]
    ([null]) when no player has that id. *)
Definition updatePlayerScore (store : list doc) (pid : string)
           (newScore : Z) (gameMode : option string) (now : Z)
  : list doc * option doc :=
  match findOne store pid with
  | None => (store, None)
  | Some p =>
      let p' := applyScoreUpdate newScore gameMode now p in
      (replaceFirst pid (fun _ => p') store, Some p')
  end.

(** [player.updateOnlineStatus(isOnline)]. *)
Definition updateOnlineStatus (store : list doc) (p : doc) (online : bool)
           (now : Z) : list doc * doc :=
  save store (set_lastActiveAt now (set_isOnline online p)).



End Player.

(** ** models/GameSession *)

Module GameSession.

Inductive status := waiting | active | completed | abandoned.

Definition status_eqb (a b : status) : bool :=
  match a, b with
  | waiting, waiting | active, active
  | completed, completed | abandoned, abandoned => true
  | _, _ => false
  end.

Record participant := mkParticipant {
  playerId : string;
  username : string;
  initialScore : Z;
  currentSessionScore : Z;
  position : option Z;
  isActive : bool
}.

Definition set_currentSessionScore (v : Z) (p : participant) : participant :=
  mkParticipant (playerId p) (username p) (initialScore p) v (position p)
                (isActive p).

Definition set_position (v : Z) (p : participant) : participant :=
  mkParticipant (playerId p) (username p) (initialScore p)
                (currentSessionScore p) (Some v) (isActive p).

Definition set_isActive (v : bool) (p : participant) : participant :=
  mkParticipant (playerId p) (username p) (initialScore p)
                (currentSessionScore p) (position p) v.

Inductive eventType :=
  score_update | player_joined | player_left | game_start | game_end
| achievement.

Record finalScore := mkFinalScore {
  fs_playerId : string;
  fs_username : string;
  fs_score : Z;
  fs_position : option Z
}.

(** The [data] payloads the model methods write. *)
Inductive eventData :=
| joinedData (name : string)
| gameStartData (playerCount : Z)
| scoreData (newScore delta : Z) (reason : string)
| gameEndData (finalScores : list finalScore)
| leftData (reason : string)
| emptyData.

Record event := mkEvent {
  ev_timestamp : Z;
  ev_playerId : option string;
  ev_type : eventType;
  ev_data : eventData
}.

Record doc := mkDoc {
  sessionId : string;
  players : list participant;
  gameMode : string;
  region : string;
  sessionStatus : status;
  maxPlayers : Z;
  startedAt : option Z;
  endedAt : option Z;
  duration : option Z;
  realTimeEvents : list event
}.

Definition set_players (v : list participant) (s : doc) : doc :=
  mkDoc (sessionId s) v (gameMode s) (region s) (sessionStatus s)
        (maxPlayers s) (startedAt s) (endedAt s) (duration s)
        (realTimeEvents s).

Definition set_status (v : status) (s : doc) : doc :=
  mkDoc (sessionId s) (players s) (gameMode s) (region s) v
        (maxPlayers s) (startedAt s) (endedAt s) (duration s)
        (realTimeEvents s).

Definition set_startedAt (v : option Z) (s : doc) : doc :=
  mkDoc (sessionId s) (players s) (gameMode s) (region s) (sessionStatus s)
        (maxPlayers s) v (endedAt s) (duration s) (realTimeEvents s).

Definition set_endedAt (v : option Z) (s : doc) : doc :=
  mkDoc (sessionId s) (players s) (gameMode s) (region s) (sessionStatus s)
        (maxPlayers s) (startedAt s) v (duration s) (realTimeEvents s).

Definition set_duration (v : option Z) (s : doc) : doc :=
  mkDoc (sessionId s) (players s) (gameMode s) (region s) (sessionStatus s)
        (maxPlayers s) (startedAt s) (endedAt s) v (realTimeEvents s).

(** [session.realTimeEvents.push(...)]; the timestamp defaults to now. *)
Definition pushEvent (now : Z) (pid : option string) (t : eventType)
           (d : eventData) (s : doc) : doc :=
  mkDoc (sessionId s) (players s) (gameMode s) (region s) (sessionStatus s)
        (maxPlayers s) (startedAt s) (endedAt s) (duration s)
        (realTimeEvents s ++ [mkEvent now pid t d]).

(** [!this.duration]: unset or zero. *)
Definition durationFalsy (d : option Z) : bool :=
  match d with
  | None => true
  | Some v => v =? 0
  end.

(** [gameSessionSchema.pre('save')]. *)
Definition preSave (now : Z) (s : doc) : doc :=
  match startedAt s with
  | Some t0 =>
      if status_eqb (sessionStatus s) completed && durationFalsy (duration s)
      then set_endedAt (Some now)
             (set_duration (Some (JS.round_div (now - t0) 1000)) s)
      else s
  | None => s
  end.

(** [session.save()]. *)
Definition save (store : gmap string doc) (now : Z) (s : doc)
  : gmap string doc * doc :=
  let s' := preSave now s in
  (<[sessionId s' := s']> store, s').

Inductive error :=
| SessionNotJoinable      (* 'Session not found or not joinable' *)
| SessionFull             (* 'Session is full' *)
| ActiveSessionNotFoundForPlayer (* 'Active session not found for player' *)
| PlayerNotInSession      (* 'Player not found in session' *)
| ActiveSessionNotFound   (* 'Active session not found' *)
| TypeError.              (* a property of [undefined] is written *)

Inductive result (A : Type) :=
| Ok (a : A)
| Throw (e : error).
Arguments Ok {A} a.
Arguments Throw {A} e.

Definition hasId (pid : string) (p : participant) : bool :=
  String.eqb (playerId p) pid.

(** [GameSession.createSession(gameData)]; [maxPlayers] is already
    defaulted to 4 by the caller's validation or by [|| 4]. *)
Definition createSession (store : gmap string doc) (sid : string)
           (mode reg : string) (maxP : Z) (now : Z)
  : gmap string doc * doc :=
  save store now
       (mkDoc sid [] mode reg waiting (if maxP =? 0 then 4 else maxP)
              None None None []).

Record playerData := mkPlayerData {
  pd_playerId : string;
  pd_username : string;
  pd_currentScore : Z
}.

(** [GameSession.joinSession(sessionId, playerData)]. *)
Definition joinSession (store : gmap string doc) (sid : string)
           (pd : playerData) (now : Z) : result (gmap string doc * doc) :=
  match store !! sid with
  | None => Throw SessionNotJoinable
  | Some session =>
      if negb (status_eqb (sessionStatus session) waiting
               || status_eqb (sessionStatus session) active)
      then Throw SessionNotJoinable
      else if maxPlayers session <=? Z.of_nat (length (players session))
      then Throw SessionFull
      else
        match List.find (hasId (pd_playerId pd)) (players session) with
        | Some _ => Ok (store, session)
        | None =>
            let s1 :=
              set_players
                (players session ++
                   [mkParticipant (pd_playerId pd) (pd_username pd)
                                  (pd_currentScore pd) 0 None true])
                session in
            let s2 :=
              pushEvent now (Some (pd_playerId pd)) player_joined
                        (joinedData (pd_username pd)) s1 in
            let s3 :=
              if (2 <=? Z.of_nat (length (players s2)))
                 && status_eqb (sessionStatus s2) waiting
              then pushEvent now None game_start
                     (gameStartData (Z.of_nat (length (players s2))))
                     (set_startedAt (Some now) (set_status active s2))
              else s2 in
            Ok (save store now s3)
        end
  end.

(** [GameSession.updatePlayerScore(sessionId, playerId, scoreData)];
    [delta] and [reason] arrive already defaulted ([|| 0],
    [|| 'score_update']). *)
Definition updatePlayerScore (store : gmap string doc) (sid pid : string)
           (score delta : Z) (reason : string) (now : Z)
  : result (gmap string doc * doc) :=
  match store !! sid with
  | None => Throw ActiveSessionNotFoundForPlayer
  | Some session =>
      if negb (status_eqb (sessionStatus session) active
               && existsb (hasId pid) (players session))
      then Throw ActiveSessionNotFoundForPlayer
      else
        match JS.findIndex (hasId pid) (players session) with
        | None => Throw PlayerNotInSession
        | Some i =>
            let s1 :=
              set_players
                (alter (set_currentSessionScore score) i (players session))
                session in
            Ok (save store now
                  (pushEvent now (Some pid) score_update
                             (scoreData score delta reason) s1))
        end
  end.

(** The comparator [(a, b) => b.currentSessionScore -
    a.currentSessionScore] of [endSession] is positive, and puts [b]
    first, when [b] has strictly more points: [outranks b a]. *)
Definition outranks (b a : participant) : bool :=
  currentSessionScore a <? currentSessionScore b.

(** [Array.prototype.sort] is stable: an element is inserted before the
    first one it outranks. *)
Fixpoint insertByScore (x : participant) (l : list participant)
  : list participant :=
  match l with
  | [] => [x]
  | y :: l' =>
      if outranks x y then x :: y :: l' else y :: insertByScore x l'
  end.

(** [[...session.players].sort((a, b) => b.score - a.score)]. *)
Definition sortPlayers (l : list participant) : list participant :=
  List.fold_left (fun acc x => insertByScore x acc) l [].

(** The [forEach] of [endSession]: the participant found by id gets
    [index + 1]. *)
Fixpoint assignPositions (sorted : list participant) (index : Z)
         (ps : list participant) : result (list participant) :=
  match sorted with
  | [] => Ok ps
  | player :: rest =>
      match JS.findIndex (hasId (playerId player)) ps with
      | None => Throw TypeError
      | Some playerIndex =>
          assignPositions rest (index + 1)
            (alter (set_position (index + 1)) playerIndex ps)
      end
  end.

Definition toFinalScore (p : participant) : finalScore :=
  mkFinalScore (playerId p) (username p) (currentSessionScore p)
               (position p).

(** [GameSession.endSession(sessionId)]. *)
Definition endSession (store : gmap string doc) (sid : string) (now : Z)
  : result (gmap string doc * doc) :=
  match store !! sid with
  | None => Throw ActiveSessionNotFound
  | Some session =>
      if negb (status_eqb (sessionStatus session) active)
      then Throw ActiveSessionNotFound
      else
        let s1 := set_endedAt (Some now) (set_status completed session) in
        match assignPositions (sortPlayers (players s1)) 0 (players s1) with
        | Throw e => Throw e
        | Ok ps =>
            let s2 := set_players ps s1 in
            Ok (save store now
                  (pushEvent now None game_end
                     (gameEndData (List.map toFinalScore (players s2))) s2))
        end
  end.

(** [session.removePlayer(playerId)]. *)
Definition removePlayer (store : gmap string doc) (session : doc)
           (pid : string) (now : Z) : gmap string doc * doc :=
  match JS.findIndex (hasId pid) (players session) with
  | Some playerIndex =>
      let s1 :=
        set_players (alter (set_isActive false) playerIndex (players session))
                    session in
      let s2 := pushEvent now (Some pid) player_left
                          (leftData "disconnected") s1 in
      let activePlayers := List.filter isActive (players s2) in
      let s3 :=
        if (length activePlayers =? 0)%nat
        then set_endedAt (Some now) (set_status abandoned s2)
        else s2 in
      save store now s3
  | None => save store now session
  end.

End GameSession.

(** ** IEEE-754 binary64, the arithmetic of JavaScript numbers *)

Module Float64.

Definition prec : Z := 53.
Definition emax : Z := 1024.

(** The double nearest to an integer (the integer itself below 2^53). *)
Definition of_Z (z : Z) : spec_float := binary_normalize prec emax z 0 false.

Definition mul : spec_float -> spec_float -> spec_float := SFmul prec emax.
Definition div : spec_float -> spec_float -> spec_float := SFdiv prec emax.

(** [Math.round(x)]: the integer [floor(x + 1/2)], taken exactly on the
    value [m * 2^e] of the double; [None] is [NaN] or an infinity. *)
Definition Math_round (x : spec_float) : option Z :=
  match x with
  | S754_zero _ => Some 0
  | S754_finite s m e =>
      let v := if s then Z.neg m else Z.pos m in
      Some (if 0 <=? e
            then v * 2 ^ e
            else (2 * v + 2 ^ (- e)) / 2 ^ (1 - e))
  | S754_infinity _ => None
  | S754_nan => None
  end.

End Float64.

(** ** routes/sessions: ending a session *)

Module SessionRoutes.

(** [calculatePositionBonus(position, totalPlayers)].  The quotient
    [(totalPlayers - position + 1) / totalPlayers] is rounded to a
    double before it is multiplied by [baseBonus = 100]; the product is
    rounded to a double again before [Math.round].  The difference
    [totalPlayers - position + 1] is an exact integer. *)
Definition calculatePositionBonus (position totalPlayers : Z) : option Z :=
  if totalPlayers <? 2 then Some 0
  else
    let baseBonus := Float64.of_Z 100 in
    let positionMultiplier :=
      Float64.div (Float64.of_Z (totalPlayers - position + 1))
                  (Float64.of_Z totalPlayers) in
    Float64.Math_round (Float64.mul baseBonus positionMultiplier).

(** The bonus of a participant; a participant without a position makes
    the arithmetic [NaN] unless the early return applies. *)
Definition scoreBonus (p : GameSession.participant) (totalPlayers : Z)
  : option Z :=
  match GameSession.position p with
  | Some pos => calculatePositionBonus pos totalPlayers
  | None => if totalPlayers <? 2 then Some 0 else None
  end.

(** The write-back of the end handler,
    [endedSession.players.map(async player => ...)]: every active
    participant's durable score becomes the session score plus the
    bonus.  The updates are issued in list order and do not wait for
    one another; the flag is [false] when one of them is rejected (a
    [NaN] score), which does not stop the others. *)
Fixpoint writeBack (store : list Player.doc)
         (ps : list GameSession.participant) (totalPlayers : Z)
         (mode : string) (now : Z) : list Player.doc * bool :=
  match ps with
  | [] => (store, true)
  | player :: rest =>
      if GameSession.isActive player then
        match scoreBonus player totalPlayers with
        | Some bonus =>
            let finalScore := GameSession.currentSessionScore player + bonus in
            writeBack
              (fst (Player.updatePlayerScore store
                      (GameSession.playerId player) finalScore
                      (Some mode) now))
              rest totalPlayers mode now
        | None =>
            (fst (writeBack store rest totalPlayers mode now), false)
        end
      else writeBack store rest totalPlayers mode now
  end.

Inductive response :=
| Ended (session : GameSession.doc)   (* 200 *)
| SessionNotFound                     (* 404, SESSION_NOT_FOUND *)
| InternalServerError.                (* 500 *)

(** [POST /api/sessions/:sessionId/end], up to the score write-back;
    the assembly of the response body is not modelled. *)
Definition endHandler (sessions : gmap string GameSession.doc)
           (store : list Player.doc) (sid : string) (now : Z)
  : gmap string GameSession.doc * list Player.doc * response :=
  match GameSession.endSession sessions sid now with
  | GameSession.Throw GameSession.ActiveSessionNotFound =>
      (sessions, store, SessionNotFound)
  | GameSession.Throw _ => (sessions, store, InternalServerError)
  | GameSession.Ok (sessions', endedSession) =>
      let '(store', ok) :=
        writeBack store (GameSession.players endedSession)
          (Z.of_nat (length (GameSession.players endedSession)))
          (GameSession.gameMode endedSession) now in
      (sessions', store', if ok then Ended endedSession
                          else InternalServerError)
  end.

(** [POST /api/sessions/:sessionId/leave]: the session is looked up by
    id alone, whatever its status. *)
Definition leaveHandler (sessions : gmap string GameSession.doc)
           (sid pid : string) (now : Z)
  : gmap string GameSession.doc * option GameSession.doc :=
  match sessions !! sid with
  | None => (sessions, None)
  | Some session =>
      let '(sessions', updated) :=
        GameSession.removePlayer sessions session pid now in
      (sessions', Some updated)
  end.

(** [isJoinable] as [GET /api/sessions/:sessionId] and the session list
    report it. *)
Definition isJoinable (session : GameSession.doc) : bool :=
  GameSession.status_eqb (GameSession.sessionStatus session)
                         GameSession.waiting
  && (Z.of_nat (length (GameSession.players session))
      <? GameSession.maxPlayers session).



End SessionRoutes.

(** ** middleware/validation *)

Module Validation.

Definition regions : list string :=
  ["NA"; "EU"; "ASIA"; "SA"; "OCE"; "GLOBAL"].

Definition gameModes : list string :=
  ["classic"; "blitz"; "survival"; "team"; "ranked"].

Definition inList (s : string) (l : list string) : bool :=
  existsb (String.eqb s) l.

(** [Joi.string().required()]: present and not empty. *)
Definition requiredString (s : option string) : bool := JS.truthy s.

(** [Joi.string().optional()]: absent, or present and not empty. *)
Definition optionalString (s : option string) : bool :=
  match s with
  | None => true
  | Some _ => JS.truthy s
  end.

(** [Joi.string().valid(...).optional()]. *)
Definition optionalOneOf (l : list string) (s : option string) : bool :=
  match s with
  | None => true
  | Some v => inList v l
  end.

(** The payload of [player:join], field by field. *)
Record joinRoom := mkJoinRoom {
  jr_playerId : option string;
  jr_region : option string;
  jr_gameMode : option string
}.

Definition validJoinRoom (d : joinRoom) : bool :=
  requiredString (jr_playerId d)
  && optionalOneOf regions (jr_region d)
  && optionalOneOf gameModes (jr_gameMode d).

(** The payload of [score:update]. *)
Record scoreUpdate := mkScoreUpdate {
  su_playerId : option string;
  su_sessionId : option string;
  su_score : option Z;
  su_gameMode : option string;
  su_delta : option Z;
  su_reason : option string
}.

Definition validScoreUpdate (d : scoreUpdate) : bool :=
  requiredString (su_playerId d)
  && optionalString (su_sessionId d)
  && match su_score d with
     | Some v => 0 <=? v
     | None => false
     end
  && optionalOneOf gameModes (su_gameMode d)
  && match su_reason d with
     | Some r => JS.truthy (su_reason d) && (String.length r <=? 100)%nat
     | None => true
     end.

Record rateCheck := mkRateCheck {
  allowed : bool;
  remaining : Z;
  resetTime : option Z     (* [None]: [NaN], no oldest entry *)
}.

(** [validateScoreUpdateRate(playerId, maxUpdatesPerMinute)] over the
    module-level [scoreUpdateRateLimit] map. *)
Definition validateScoreUpdateRate (limits : gmap string (list Z))
           (playerId : string) (maxUpdatesPerMinute : Z) (now : Z)
  : gmap string (list Z) * rateCheck :=
  let minuteAgo := now - 60 * 1000 in
  let limits1 :=
    match limits !! playerId with
    | Some _ => limits
    | None => <[playerId := []]> limits
    end in
  let playerUpdates := default [] (limits1 !! playerId) in
  let recentUpdates :=
    List.filter (fun timestamp => minuteAgo <? timestamp) playerUpdates in
  let limits2 := <[playerId := recentUpdates]> limits1 in
  if maxUpdatesPerMinute <=? Z.of_nat (length recentUpdates)
  then
    (limits2,
     mkRateCheck false 0
       (match recentUpdates with
        | oldest :: _ => Some (JS.ceil_div (oldest + 60 * 1000 - now) 1000)
        | [] => None
        end))
  else
    let recentUpdates' := recentUpdates ++ [now] in
    (<[playerId := recentUpdates']> limits2,
     mkRateCheck true
       (maxUpdatesPerMinute - Z.of_nat (length recentUpdates'))
       (Some 60)).

(** The payload of [player:status]. *)
Record playerStatus := mkPlayerStatus {
  ps_playerId : option string;
  ps_isOnline : option bool
}.

Definition validPlayerStatus (d : playerStatus) : bool :=
  requiredString (ps_playerId d)
  && match ps_isOnline d with
     | Some _ => true
     | None => false
     end.

End Validation.

(** ** services/SocketService *)

Module SocketService.

Record connectionInfo := mkConn {
  socketId : string;
  lastActivity : Z;
  region : string;
  gameMode : string;
  username : string
}.

Definition set_lastActivity (v : Z) (c : connectionInfo) : connectionInfo :=
  mkConn (socketId c) v (region c) (gameMode c) (username c).

Definition set_gameMode (v : string) (c : connectionInfo) : connectionInfo :=
  mkConn (socketId c) (lastActivity c) (region c) v (username c).

(** The [type] of an ['error'] event. *)
Inductive errorType :=
| validation_error
| player_not_found
| internal_error
| rate_limit_exceeded (resetTime : option Z)
| unauthorized
| update_failed
| not_authenticated.

Record broadcastData := mkBroadcast {
  bd_playerId : string;
  bd_username : string;
  bd_oldScore : Z;
  bd_newScore : Z;
  bd_delta : Z;
  bd_gameMode : string;
  bd_region : string;
  bd_reason : string
}.

(** Outgoing events; timestamps in payloads are left out. *)
Inductive message :=
| Error (e : errorType)
| PlayerJoined (playerId username : string) (currentScore : Z)
               (region gameMode : string) (rooms : list string)
| PlayerOnline (playerId username : string) (currentScore : Z)
| ScoreUpdated (b : broadcastData) (sessionId : option string)
               (totalGamesPlayed averageScore bestScore : Z)
| LeaderboardScoreUpdated (b : broadcastData)
| SessionScoreUpdated (sessionId playerId username : string)
                      (sessionScore : option Z) (globalScore : Z)
| LeaderboardSubscribed (rooms : list string)
| LeaderboardUnsubscribed (rooms : list string).

Inductive target :=
| ToSender                          (* socket.emit *)
| ToRoomButSender (room : string)   (* socket.to(room).emit *)
| ToRoom (room : string).           (* io.to(room).emit *)

(** The service with what it reaches: its three maps, the rooms every
    socket is in, the two collections and the rate-limit map. *)
Record state := mkState {
  connectedPlayers : gmap string connectionInfo;
  socketToPlayer : gmap string string;
  roomSubscriptions : gmap string (gset string);
  socketRooms : gmap string (gset string);
  playerStore : list Player.doc;
  sessionStore : gmap string GameSession.doc;
  scoreUpdateRateLimit : gmap string (list Z)
}.

Definition roomsOf (st : state) (socket : string) : gset string :=
  default ∅ (socketRooms st !! socket).

Definition subscriptionsOf (st : state) (playerId : string) : gset string :=
  default ∅ (roomSubscriptions st !! playerId).

Definition truthyStr (s : string) : bool := negb (String.eqb s "").

(** [generateRoomNames(region, gameMode)]. *)
Definition generateRoomNames (region gameMode : option string)
  : list string :=
  let regional :=
    match region with
    | Some r => truthyStr r && negb (String.eqb r "GLOBAL")
    | None => false
    end in
  let r := default "" region in
  let m := default "" gameMode in
  ["global"]
  ++ (if regional then [String.append "region:" r] else [])
  ++ (if JS.truthy gameMode
      then [String.append "gamemode:" m]
           ++ (if regional
               then [String.append "region:"
                       (String.append r (String.append ":gamemode:" m))]
               else [])
      else []).

(** [async handlePlayerJoin(socket, data)]. *)
Definition handlePlayerJoin (st : state) (socket : string)
           (data : Validation.joinRoom) (now : Z)
  : state * list (target * message) :=
  if negb (Validation.validJoinRoom data)
  then (st, [(ToSender, Error validation_error)])
  else
    let playerId := default "" (Validation.jr_playerId data) in
    match Player.findOne (playerStore st) playerId with
    | None => (st, [(ToSender, Error player_not_found)])
    | Some found =>
        let '(store', player) :=
          Player.updateOnlineStatus (playerStore st) found true now in
        let region' :=
          JS.or_else (Validation.jr_region data) (Player.region player) in
        let gameMode' :=
          JS.or_else (Validation.jr_gameMode data)
                     (Player.currentGameMode player) in
        let rooms := generateRoomNames (Some region') (Some gameMode') in
        let st' :=
          mkState
            (<[playerId := mkConn socket now region' gameMode'
                                  (Player.username player)]>
               (connectedPlayers st))
            (<[socket := playerId]> (socketToPlayer st))
            (<[playerId := list_to_set rooms]> (roomSubscriptions st))
            (<[socket := roomsOf st socket ∪ list_to_set rooms]>
               (socketRooms st))
            store' (sessionStore st) (scoreUpdateRateLimit st) in
        (st',
         (ToSender,
          PlayerJoined playerId (Player.username player)
                       (Player.currentScore player) (Player.region player)
                       (Player.currentGameMode player) rooms)
         :: List.map
              (fun room =>
                 (ToRoomButSender room,
                  PlayerOnline playerId (Player.username player)
                               (Player.currentScore player)))
              rooms)
    end.

Definition set_rateLimit (v : gmap string (list Z)) (st : state) : state :=
  mkState (connectedPlayers st) (socketToPlayer st) (roomSubscriptions st)
          (socketRooms st) (playerStore st) (sessionStore st) v.

Definition set_sessionStore (v : gmap string GameSession.doc) (st : state)
  : state :=
  mkState (connectedPlayers st) (socketToPlayer st) (roomSubscriptions st)
          (socketRooms st) (playerStore st) v (scoreUpdateRateLimit st).

Definition set_playerStore (v : list Player.doc) (st : state) : state :=
  mkState (connectedPlayers st) (socketToPlayer st) (roomSubscriptions st)
          (socketRooms st) v (sessionStore st) (scoreUpdateRateLimit st).

Definition set_connectedPlayers (v : gmap string connectionInfo)
           (st : state) : state :=
  mkState v (socketToPlayer st) (roomSubscriptions st) (socketRooms st)
          (playerStore st) (sessionStore st) (scoreUpdateRateLimit st).

(** The part of [handleScoreUpdate] after the ownership check: the two
    stores, the connection info and the three emissions. *)
Definition applyScoreUpdate (st : state) (playerId : string)
           (data : Validation.scoreUpdate) (now : Z)
  : state * list (target * message) :=
  let score := default 0 (Validation.su_score data) in
  let delta := default 0 (Validation.su_delta data) in
  let reason := JS.or_else (Validation.su_reason data) "score_update" in
  let mode := Validation.su_gameMode data in
  let sessionStep :=
    match Validation.su_sessionId data with
    | Some sessionId =>
        if truthyStr sessionId
        then
          match GameSession.updatePlayerScore (sessionStore st) sessionId
                  playerId score delta reason now with
          | GameSession.Ok (sessions', updated) =>
              GameSession.Ok (set_sessionStore sessions' st,
                              Some (sessionId, updated))
          | GameSession.Throw e => GameSession.Throw e
          end
        else GameSession.Ok (st, None)
    | None => GameSession.Ok (st, None)
    end in
  match sessionStep with
  | GameSession.Throw _ => (st, [(ToSender, Error internal_error)])
  | GameSession.Ok (st1, sessionUpdate) =>
      match Player.updatePlayerScore (playerStore st1) playerId score
              mode now with
      | (_, None) => (st1, [(ToSender, Error update_failed)])
      | (store', Some updatedPlayer) =>
          let st2 := set_playerStore store' st1 in
          let st3 :=
            match connectedPlayers st2 !! playerId with
            | Some connectionInfo =>
                let c1 := set_lastActivity now connectionInfo in
                let c2 :=
                  if JS.truthy mode
                  then set_gameMode (JS.or_else mode (gameMode c1)) c1
                  else c1 in
                set_connectedPlayers
                  (<[playerId := c2]> (connectedPlayers st2)) st2
            | None => st2
            end in
          let b :=
            mkBroadcast playerId (Player.username updatedPlayer)
                        (score - delta)
                        (Player.currentScore updatedPlayer) delta
                        (Player.currentGameMode updatedPlayer)
                        (Player.region updatedPlayer) reason in
          (st3,
           (ToSender,
            ScoreUpdated b (fst <$> sessionUpdate)
                         (Player.totalGamesPlayed updatedPlayer)
                         (Player.averageScore updatedPlayer)
                         (Player.bestScore updatedPlayer))
           :: List.map (fun room => (ToRoomButSender room,
                                      LeaderboardScoreUpdated b))
                       (elements (subscriptionsOf st3 playerId))
           ++ match sessionUpdate with
              | Some (sessionId, updated) =>
                  [(ToRoom (String.append "session:" sessionId),
                    SessionScoreUpdated sessionId playerId
                      (Player.username updatedPlayer)
                      (GameSession.currentSessionScore <$>
                         List.find (GameSession.hasId playerId)
                                   (GameSession.players updated))
                      (Player.currentScore updatedPlayer))]
              | None => []
              end)
      end
  end.

(** [async handleScoreUpdate(socket, data)]: validation, then the rate
    limit, then the ownership check, then the update. *)
Definition handleScoreUpdate (st : state) (socket : string)
           (data : Validation.scoreUpdate) (now : Z)
  : state * list (target * message) :=
  if negb (Validation.validScoreUpdate data)
  then (st, [(ToSender, Error validation_error)])
  else
    let playerId := default "" (Validation.su_playerId data) in
    let '(limits', rateCheck) :=
      Validation.validateScoreUpdateRate (scoreUpdateRateLimit st)
                                         playerId 60 now in
    let st1 := set_rateLimit limits' st in
    if negb (Validation.allowed rateCheck)
    then (st1, [(ToSender,
                 Error (rate_limit_exceeded (Validation.resetTime rateCheck)))])
    else
      if negb (bool_decide (socketToPlayer st1 !! socket = Some playerId))
      then (st1, [(ToSender, Error unauthorized)])
      else applyScoreUpdate st1 playerId data now.

Definition set_rooms (subs : gmap string (gset string))
           (rooms : gmap string (gset string)) (st : state) : state :=
  mkState (connectedPlayers st) (socketToPlayer st) subs rooms
          (playerStore st) (sessionStore st) (scoreUpdateRateLimit st).

(** [async handleLeaderboardSubscription(socket, data)], [data] being
    [{ region, gameMode }]. *)
Definition handleLeaderboardSubscription (st : state) (socket : string)
           (region gameMode : option string)
  : state * list (target * message) :=
  match socketToPlayer st !! socket with
  | None => (st, [(ToSender, Error not_authenticated)])
  | Some playerId =>
      let rooms := generateRoomNames region gameMode in
      (set_rooms
         (<[playerId := subscriptionsOf st playerId ∪ list_to_set rooms]>
            (roomSubscriptions st))
         (<[socket := roomsOf st socket ∪ list_to_set rooms]>
            (socketRooms st))
         st,
       [(ToSender, LeaderboardSubscribed rooms)])
  end.

(** [async handleLeaderboardUnsubscription(socket, data)]. *)
Definition handleLeaderboardUnsubscription (st : state) (socket : string)
           (region gameMode : option string)
  : state * list (target * message) :=
  match socketToPlayer st !! socket with
  | None => (st, [])
  | Some playerId =>
      let roomsToLeave := generateRoomNames region gameMode in
      (set_rooms
         (<[playerId := subscriptionsOf st playerId ∖ list_to_set roomsToLeave]>
            (roomSubscriptions st))
         (<[socket := roomsOf st socket ∖ list_to_set roomsToLeave]>
            (socketRooms st))
         st,
       [(ToSender, LeaderboardUnsubscribed roomsToLeave)])
  end.

(** Outgoing events of the remaining handlers. *)
Inductive notice :=
| NoticeError (e : errorType)
| InvalidData                      (* error of type 'invalid_data' *)
| PlayerStatusChanged (playerId username : string) (isOnline : bool)
| PlayerStatusUpdated (playerId username : string) (isOnline : bool)
| SessionJoined (sessionId : string)
| SessionPlayerJoined (playerId : string) (username : option string)
| SessionLeft (sessionId : string)
| SessionPlayerLeft (playerId : string) (username : option string)
| PlayerOffline (playerId username reason : string).

(** [async handlePlayerStatus(socket, data)]. *)
Definition handlePlayerStatus (st : state) (socket : string)
           (data : Validation.playerStatus) (now : Z)
  : state * list (target * notice) :=
  if negb (Validation.validPlayerStatus data)
  then (st, [(ToSender, NoticeError validation_error)])
  else
    let playerId := default "" (Validation.ps_playerId data) in
    let online := default false (Validation.ps_isOnline data) in
    if negb (bool_decide (socketToPlayer st !! socket = Some playerId))
    then (st, [(ToSender, NoticeError unauthorized)])
    else
      match Player.findOne (playerStore st) playerId with
      | None => (st, [(ToSender, NoticeError player_not_found)])
      | Some found =>
          let '(store', player) :=
            Player.updateOnlineStatus (playerStore st) found online now in
          let st1 := set_playerStore store' st in
          let st2 :=
            match connectedPlayers st1 !! playerId with
            | Some connectionInfo =>
                set_connectedPlayers
                  (<[playerId := set_lastActivity now connectionInfo]>
                     (connectedPlayers st1)) st1
            | None => st1
            end in
          (st2,
           List.map (fun room =>
                       (ToRoomButSender room,
                        PlayerStatusChanged playerId (Player.username player)
                                            online))
                    (elements (subscriptionsOf st2 playerId))
           ++ [(ToSender,
                PlayerStatusUpdated playerId (Player.username player) online)])
      end.

Definition sessionRoom (sessionId : string) : string :=
  String.append "session:" sessionId.

(** [async handleSessionJoin(socket, data)], [data] being [{ sessionId }]. *)
Definition handleSessionJoin (st : state) (socket : string)
           (sessionId : option string)
  : state * list (target * notice) :=
  match socketToPlayer st !! socket, sessionId with
  | Some playerId, Some sid =>
      if truthyStr playerId && truthyStr sid
      then
        (set_rooms (roomSubscriptions st)
                   (<[socket := roomsOf st socket ∪ {[ sessionRoom sid ]}]>
                      (socketRooms st))
                   st,
         [(ToSender, SessionJoined sid);
          (ToRoomButSender (sessionRoom sid),
           SessionPlayerJoined playerId
             (username <$> connectedPlayers st !! playerId))])
      else (st, [(ToSender, InvalidData)])
  | _, _ => (st, [(ToSender, InvalidData)])
  end.

(** [async handleSessionLeave(socket, data)]. *)
Definition handleSessionLeave (st : state) (socket : string)
           (sessionId : option string)
  : state * list (target * notice) :=
  match sessionId with
  | Some sid =>
      if truthyStr sid
      then
        (set_rooms (roomSubscriptions st)
                   (<[socket := roomsOf st socket ∖ {[ sessionRoom sid ]}]>
                      (socketRooms st))
                   st,
         (ToSender, SessionLeft sid)
         :: match socketToPlayer st !! socket with
            | Some playerId =>
                if truthyStr playerId
                then [(ToRoomButSender (sessionRoom sid),
                       SessionPlayerLeft playerId
                         (username <$> connectedPlayers st !! playerId))]
                else []
            | None => []
            end)
      else (st, [])
  | None => (st, [])
  end.

(** [async handleDisconnection(socket, reason)].  The transport has
    already taken the socket out of all its rooms when the event
    fires. *)
Definition handleDisconnection (st : state) (socket : string)
           (reason : string) (now : Z)
  : state * list (target * notice) :=
  let rooms' := delete socket (socketRooms st) in
  match socketToPlayer st !! socket with
  | Some playerId =>
      if truthyStr playerId
      then
        let '(store', out) :=
          match Player.findOne (playerStore st) playerId with
          | Some found =>
              let '(store', player) :=
                Player.updateOnlineStatus (playerStore st) found false now in
              (store',
               List.map (fun room =>
                           (ToRoomButSender room,
                            PlayerOffline playerId (Player.username player)
                                          reason))
                        (elements (subscriptionsOf st playerId)))
          | None => (playerStore st, [])
          end in
        (mkState (delete playerId (connectedPlayers st))
                 (delete socket (socketToPlayer st))
                 (delete playerId (roomSubscriptions st))
                 rooms' store' (sessionStore st) (scoreUpdateRateLimit st),
         out)
      else
        (mkState (connectedPlayers st) (delete socket (socketToPlayer st))
                 (roomSubscriptions st) rooms' (playerStore st)
                 (sessionStore st) (scoreUpdateRateLimit st),
         [])
  | None =>
      (mkState (connectedPlayers st) (delete socket (socketToPlayer st))
               (roomSubscriptions st) rooms' (playerStore st)
               (sessionStore st) (scoreUpdateRateLimit st),
       [])
  end.

Definition inactiveThreshold : Z := 10 * 60 * 1000.

(** The test of the cleanup interval on one player id. *)
Definition isInactive (st : state) (now : Z) (playerId : string) : bool :=
  match connectedPlayers st !! playerId with
  | Some connectionInfo =>
      inactiveThreshold <? now - lastActivity connectionInfo
  | None => false
  end.

(** One run of the cleanup interval: the inactive entries leave
    [connectedPlayers] and [roomSubscriptions]; the sockets named by
    them are the ones it asks the transport to disconnect. *)
Definition cleanup (st : state) (now : Z) : state * list string :=
  (mkState
     (filter (fun kv => isInactive st now kv.1 = false) (connectedPlayers st))
     (socketToPlayer st)
     (filter (fun kv => isInactive st now kv.1 = false) (roomSubscriptions st))
     (socketRooms st) (playerStore st) (sessionStore st)
     (scoreUpdateRateLimit st),
   socketId <$> (map_to_list
                   (filter (fun kv => isInactive st now kv.1 = true)
                           (connectedPlayers st))).*2).

(** [getConnectedPlayersCount()] and [isPlayerOnline(playerId)]. *)
Definition getConnectedPlayersCount (st : state) : nat :=
  size (connectedPlayers st).

Definition isPlayerOnline (st : state) (playerId : string) : bool :=
  bool_decide (is_Some (connectedPlayers st !! playerId)).

End SocketService.

(** ** routes/leaderboard *)

Module LeaderboardRoutes.

Record entry := mkEntry {
  rank : Z;
  player : Player.doc
}.

(** [players.map((player, index) => ({ rank: base + index + 1, ... }))]. *)
Fixpoint withRanks (base : Z) (players : list Player.doc) : list entry :=
  match players with
  | [] => []
  | p :: rest => mkEntry (base + 1) p :: withRanks (base + 1) rest
  end.

Record pagination := mkPagination {
  currentPage : Z;
  totalPages : Z;
  totalPlayers : Z;
  hasNextPage : bool;
  hasPreviousPage : bool;
  playersPerPage : Z
}.

(** [GET /api/leaderboard] after query validation ([limit] in 1..100,
    [page >= 1]): the page of players with their listing ranks, and the
    pagination block. *)
Definition leaderboard (store : list Player.doc) (limit page : nat)
           (region gameMode : option string) (onlineOnly : bool)
  : list entry * pagination :=
  let skip := ((page - 1) * limit)%nat in
  let o := Player.mkOptions limit skip region gameMode onlineOnly in
  let players := Player.getLeaderboard store o in
  let total := Player.countDocuments store (Player.leaderboardConditions o) in
  let pages := JS.ceil_div total (Z.of_nat limit) in
  (withRanks (Z.of_nat skip) players,
   mkPagination (Z.of_nat page) pages total
                (Z.of_nat page <? pages) (1 <? Z.of_nat page)
                (Z.of_nat limit)).



End LeaderboardRoutes.

(** * The specification's words and auxiliary definitions *)

(** ** Reading of the specification's words, to compare with the code *)

Module Spec.

(** A region filter admits a player: no region, or [GLOBAL], admits
    everybody; any other value admits the players of that region. *)
Definition regionAdmits (filter : option string) (p : Player.doc) : bool :=
  match filter with
  | None => true
  | Some r =>
      String.eqb r "" || String.eqb r "GLOBAL"
      || String.eqb (Player.region p) r
  end.

(** A game-mode filter admits a player. *)
Definition modeAdmits (filter : option string) (p : Player.doc) : bool :=
  match filter with
  | None => true
  | Some m => String.eqb m "" || String.eqb (Player.currentGameMode p) m
  end.

(** The players strictly ahead of [p] under a filter. *)
Definition ahead (store : list Player.doc) (p : Player.doc)
           (region gameMode : option string) : list Player.doc :=
  List.filter
    (fun q => (Player.currentScore p <? Player.currentScore q)
              && regionAdmits region q && modeAdmits gameMode q)
    store.

(** [round(100 * (totalPlayers - position + 1) / totalPlayers)], zero
    below two participants, in exact arithmetic. *)
Definition positionBonus (position totalPlayers : Z) : Z :=
  if totalPlayers <? 2 then 0
  else JS.round_div (100 * (totalPlayers - position + 1)) totalPlayers.

End Spec.

(** ** Auxiliary definitions for the statements *)

(** A session that [joinSession] accepts. *)
Definition joinable (s : GameSession.doc) : Prop :=
  GameSession.sessionStatus s = GameSession.waiting
  \/ GameSession.sessionStatus s = GameSession.active.

(** The participant [p] with the position the [forEach] of [endSession]
    gives it: [k + 1] plus the index of its id in the sorted copy. *)
Definition placed (sorted : list GameSession.participant) (k : Z)
           (p : GameSession.participant) : GameSession.participant :=
  match JS.findIndex (GameSession.hasId (GameSession.playerId p)) sorted with
  | Some j => GameSession.set_position (k + Z.of_nat j + 1) p
  | None => p
  end.

(** Descending in-session scores. *)
Definition desc (l : list GameSession.participant) : Prop :=
  StronglySorted
    (fun a b => GameSession.currentSessionScore b
                <= GameSession.currentSessionScore a) l.

(** A session of [n] participants, all active, participant [k] (from 1)
    holding [1000 - k] points: they finish in list order. *)
Definition lineUp (n : nat) : list GameSession.participant :=
  List.map
    (fun k => GameSession.mkParticipant
                (String (Ascii.ascii_of_nat (64 + k)) "") "player" 0
                (1000 - Z.of_nat k) None true)
    (seq 1 n).

(** A full session of [n], started and still active. *)
Definition fullHouse (n : nat) : GameSession.doc :=
  GameSession.mkDoc "g1" (lineUp n) "classic" "NA" GameSession.active
                    (Z.of_nat n) (Some 0) None None [].

(** The code's bonus equals the exact formula at [(position, total)]. *)
Definition bonusAgrees (total position : nat) : bool :=
  match SessionRoutes.calculatePositionBonus (Z.of_nat position)
                                             (Z.of_nat total) with
  | Some b => b =? Spec.positionBonus (Z.of_nat position) (Z.of_nat total)
  | None => false
  end.

(** The two places, in sessions of up to 100, where it does not. *)
Definition misrounded (total position : nat) : bool :=
  ((total =? 40) && (position =? 18) || (total =? 80) && (position =? 35))%nat.

(** The comparison at every position of every session size up to
    [upTo]. *)
Definition bonusTable (upTo : nat) : bool :=
  forallb (fun total =>
             forallb (fun position =>
                        xorb (bonusAgrees total position)
                             (misrounded total position))
                     (seq 1 total))
          (seq 0 (S upTo)).

(** The shape of the bonus at one position of a session of [total]:
    a number from 0 to 100, at least 1 and exactly 100 for the first
    place once there are two participants, and no smaller than the
    bonus of the next position. *)
Definition bonusShaped (total position : nat) : bool :=
  match SessionRoutes.calculatePositionBonus (Z.of_nat position)
                                             (Z.of_nat total),
        SessionRoutes.calculatePositionBonus (Z.of_nat (S position))
                                             (Z.of_nat total) with
  | Some b, Some next =>
      (0 <=? b) && (b <=? 100) && (next <=? b)
      && (if (2 <=? total)%nat
          then (1 <=? b) && (if (position =? 1)%nat then b =? 100 else true)
          else true)
  | _, _ => false
  end.

(** The shape at every position of every session size up to [upTo]. *)
Definition bonusShape (upTo : nat) : bool :=
  forallb (fun total => forallb (bonusShaped total) (seq 1 total))
          (seq 0 (S upTo)).

(** One attempt: the player id it names and the time it is made. *)
Definition attempt : Type := string * Z.

(** What happened to an attempt: [true] when it was let through. *)
Definition outcome : Type := string * Z * bool.

(** One attempt against the limiter, with its outcome logged. *)
Definition rateStep (st : gmap string (list Z) * list outcome) (a : attempt)
  : gmap string (list Z) * list outcome :=
  let '(limits', rc) :=
    Validation.validateScoreUpdateRate (fst st) (fst a) 60 (snd a) in
  (limits', snd st ++ [(fst a, snd a, Validation.allowed rc)]).

(** The attempts made one after the other, from a given map. *)
Definition runAttempts (limits : gmap string (list Z)) (l : list attempt)
  : gmap string (list Z) * list outcome :=
  fold_left rateStep l (limits, []).

(** The times of the attempts of [pid] that were let through. *)
Definition accepted (log : list outcome) (pid : string) : list Z :=
  List.map (fun o => snd (fst o))
    (List.filter (fun o => String.eqb (fst (fst o)) pid && snd o) log).

(** How many of them lie in the 60 seconds that end at [now]. *)
Definition acceptedInWindow (log : list outcome) (pid : string) (now : Z)
  : nat :=
  length (List.filter (fun t => now - 60 * 1000 <? t) (accepted log pid)).

(** Attempts in the order of their times. *)
Definition chronological (l : list attempt) : Prop :=
  StronglySorted (fun a b => snd a <= snd b) l.

(** The timestamps kept for a player id; none when it has no entry. *)
Definition stored (limits : gmap string (list Z)) (pid : string) : list Z :=
  default [] (limits !! pid).

(** What the map keeps of the log: everything newer than [bound]. *)
Definition tracks (bound : Z) (st : gmap string (list Z) * list outcome)
  : Prop :=
  forall pid m, bound <= m ->
    List.filter (fun t => m <? t) (stored (fst st) pid)
    = List.filter (fun t => m <? t) (accepted (snd st) pid).

(** A region is given and is not [GLOBAL]. *)
Definition regionGiven (region : option string) : bool :=
  match region with
  | Some r => negb (String.eqb r "") && negb (String.eqb r "GLOBAL")
  | None => false
  end.

(** A game mode is given. *)
Definition modeGiven (gameMode : option string) : bool :=
  match gameMode with
  | Some m => negb (String.eqb m "")
  | None => false
  end.

(** The channel set in the words of the specification: always
    ["global"]; the region channel for a region that is given and not
    [GLOBAL]; the game-mode channel for a mode that is given; their
    conjunction when both hold. *)
Definition channels (region gameMode : option string) : gset string :=
  let r := default "" region in
  let m := default "" gameMode in
  {[ "global" ]}
  ∪ (if regionGiven region then {[ String.append "region:" r ]} else ∅)
  ∪ (if modeGiven gameMode then {[ String.append "gamemode:" m ]} else ∅)
  ∪ (if regionGiven region && modeGiven gameMode
     then {[ String.append "region:"
               (String.append r (String.append ":gamemode:" m)) ]}
     else ∅).

(** The leaderboard order: [a] may be listed before [b]. *)
Definition listedBefore (a b : Player.doc) : Prop :=
  Player.currentScore b <= Player.currentScore a
  /\ (Player.currentScore a = Player.currentScore b ->
      Player.lastActiveAt b <= Player.lastActiveAt a).

(** The whole leaderboard under a filter, as [getLeaderboard] orders it. *)
Definition board (store : list Player.doc) (region gameMode : option string)
           (online : bool) : list Player.doc :=
  Player.getLeaderboard store (Player.mkOptions 0 0 region gameMode online).

(** * Properties *)

(** ** Player: derived fields *)

Lemma preSave_bestScore (p : Player.doc) :
  Player.bestScore (Player.preSave p)
  = Z.max (Player.bestScore p) (Player.currentScore p).
Proof.
  unfold Player.preSave.
  destruct (0 <? Player.totalGamesPlayed p); simpl;
    destruct (Player.bestScore p <? Player.currentScore p) eqn:E; simpl; lia.
Qed.


Lemma preSave_keeps (p : Player.doc) :
  Player.playerId (Player.preSave p) = Player.playerId p
  /\ Player.currentScore (Player.preSave p) = Player.currentScore p
  /\ Player.totalGamesPlayed (Player.preSave p) = Player.totalGamesPlayed p.
Proof.
  unfold Player.preSave.
  destruct (0 <? Player.totalGamesPlayed p); simpl;
    destruct (Player.bestScore p <? Player.currentScore p); simpl; auto.
Qed.

(** Every write that goes through [save] re-establishes the high-water
    mark: the saved document has [bestScore >= currentScore]. *)
Lemma save_bestScore (store : list Player.doc) (p : Player.doc) :
  Player.currentScore (snd (Player.save store p))
  <= Player.bestScore (snd (Player.save store p)).
Proof.
  unfold Player.save.
  destruct (Player.findOne store (Player.playerId p)); simpl;
    rewrite preSave_bestScore; destruct (preSave_keeps p) as (_ & -> & _); lia.
Qed.

Lemma applyScoreUpdate_fields newScore gameMode now (p : Player.doc) :
  let p' := Player.applyScoreUpdate newScore gameMode now p in
  Player.playerId p' = Player.playerId p
  /\ Player.currentScore p' = newScore
  /\ Player.bestScore p' = Player.bestScore p
  /\ Player.averageScore p' = Player.averageScore p
  /\ Player.totalGamesPlayed p' = Player.totalGamesPlayed p + 1.
Proof.
  unfold Player.applyScoreUpdate.
  destruct (JS.truthy gameMode); simpl; auto.
Qed.

(** [updatePlayerScore] never touches the two derived fields: the
    document it returns carries the stored [bestScore] and
    [averageScore] next to the new score. *)
Lemma updatePlayerScore_keeps_derived store pid newScore gameMode now p' :
  snd (Player.updatePlayerScore store pid newScore gameMode now) = Some p' ->
  exists p, Player.findOne store pid = Some p
    /\ Player.currentScore p' = newScore
    /\ Player.bestScore p' = Player.bestScore p
    /\ Player.averageScore p' = Player.averageScore p.
Proof.
  unfold Player.updatePlayerScore.
  destruct (Player.findOne store pid) as [p|] eqn:E; simpl; [|discriminate].
  intros [= <-]. exists p.
  pose proof (applyScoreUpdate_fields newScore gameMode now p) as H.
  simpl in H. intuition.
Qed.

(** C1 (the code departs from the claim). A player created with the
    schema defaults and then given 1500 points by [updatePlayerScore]
    comes back with [currentScore = 1500] but [bestScore = 0] and
    [averageScore = 0]: neither [bestScore = max(bestScore, currentScore)]
    nor [averageScore = round(currentScore / max(totalGamesPlayed, 1))]
    holds after this write, while the same document written through
    [save] satisfies both. *)
Theorem C1_updatePlayerScore_leaves_derived_fields_stale :
  let alice := Player.fresh "p1" "alice" "NA" "classic" 0 in
  exists store' p',
    Player.updatePlayerScore [alice] "p1" 1500 None 1000 = (store', Some p')
    /\ Player.findOne store' "p1" = Some p'
    /\ Player.currentScore p' = 1500
    /\ Player.totalGamesPlayed p' = 1
    /\ Player.bestScore p' = 0
    /\ Player.averageScore p' = 0
    /\ Player.bestScore p' <> Z.max (Player.bestScore alice) (Player.currentScore p')
    /\ Player.averageScore p'
       <> JS.round_div (Player.currentScore p')
                       (Z.max (Player.totalGamesPlayed p') 1)
    /\ Player.bestScore (snd (Player.save store' p')) = 1500
    /\ Player.averageScore (snd (Player.save store' p')) = 1500.
Proof.
  simpl. eexists. eexists.
  split; [reflexivity|].
  repeat split; try reflexivity; vm_compute; discriminate.
Qed.

(** ** Player: rank and leaderboard filters *)

Lemma regionCondition_admits (filter : option string) (q : Player.doc) :
  match Player.regionCondition filter with
  | Some r => String.eqb (Player.region q) r
  | None => true
  end = Spec.regionAdmits filter q.
Proof.
  destruct filter as [r|]; simpl; [|reflexivity].
  destruct (String.eqb r "") eqn:E1; simpl; [reflexivity|].
  destruct (String.eqb r "GLOBAL") eqn:E2; simpl; reflexivity.
Qed.

Lemma gameModeCondition_admits (filter : option string) (q : Player.doc) :
  match Player.gameModeCondition filter with
  | Some m => String.eqb (Player.currentGameMode q) m
  | None => true
  end = Spec.modeAdmits filter q.
Proof.
  destruct filter as [m|]; simpl; [|reflexivity].
  unfold Player.gameModeCondition. simpl.
  destruct (String.eqb m "") eqn:E1; simpl; reflexivity.
Qed.

Lemma matches_rankConditions (p q : Player.doc) (region gameMode : option string) :
  Player.matches (Player.rankConditions p region gameMode) q
  = (Player.currentScore p <? Player.currentScore q)
    && Spec.regionAdmits region q && Spec.modeAdmits gameMode q.
Proof.
  unfold Player.matches, Player.rankConditions. simpl.
  rewrite regionCondition_admits, gameModeCondition_admits.
  apply andb_true_r.
Qed.

Lemma matches_leaderboardConditions (o : Player.options) (q : Player.doc) :
  Player.matches (Player.leaderboardConditions o) q
  = Spec.regionAdmits (Player.opt_region o) q
    && Spec.modeAdmits (Player.opt_gameMode o) q
    && (negb (Player.onlineOnly o) || Player.isOnline q).
Proof.
  unfold Player.matches, Player.leaderboardConditions. simpl.
  rewrite regionCondition_admits, gameModeCondition_admits.
  destruct (Player.onlineOnly o); simpl.
  - destruct (Player.isOnline q); reflexivity.
  - rewrite !andb_true_r. reflexivity.
Qed.

Lemma insertSorted_perm (x : Player.doc) (l : list Player.doc) :
  Permutation (Player.insertSorted x l) (x :: l).
Proof.
  induction l as [|y l IH]; simpl; [reflexivity|].
  destruct (Player.before y x).
  - rewrite IH. apply perm_swap.
  - reflexivity.
Qed.

Lemma sortLeaderboard_perm (l : list Player.doc) :
  Permutation (Player.sortLeaderboard l) l.
Proof.
  induction l as [|x l IH]; simpl; [reflexivity|].
  unfold Player.sortLeaderboard in *. simpl.
  rewrite insertSorted_perm. now constructor.
Qed.

Lemma In_applyLimit (n : nat) (l : list Player.doc) (p : Player.doc) :
  In p (Player.applyLimit n l) -> In p l.
Proof.
  destruct n as [|n]; simpl; [auto|].
  intros H. rewrite <- (firstn_skipn (S n) l).
  apply in_or_app. left. exact H.
Qed.

Lemma In_skipn (n : nat) (l : list Player.doc) (p : Player.doc) :
  In p (skipn n l) -> In p l.
Proof.
  intros H. rewrite <- (firstn_skipn n l). apply in_or_app. right. exact H.
Qed.

(** Membership in a page of the leaderboard, and in the whole of it. *)
Lemma getLeaderboard_page (store : list Player.doc) (o : Player.options)
      (p : Player.doc) :
  In p (Player.getLeaderboard store o) ->
  In p store /\ Player.matches (Player.leaderboardConditions o) p = true.
Proof.
  unfold Player.getLeaderboard. intros H.
  apply In_applyLimit, In_skipn in H.
  apply (Permutation_in _ (sortLeaderboard_perm _)) in H.
  apply filter_In in H. exact H.
Qed.

Lemma getLeaderboard_all (store : list Player.doc) region gameMode online
      (p : Player.doc) :
  let o := Player.mkOptions 0 0 region gameMode online in
  In p (Player.getLeaderboard store o)
  <-> In p store /\ Player.matches (Player.leaderboardConditions o) p = true.
Proof.
  simpl. split; [apply getLeaderboard_page|].
  intros H. unfold Player.getLeaderboard. simpl.
  apply (Permutation_in _ (Permutation_sym (sortLeaderboard_perm _))).
  apply filter_In. exact H.
Qed.

Lemma filter_ext_bool {A : Type} (f g : A -> bool) (l : list A) :
  (forall x, f x = g x) -> List.filter f l = List.filter g l.
Proof.
  intros H. induction l as [|x l IH]; simpl; [reflexivity|].
  rewrite H, IH. reflexivity.
Qed.

(** C2. For an existing player the rank is one plus the number of
    players whose score is strictly greater under the filter, so two
    players with the same score report the same rank under the same
    filter. *)
Theorem C2_rank_counts_strictly_greater
        (store : list Player.doc) (pid : string) (p : Player.doc)
        (region gameMode : option string) :
  Player.findOne store pid = Some p ->
  Player.getPlayerRank store pid region gameMode
  = Some (1 + Z.of_nat (length (Spec.ahead store p region gameMode)))
  /\ forall pid' p',
       Player.findOne store pid' = Some p' ->
       Player.currentScore p' = Player.currentScore p ->
       Player.getPlayerRank store pid' region gameMode
       = Player.getPlayerRank store pid region gameMode.
Proof.
  intros Hp.
  assert (R : forall i q, Player.findOne store i = Some q ->
            Player.getPlayerRank store i region gameMode
            = Some (1 + Z.of_nat (length (Spec.ahead store q region gameMode)))).
  { intros i q Hq. unfold Player.getPlayerRank, Player.countDocuments.
    rewrite Hq. f_equal. rewrite Z.add_comm. do 3 f_equal.
    apply filter_ext_bool. intros x. apply matches_rankConditions. }
  split; [apply R, Hp|].
  intros pid' p' Hp' Hs. rewrite (R _ _ Hp), (R _ _ Hp').
  unfold Spec.ahead. rewrite Hs. reflexivity.
Qed.

Lemma C2_witness :
  let a := Player.mkDoc "a" "ann" "NA" 1000 3 0 0 "classic" true 0 0 0 0 in
  let b := Player.mkDoc "b" "bob" "NA" 1000 2 0 0 "classic" true 0 0 0 0 in
  let c := Player.mkDoc "c" "cy" "EU" 900 1 0 0 "classic" true 0 0 0 0 in
  Player.getPlayerRank [a; b; c] "a" (Some "NA") None = Some 1
  /\ Player.getPlayerRank [a; b; c] "b" (Some "NA") None = Some 1.
Proof.
  simpl.
  pose proof (C2_rank_counts_strictly_greater
                [Player.mkDoc "a" "ann" "NA" 1000 3 0 0 "classic" true 0 0 0 0;
                 Player.mkDoc "b" "bob" "NA" 1000 2 0 0 "classic" true 0 0 0 0;
                 Player.mkDoc "c" "cy" "EU" 900 1 0 0 "classic" true 0 0 0 0]
                "a" _ (Some "NA") None eq_refl) as [H1 H2].
  split; [exact H1|].
  rewrite (H2 "b" _ eq_refl eq_refl). exact H1.
Defined.

Lemma regionAdmits_open (filter : option string) (q : Player.doc) :
  filter = None \/ filter = Some "GLOBAL" -> Spec.regionAdmits filter q = true.
Proof. intros [-> | ->]; reflexivity. Qed.

Lemma regionAdmits_exact (r : string) (q : Player.doc) :
  r <> "" -> r <> "GLOBAL" ->
  Spec.regionAdmits (Some r) q = String.eqb (Player.region q) r.
Proof.
  intros H1 H2. simpl.
  apply String.eqb_neq in H1. apply String.eqb_neq in H2.
  rewrite H1, H2. reflexivity.
Qed.

Lemma rank_formula (store : list Player.doc) (pid : string) (p : Player.doc)
      (region gameMode : option string) (f : Player.doc -> bool) :
  Player.findOne store pid = Some p ->
  (forall q, Spec.regionAdmits region q = f q) ->
  Player.getPlayerRank store pid region gameMode
  = Some (Z.of_nat
            (length (List.filter
                       (fun q => (Player.currentScore p <? Player.currentScore q)
                                 && f q && Spec.modeAdmits gameMode q)
                       store)) + 1).
Proof.
  intros Hp Hf. unfold Player.getPlayerRank, Player.countDocuments.
  rewrite Hp. do 4 f_equal. apply filter_ext_bool.
  intros q. rewrite matches_rankConditions, Hf. reflexivity.
Qed.

(** C3. In a leaderboard query and in a rank query, a region filter that
    is absent or [GLOBAL] restricts nothing: the whole leaderboard holds
    every stored player the other conditions admit, whatever the
    player's region, and the rank counts the players ahead in all
    regions.  Any other region value keeps exactly the players of that
    region.  A player whose own region is [GLOBAL] is therefore listed
    by a [region = GLOBAL] query. *)
Theorem C3_region_filter_semantics
        (store : list Player.doc) (region gameMode : option string)
        (online : bool) (p : Player.doc) :
  let whole := Player.getLeaderboard store
                 (Player.mkOptions 0 0 region gameMode online) in
  let others q := Spec.modeAdmits gameMode q
                  && (negb online || Player.isOnline q) in
  (forall limit skip q,
      In q (Player.getLeaderboard store
              (Player.mkOptions limit skip region gameMode online)) ->
      In q whole)
  /\ (region = None \/ region = Some "GLOBAL" ->
      (In p whole <-> In p store /\ others p = true)
      /\ forall pid, Player.findOne store pid = Some p ->
           Player.getPlayerRank store pid region gameMode
           = Some (Z.of_nat
                     (length (List.filter
                        (fun q => (Player.currentScore p <? Player.currentScore q)
                                  && true && Spec.modeAdmits gameMode q)
                        store)) + 1))
  /\ (forall r, region = Some r -> r <> "" -> r <> "GLOBAL" ->
      (In p whole <-> In p store /\ Player.region p = r /\ others p = true)
      /\ forall pid, Player.findOne store pid = Some p ->
           Player.getPlayerRank store pid region gameMode
           = Some (Z.of_nat
                     (length (List.filter
                        (fun q => (Player.currentScore p <? Player.currentScore q)
                                  && String.eqb (Player.region q) r
                                  && Spec.modeAdmits gameMode q)
                        store)) + 1))
  /\ (region = Some "GLOBAL" -> Player.region p = "GLOBAL" ->
      In p store -> others p = true -> In p whole).
Proof.
  simpl.
  assert (W : In p (Player.getLeaderboard store
                      (Player.mkOptions 0 0 region gameMode online))
              <-> In p store
                  /\ Spec.regionAdmits region p
                     && Spec.modeAdmits gameMode p
                     && (negb online || Player.isOnline p) = true).
  { rewrite (getLeaderboard_all store region gameMode online p).
    rewrite matches_leaderboardConditions. reflexivity. }
  split; [|split; [|split]].
  - intros limit skip q H. apply getLeaderboard_page in H.
    apply getLeaderboard_all. exact H.
  - intros Hr. split.
    + rewrite W, (regionAdmits_open region p Hr). simpl. reflexivity.
    + intros pid Hp. apply rank_formula; [exact Hp|].
      intros q. apply regionAdmits_open, Hr.
  - intros r -> H1 H2. split.
    + rewrite W, (regionAdmits_exact r p H1 H2).
      rewrite <- andb_assoc, andb_true_iff, String.eqb_eq. tauto.
    + intros pid Hp. apply rank_formula; [exact Hp|].
      intros q. apply regionAdmits_exact; assumption.
  - intros -> _ Hin Ho. apply W. split; [exact Hin|]. simpl. exact Ho.
Qed.

Lemma C3_witness :
  let g := Player.mkDoc "g" "gil" "GLOBAL" 700 1 0 0 "classic" true 0 0 0 0 in
  let n := Player.mkDoc "n" "nan" "NA" 900 1 0 0 "classic" true 0 0 0 0 in
  let e := Player.mkDoc "e" "eve" "EU" 800 1 0 0 "classic" true 0 0 0 0 in
  In g (Player.getLeaderboard [g; n; e]
          (Player.mkOptions 0 0 (Some "GLOBAL") None false))
  /\ Player.getPlayerRank [g; n; e] "g" (Some "GLOBAL") None = Some 3
  /\ ~ In g (Player.getLeaderboard [g; n; e]
               (Player.mkOptions 0 0 (Some "EU") None false))
  /\ Player.getPlayerRank [g; n; e] "g" (Some "EU") None = Some 2.
Proof.
  simpl.
  set (g := Player.mkDoc "g" "gil" "GLOBAL" 700 1 0 0 "classic" true 0 0 0 0).
  set (n := Player.mkDoc "n" "nan" "NA" 900 1 0 0 "classic" true 0 0 0 0).
  set (e := Player.mkDoc "e" "eve" "EU" 800 1 0 0 "classic" true 0 0 0 0).
  destruct (C3_region_filter_semantics [g; n; e] (Some "GLOBAL") None false g)
    as (_ & HG & _ & HG').
  destruct (C3_region_filter_semantics [g; n; e] (Some "EU") None false g)
    as (_ & _ & HE & _).
  destruct (HG (or_intror eq_refl)) as [_ HGr].
  destruct (HE "EU" eq_refl) as [HEm HEr]; [discriminate | discriminate |].
  split; [|split; [|split]].
  - apply HG'; first [reflexivity | left; reflexivity].
  - rewrite (HGr "g" eq_refl). reflexivity.
  - intros H. apply HEm in H. destruct H as (_ & H & _). discriminate H.
  - rewrite (HEr "g" eq_refl). reflexivity.
Defined.

(** ** GameSession: join, leave and the terminal status *)

Lemma joinable_status (s : GameSession.doc) :
  joinable s ->
  negb (GameSession.status_eqb (GameSession.sessionStatus s) GameSession.waiting
        || GameSession.status_eqb (GameSession.sessionStatus s) GameSession.active)
  = false.
Proof. intros [-> | ->]; reflexivity. Qed.

Lemma find_existsb {A : Type} (f : A -> bool) (l : list A) :
  existsb f l = true -> exists x, List.find f l = Some x.
Proof.
  induction l as [|y l IH]; simpl; [discriminate|].
  destruct (f y); [eauto|]. simpl. exact IH.
Qed.

(** C5 as stated fails: a player already in a session that has reached
    [maxPlayers] is turned away with 'Session is full'. *)
Lemma C5_counterexample :
  let ann := GameSession.mkParticipant "a" "ann" 0 10 None true in
  let bob := GameSession.mkParticipant "b" "bob" 0 20 None true in
  let s := GameSession.mkDoc "g1" [ann; bob] "classic" "NA"
             GameSession.active 2 (Some 0) None None [] in
  let store : gmap string GameSession.doc := {[ "g1" := s ]} in
  store !! "g1" = Some s
  /\ joinable s
  /\ In ann (GameSession.players s)
  /\ Z.of_nat (length (GameSession.players s)) = GameSession.maxPlayers s
  /\ GameSession.joinSession store "g1"
       (GameSession.mkPlayerData "a" "ann" 0) 5
     = GameSession.Throw GameSession.SessionFull.
Proof.
  simpl. repeat split.
  - right. reflexivity.
  - left. reflexivity.
Qed.

(** C5, amended. For a session in status waiting or active and a player
    already in its participant list: while the participant count is
    below [maxPlayers] the join succeeds as a no-op, returning the
    stored session and leaving the store as it was (same participants,
    same events, same status); once the count has reached [maxPlayers]
    the join is refused with 'Session is full', and nothing is written
    either. *)
Theorem C5_join_present_player
        (store : gmap string GameSession.doc) (sid : string)
        (s : GameSession.doc) (pd : GameSession.playerData) (now : Z) :
  store !! sid = Some s ->
  joinable s ->
  existsb (GameSession.hasId (GameSession.pd_playerId pd))
          (GameSession.players s) = true ->
  (Z.of_nat (length (GameSession.players s)) < GameSession.maxPlayers s ->
   GameSession.joinSession store sid pd now = GameSession.Ok (store, s))
  /\ (GameSession.maxPlayers s <= Z.of_nat (length (GameSession.players s)) ->
      GameSession.joinSession store sid pd now
      = GameSession.Throw GameSession.SessionFull).
Proof.
  intros Hs Hj Hin. unfold GameSession.joinSession.
  rewrite Hs, (joinable_status s Hj).
  split; intros Hn.
  - assert (E : (GameSession.maxPlayers s
                 <=? Z.of_nat (length (GameSession.players s))) = false) by lia.
    rewrite E. destruct (find_existsb _ _ Hin) as [x ->]. reflexivity.
  - assert (E : (GameSession.maxPlayers s
                 <=? Z.of_nat (length (GameSession.players s))) = true) by lia.
    rewrite E. reflexivity.
Qed.

Lemma C5_witness :
  let ann := GameSession.mkParticipant "a" "ann" 0 10 None true in
  let s := GameSession.mkDoc "g1" [ann] "classic" "NA"
             GameSession.waiting 4 None None None [] in
  let store : gmap string GameSession.doc := {[ "g1" := s ]} in
  GameSession.joinSession store "g1" (GameSession.mkPlayerData "a" "ann" 0) 5
  = GameSession.Ok (store, s).
Proof.
  simpl.
  refine (proj1 (C5_join_present_player _ "g1" _
                   (GameSession.mkPlayerData "a" "ann" 0) 5 _ _ _) _).
  - reflexivity.
  - left. reflexivity.
  - reflexivity.
  - simpl. lia.
Defined.

(** The other session operations are gated on the status: a completed
    session is refused by join, score update and end, and so left
    untouched. *)
Lemma completed_refused_by_gated_operations
      (store : gmap string GameSession.doc) (sid : string)
      (s : GameSession.doc) (now : Z) :
  store !! sid = Some s ->
  GameSession.sessionStatus s = GameSession.completed ->
  (forall pd, GameSession.joinSession store sid pd now
              = GameSession.Throw GameSession.SessionNotJoinable)
  /\ (forall pid score delta reason,
         GameSession.updatePlayerScore store sid pid score delta reason now
         = GameSession.Throw GameSession.ActiveSessionNotFoundForPlayer)
  /\ GameSession.endSession store sid now
     = GameSession.Throw GameSession.ActiveSessionNotFound.
Proof.
  intros Hs Hc.
  unfold GameSession.joinSession, GameSession.updatePlayerScore,
    GameSession.endSession.
  rewrite Hs, Hc. simpl. auto.
Qed.

(** C6 (the code departs from the claim). A completed session whose last
    active participant leaves is moved to 'abandoned' and gets a new
    [endedAt]; and a completed session whose recorded duration is 0 has
    [duration] and [endedAt] written a second time by the save that
    follows any leave. *)
Theorem C6_leave_reopens_completed_session :
  let ann := GameSession.mkParticipant "a" "ann" 0 10 (Some 2) true in
  let bob := GameSession.mkParticipant "b" "bob" 0 20 (Some 1) false in
  let cy := GameSession.mkParticipant "c" "cy" 0 20 (Some 1) true in
  let s := GameSession.mkDoc "g1" [ann; bob] "classic" "NA"
             GameSession.completed 4 (Some 0) (Some 5000) (Some 5) [] in
  let quick := GameSession.mkDoc "g2" [ann; cy] "classic" "NA"
                 GameSession.completed 4 (Some 0) (Some 400) (Some 0) [] in
  (exists store' s',
      SessionRoutes.leaveHandler {[ "g1" := s ]} "g1" "a" 9000
      = (store', Some s')
      /\ store' !! "g1" = Some s'
      /\ GameSession.sessionStatus s' = GameSession.abandoned
      /\ GameSession.endedAt s' = Some 9000)
  /\ (exists store' s',
      SessionRoutes.leaveHandler {[ "g2" := quick ]} "g2" "a" 9000
      = (store', Some s')
      /\ GameSession.sessionStatus s' = GameSession.completed
      /\ GameSession.endedAt s' = Some 9000
      /\ GameSession.duration s' = Some 9).
Proof.
  simpl. split.
  - eexists. eexists. split; [reflexivity|].
    split; [apply lookup_insert_eq|]. split; reflexivity.
  - eexists. eexists. split; [reflexivity|]. repeat split.
Qed.

(** ** GameSession: final positions *)

Section Positions.

Import GameSession.

Lemma insertByScore_perm (x : participant) (l : list participant) :
  Permutation (insertByScore x l) (x :: l).
Proof.
  induction l as [|y l IH]; simpl; [reflexivity|].
  destruct (outranks x y); [reflexivity|].
  rewrite IH. apply perm_swap.
Qed.

Lemma sortPlayers_perm_acc (l acc : list participant) :
  Permutation (fold_left (fun acc x => insertByScore x acc) l acc) (acc ++ l).
Proof.
  revert acc. induction l as [|x l IH]; intros acc; simpl.
  - rewrite app_nil_r. reflexivity.
  - rewrite IH, insertByScore_perm. simpl. apply Permutation_middle.
Qed.

Lemma sortPlayers_perm (l : list participant) :
  Permutation (sortPlayers l) l.
Proof. apply (sortPlayers_perm_acc l []). Qed.

Lemma insertByScore_desc (x : participant) (l : list participant) :
  desc l -> desc (insertByScore x l).
Proof.
  unfold desc. induction l as [|y l IH]; simpl; intros H.
  - constructor; constructor.
  - apply StronglySorted_inv in H. destruct H as [Hl Hy].
    destruct (outranks x y) eqn:E; unfold outranks in E.
    + constructor; [constructor; assumption|].
      constructor; [lia|].
      rewrite List.Forall_forall in Hy |- *.
      intros a Ha. specialize (Hy a Ha). lia.
    + constructor; [apply IH, Hl|].
      eapply Permutation_Forall;
        [apply Permutation_sym, insertByScore_perm|].
      constructor; [lia | exact Hy].
Qed.

Lemma sortPlayers_desc (l : list participant) : desc (sortPlayers l).
Proof.
  unfold sortPlayers.
  assert (G : forall acc, desc acc ->
              desc (fold_left (fun acc x => insertByScore x acc) l acc)).
  { induction l as [|x l IH]; intros acc Hacc; simpl; [exact Hacc|].
    apply IH, insertByScore_desc, Hacc. }
  apply G. constructor.
Qed.

Lemma desc_nth (l : list participant) (i j : nat) (a b : participant) :
  desc l -> (i < j)%nat -> nth_error l i = Some a -> nth_error l j = Some b ->
  currentSessionScore b <= currentSessionScore a.
Proof.
  unfold desc. intros H. revert i j.
  induction H as [|x l Hl IH Hx]; intros i j Hij Ha Hb.
  - destruct i; discriminate.
  - destruct j as [|j]; [lia|]. simpl in Hb.
    destruct i as [|i]; simpl in Ha.
    + injection Ha as <-. apply nth_error_In in Hb.
      rewrite List.Forall_forall in Hx. apply (Hx b Hb).
    + apply (IH i j); [lia | assumption | assumption].
Qed.

Lemma findIndex_None {A : Type} (f : A -> bool) (l : list A) :
  (forall x, In x l -> f x = false) -> JS.findIndex f l = None.
Proof.
  induction l as [|y l IH]; simpl; intros H; [reflexivity|].
  rewrite (H y (or_introl eq_refl)), IH; [reflexivity|].
  intros x Hx. apply H. right. exact Hx.
Qed.

Lemma findIndex_found {A : Type} (f : A -> bool) (l : list A) (x : A) :
  In x l -> f x = true -> exists i, JS.findIndex f l = Some i.
Proof.
  induction l as [|y l IH]; simpl; intros Hin Hf; [contradiction|].
  destruct (f y) eqn:E; [eauto|].
  destruct Hin as [-> | Hin]; [congruence|].
  destruct (IH Hin Hf) as [i ->]. simpl. eauto.
Qed.

Lemma findIndex_app_first {A : Type} (f : A -> bool) (pre suf : list A)
      (x : A) :
  (forall y, In y pre -> f y = false) -> f x = true ->
  JS.findIndex f (pre ++ x :: suf) = Some (length pre).
Proof.
  induction pre as [|y pre IH]; simpl; intros Hpre Hx.
  - rewrite Hx. reflexivity.
  - rewrite (Hpre y (or_introl eq_refl)), IH; [reflexivity| |exact Hx].
    intros z Hz. apply Hpre. right. exact Hz.
Qed.

Lemma hasId_true (a : string) (p : participant) :
  hasId a p = true <-> playerId p = a.
Proof. unfold hasId. apply String.eqb_eq. Qed.

Lemma hasId_false (a : string) (p : participant) :
  hasId a p = false <-> playerId p <> a.
Proof. unfold hasId. apply String.eqb_neq. Qed.

Lemma In_ids (x : participant) (l : list participant) :
  In x l -> In (playerId x) (List.map playerId l).
Proof. apply in_map. Qed.

(** With distinct ids, writing through the index found for an id
    touches exactly the participants carrying that id. *)
Lemma alter_findIndex (f : participant -> participant) (a : string)
      (ps : list participant) (i : nat) :
  List.NoDup (List.map playerId ps) ->
  JS.findIndex (hasId a) ps = Some i ->
  alter f i ps = List.map (fun p => if hasId a p then f p else p) ps.
Proof.
  revert i. induction ps as [|p ps IH]; intros i Hnd Hi; simpl in *;
    [discriminate|].
  apply NoDup_cons_iff in Hnd. destruct Hnd as [Hp Hnd].
  destruct (hasId a p) eqn:E.
  - injection Hi as <-. simpl. f_equal.
    rewrite <- (map_id ps) at 1. apply map_ext_in.
    intros q Hq. destruct (hasId a q) eqn:Eq; [|reflexivity].
    apply hasId_true in E. apply hasId_true in Eq.
    exfalso. apply Hp. rewrite E, <- Eq. apply In_ids, Hq.
  - destruct (JS.findIndex (hasId a) ps) as [i'|]; [|discriminate].
    injection Hi as <-. simpl. f_equal. apply IH; [exact Hnd|reflexivity].
Qed.

Lemma placed_fields (sorted : list participant) (k : Z) (p : participant) :
  playerId (placed sorted k p) = playerId p
  /\ currentSessionScore (placed sorted k p) = currentSessionScore p
  /\ isActive (placed sorted k p) = isActive p
  /\ username (placed sorted k p) = username p.
Proof.
  unfold placed. destruct (JS.findIndex _ sorted); simpl; auto.
Qed.

(** The [forEach] of [endSession] as one pass over the participants:
    each gets [k + 1 +] the index of its id in the sorted copy. *)
Lemma assignPositions_placed (sorted : list participant) :
  forall (k : Z) (ps : list participant),
    List.NoDup (List.map playerId ps) ->
    List.NoDup (List.map playerId sorted) ->
    (forall x, In x sorted -> In (playerId x) (List.map playerId ps)) ->
    assignPositions sorted k ps = Ok (List.map (placed sorted k) ps).
Proof.
  induction sorted as [|x rest IH]; intros k ps Hps Hsorted Hsub; simpl.
  - f_equal. rewrite <- (map_id ps) at 1. apply map_ext. reflexivity.
  - assert (Hx : exists i, JS.findIndex (hasId (playerId x)) ps = Some i).
    { specialize (Hsub x (or_introl eq_refl)).
      apply in_map_iff in Hsub. destruct Hsub as (y & Hy & Hin).
      apply (findIndex_found _ ps y Hin). apply hasId_true. exact Hy. }
    destruct Hx as [i Hi]. rewrite Hi.
    rewrite (alter_findIndex _ _ _ _ Hps Hi).
    apply NoDup_cons_iff in Hsorted. destruct Hsorted as [Hxr Hrest].
    set (g := fun p => if hasId (playerId x) p
                       then set_position (k + 1) p else p).
    assert (Hg : forall p, playerId (g p) = playerId p).
    { intros p. unfold g. destruct (hasId (playerId x) p); reflexivity. }
    assert (Hids : List.map playerId (List.map g ps) = List.map playerId ps).
    { rewrite map_map. apply map_ext. exact Hg. }
    rewrite IH.
    + f_equal. rewrite map_map. apply map_ext. intros p.
      unfold placed. rewrite Hg. simpl. unfold g.
      destruct (hasId (playerId x) p) eqn:E.
      * apply hasId_true in E.
        assert (E' : hasId (playerId p) x = true) by (apply hasId_true; auto).
        rewrite E'. rewrite findIndex_None.
        -- f_equal. simpl. lia.
        -- intros y Hy. apply hasId_false. intros Hyp.
           apply Hxr. rewrite <- E, <- Hyp. apply In_ids, Hy.
      * apply hasId_false in E.
        assert (E' : hasId (playerId p) x = false)
          by (apply hasId_false; auto).
        rewrite E'.
        destruct (JS.findIndex (hasId (playerId p)) rest) as [j|]; simpl;
          [|reflexivity].
        f_equal. lia.
    + rewrite Hids. exact Hps.
    + exact Hrest.
    + intros y Hy. rewrite Hids. apply Hsub. right. exact Hy.
Qed.

(** Read on the sorted copy itself, the positions are [k+1, k+2, ...]
    in order. *)
Lemma placed_on_sorted (suf : list participant) :
  forall (pre : list participant) (k : Z),
    List.NoDup (List.map playerId (pre ++ suf)) ->
    List.map (fun p => position (placed (pre ++ suf) k p)) suf
    = List.map (fun j => Some (k + Z.of_nat j + 1))
               (seq (length pre) (length suf)).
Proof.
  induction suf as [|x suf IH]; intros pre k Hnd; simpl; [reflexivity|].
  assert (Hx : JS.findIndex (hasId (playerId x)) (pre ++ x :: suf)
               = Some (length pre)).
  { apply findIndex_app_first; [|apply hasId_true; reflexivity].
    intros y Hy. apply hasId_false. intros E.
    rewrite map_app in Hnd. simpl in Hnd.
    apply NoDup_remove_2 in Hnd. apply Hnd.
    apply in_or_app. left. rewrite <- E. apply In_ids, Hy. }
  f_equal.
  - unfold placed. rewrite Hx. reflexivity.
  - specialize (IH (pre ++ [x]) k).
    rewrite <- app_assoc in IH. simpl in IH.
    rewrite IH; [|exact Hnd].
    rewrite length_app. simpl. rewrite Nat.add_1_r. reflexivity.
Qed.

Lemma findIndex_nth (l : list participant) (p : participant) :
  List.NoDup (List.map playerId l) -> In p l ->
  exists j, JS.findIndex (hasId (playerId p)) l = Some j
            /\ nth_error l j = Some p.
Proof.
  induction l as [|y l IH]; simpl; intros Hnd Hin; [contradiction|].
  apply NoDup_cons_iff in Hnd. destruct Hnd as [Hy Hnd].
  destruct (hasId (playerId p) y) eqn:E.
  - exists 0%nat. split; [reflexivity|]. simpl.
    destruct Hin as [-> | Hin]; [reflexivity|].
    apply hasId_true in E. exfalso. apply Hy. rewrite E. apply In_ids, Hin.
  - destruct Hin as [-> | Hin].
    + apply hasId_false in E. congruence.
    + destruct (IH Hnd Hin) as (j & -> & Hj). exists (S j). auto.
Qed.

Lemma preSave_session_fields (now : Z) (s : doc) :
  players (preSave now s) = players s
  /\ sessionStatus (preSave now s) = sessionStatus s
  /\ sessionId (preSave now s) = sessionId s
  /\ realTimeEvents (preSave now s) = realTimeEvents s.
Proof.
  unfold preSave. destruct (startedAt s); [|auto].
  destruct (_ && _); simpl; auto.
Qed.

Lemma NoDup_map_filter {A B : Type} (g : A -> B) (f : A -> bool)
      (l : list A) :
  List.NoDup (List.map g l) -> List.NoDup (List.map g (List.filter f l)).
Proof.
  induction l as [|x l IH]; simpl; intros H; [constructor|].
  apply NoDup_cons_iff in H. destruct H as [Hx Hl].
  destruct (f x); simpl; [|apply IH, Hl].
  constructor; [|apply IH, Hl].
  intros Hin. apply Hx. apply in_map_iff in Hin.
  destruct Hin as (y & Hy & Hin). apply filter_In in Hin.
  apply in_map_iff. exists y. tauto.
Qed.

Lemma positions_of_seq_NoDup (n : nat) :
  List.NoDup (List.map (fun j => Some (Z.of_nat j)) (seq 1 n)).
Proof.
  apply Finite.Injective_map_NoDup; [|apply seq_NoDup].
  intros a b H. injection H as H. lia.
Qed.

(** C4, amended. Ending an active session whose [N] participants have
    distinct ids succeeds, completes the session and gives the
    positions 1..N, each exactly once, to all [N] participants of the
    list, those who left included, in the order of descending
    in-session score; ids, scores and active flags are unchanged.  The
    active participants therefore hold pairwise distinct positions
    within 1..N. *)
Theorem C4_endSession_ranks_all_participants
        (store : gmap string doc) (sid : string) (s : doc) (now : Z) :
  store !! sid = Some s ->
  sessionStatus s = active ->
  List.NoDup (List.map playerId (players s)) ->
  exists store' s',
    endSession store sid now = Ok (store', s')
    /\ sessionStatus s' = completed
    /\ List.map playerId (players s') = List.map playerId (players s)
    /\ List.map currentSessionScore (players s')
       = List.map currentSessionScore (players s)
    /\ List.map isActive (players s') = List.map isActive (players s)
    /\ Permutation (List.map position (players s'))
                   (List.map (fun j => Some (Z.of_nat j))
                             (seq 1 (length (players s))))
    /\ (forall p q i j,
           In p (players s') -> In q (players s') ->
           position p = Some i -> position q = Some j -> i < j ->
           currentSessionScore q <= currentSessionScore p)
    /\ List.NoDup (List.map position (List.filter isActive (players s'))).
Proof.
  intros Hs Hact Hnd.
  set (ps := players s). set (sorted := sortPlayers ps).
  assert (Hperm : Permutation sorted ps) by apply sortPlayers_perm.
  assert (Hnds : List.NoDup (List.map playerId sorted)).
  { eapply Permutation_NoDup; [|exact Hnd].
    apply Permutation_map, Permutation_sym, Hperm. }
  assert (Hassign : assignPositions sorted 0 ps
                    = Ok (List.map (placed sorted 0) ps)).
  { apply assignPositions_placed; [exact Hnd | exact Hnds |].
    intros x Hx. apply In_ids. apply (Permutation_in _ Hperm Hx). }
  assert (Hpos : Permutation
                   (List.map position (List.map (placed sorted 0) ps))
                   (List.map (fun j => Some (Z.of_nat j))
                             (seq 1 (length ps)))).
  { rewrite map_map.
    etransitivity;
      [apply Permutation_map, Permutation_sym, Hperm|].
    pose proof (placed_on_sorted sorted [] 0 Hnds) as H.
    simpl in H. rewrite H.
    rewrite (Permutation_length Hperm).
    rewrite <- seq_shift, map_map.
    erewrite map_ext; [reflexivity|].
    intros j. simpl. f_equal. lia. }
  unfold endSession. rewrite Hs, Hact. simpl.
  fold ps. fold sorted. rewrite Hassign.
  eexists. eexists. split; [reflexivity|].
  simpl.
  match goal with
  | |- context [preSave now ?x] =>
      destruct (preSave_session_fields now x) as (Hp & Hst & _ & _)
  end.
  rewrite Hp, Hst. simpl. clear Hp Hst.
  split; [reflexivity|].
  split; [rewrite map_map; apply map_ext; intros p; apply placed_fields|].
  split; [rewrite map_map; apply map_ext; intros p; apply placed_fields|].
  split; [rewrite map_map; apply map_ext; intros p; apply placed_fields|].
  split; [exact Hpos|].
  split.
  - intros p q i j Hpin Hqin Hpi Hqj Hij.
    apply in_map_iff in Hpin. destruct Hpin as (p0 & <- & Hp0).
    apply in_map_iff in Hqin. destruct Hqin as (q0 & <- & Hq0).
    destruct (placed_fields sorted 0 p0) as (_ & -> & _).
    destruct (placed_fields sorted 0 q0) as (_ & -> & _).
    destruct (findIndex_nth sorted p0 Hnds
                (Permutation_in _ (Permutation_sym Hperm) Hp0))
      as (jp & Ejp & Hjp).
    destruct (findIndex_nth sorted q0 Hnds
                (Permutation_in _ (Permutation_sym Hperm) Hq0))
      as (jq & Ejq & Hjq).
    unfold placed in Hpi, Hqj. rewrite Ejp in Hpi. rewrite Ejq in Hqj.
    simpl in Hpi, Hqj. injection Hpi as <-. injection Hqj as <-.
    apply (desc_nth sorted jp jq p0 q0);
      [apply sortPlayers_desc | lia | exact Hjp | exact Hjq].
  - apply NoDup_map_filter.
    eapply Permutation_NoDup;
      [apply Permutation_sym, Hpos | apply positions_of_seq_NoDup].
Qed.

End Positions.

(** C4 as stated fails: a participant who left before the end keeps a
    place in the ranking.  With the top scorer gone, the two active
    participants finish 2nd and 3rd, not 1st and 2nd. *)
Lemma C4_counterexample :
  let ann := GameSession.mkParticipant "a" "ann" 0 10 None true in
  let bob := GameSession.mkParticipant "b" "bob" 0 20 None false in
  let cy := GameSession.mkParticipant "c" "cy" 0 5 None true in
  let s := GameSession.mkDoc "g1" [ann; bob; cy] "classic" "NA"
             GameSession.active 4 (Some 0) None None [] in
  exists store' s',
    GameSession.endSession {[ "g1" := s ]} "g1" 9000
    = GameSession.Ok (store', s')
    /\ length (List.filter GameSession.isActive (GameSession.players s)) = 2%nat
    /\ List.map GameSession.position
         (List.filter GameSession.isActive (GameSession.players s'))
       = [Some 2; Some 3]
    /\ ~ Permutation
         (List.map GameSession.position
            (List.filter GameSession.isActive (GameSession.players s')))
         (List.map (fun j => Some (Z.of_nat j)) (seq 1 2)).
Proof.
  simpl. eexists. eexists. split; [reflexivity|].
  split; [reflexivity|]. split; [reflexivity|].
  simpl. intros H.
  assert (Hin : In (Some 3) [Some 1; Some 2]).
  { apply (Permutation_in _ H). right. left. reflexivity. }
  destruct Hin as [E | [E | []]]; discriminate E.
Qed.

Lemma C4_witness :
  let ann := GameSession.mkParticipant "a" "ann" 0 10 None true in
  let bob := GameSession.mkParticipant "b" "bob" 0 20 None false in
  let cy := GameSession.mkParticipant "c" "cy" 0 5 None true in
  let s := GameSession.mkDoc "g1" [ann; bob; cy] "classic" "NA"
             GameSession.active 4 (Some 0) None None [] in
  exists store' s',
    GameSession.endSession {[ "g1" := s ]} "g1" 9000
    = GameSession.Ok (store', s')
    /\ Permutation (List.map GameSession.position (GameSession.players s'))
                   [Some 1; Some 2; Some 3].
Proof.
  simpl.
  set (s := GameSession.mkDoc "g1"
              [GameSession.mkParticipant "a" "ann" 0 10 None true;
               GameSession.mkParticipant "b" "bob" 0 20 None false;
               GameSession.mkParticipant "c" "cy" 0 5 None true]
              "classic" "NA" GameSession.active 4 (Some 0) None None []).
  assert (Hnd : List.NoDup (List.map GameSession.playerId
                                     (GameSession.players s))).
  { simpl. repeat (constructor; [simpl; intuition discriminate|]).
    constructor. }
  assert (Hs : ({[ "g1" := s ]} : gmap string GameSession.doc) !! "g1"
               = Some s) by reflexivity.
  destruct (C4_endSession_ranks_all_participants
              {[ "g1" := s ]} "g1" s 9000 Hs eq_refl Hnd)
    as (store' & s' & H1 & _ & _ & _ & _ & H2 & _).
  exists store', s'. split; [exact H1 | exact H2].
Defined.

(** ** Session end: positional bonus and write-back *)

Lemma bonusTable_100 : bonusTable 100 = true.
Proof. vm_compute. reflexivity. Qed.

Lemma bonusTable_sound (upTo total position : nat) :
  bonusTable upTo = true ->
  (total <= upTo)%nat -> (1 <= position <= total)%nat ->
  misrounded total position = false ->
  SessionRoutes.calculatePositionBonus (Z.of_nat position) (Z.of_nat total)
  = Some (Spec.positionBonus (Z.of_nat position) (Z.of_nat total)).
Proof.
  intros T Ht Hp Hm. unfold bonusTable in T.
  rewrite forallb_forall in T.
  assert (Hin : In total (seq 0 (S upTo))) by (apply in_seq; lia).
  specialize (T total Hin). rewrite forallb_forall in T.
  assert (Hin' : In position (seq 1 total)) by (apply in_seq; lia).
  specialize (T position Hin'). rewrite Hm, xorb_false_r in T.
  unfold bonusAgrees in T.
  destruct (SessionRoutes.calculatePositionBonus _ _) as [b|];
    [|discriminate].
  apply Z.eqb_eq in T. rewrite T. reflexivity.
Qed.

(** For sessions of up to 100 participants (the schema's maximum) the
    bonus is the exact rounded value at every position but two: 18th of
    40 and 35th of 80. *)
Lemma calculatePositionBonus_exact_elsewhere (total position : nat) :
  (total <= 100)%nat -> (1 <= position <= total)%nat ->
  misrounded total position = false ->
  SessionRoutes.calculatePositionBonus (Z.of_nat position) (Z.of_nat total)
  = Some (Spec.positionBonus (Z.of_nat position) (Z.of_nat total)).
Proof. apply (bonusTable_sound 100), bonusTable_100. Qed.

Lemma findOne_replaceFirst (store : list Player.doc) (pid pid' : string)
      (d' : Player.doc) :
  Player.playerId d' = pid ->
  Player.findOne (Player.replaceFirst pid (fun _ => d') store) pid'
  = if String.eqb pid pid'
    then match Player.findOne store pid with
         | Some _ => Some d'
         | None => None
         end
    else Player.findOne store pid'.
Proof.
  intros Hd. unfold Player.findOne.
  induction store as [|p store IH]; simpl.
  - destruct (String.eqb pid pid'); reflexivity.
  - unfold Player.hasId in *.
    destruct (String.eqb (Player.playerId p) pid) eqn:E; simpl.
    + rewrite Hd. apply String.eqb_eq in E. rewrite E.
      destruct (String.eqb pid pid'); reflexivity.
    + destruct (String.eqb (Player.playerId p) pid') eqn:E'.
      * destruct (String.eqb pid pid') eqn:E''; [|reflexivity].
        apply String.eqb_eq in E', E''. apply String.eqb_neq in E. congruence.
      * exact IH.
Qed.

Lemma findOne_id (store : list Player.doc) (pid : string) (d : Player.doc) :
  Player.findOne store pid = Some d -> Player.playerId d = pid.
Proof.
  unfold Player.findOne. intros H. apply find_some in H.
  destruct H as [_ H]. apply String.eqb_eq in H. exact H.
Qed.

Lemma updatePlayerScore_findOne (store : list Player.doc) (pid pid' : string)
      (score : Z) (mode : option string) (now : Z) :
  Player.findOne (fst (Player.updatePlayerScore store pid score mode now)) pid'
  = if String.eqb pid pid'
    then Player.applyScoreUpdate score mode now <$> Player.findOne store pid
    else Player.findOne store pid'.
Proof.
  unfold Player.updatePlayerScore.
  destruct (Player.findOne store pid) as [d|] eqn:E; simpl.
  - rewrite findOne_replaceFirst.
    + rewrite E. reflexivity.
    + destruct (applyScoreUpdate_fields score mode now d) as (-> & _).
      apply (findOne_id store), E.
  - destruct (String.eqb pid pid') eqn:E'; [|reflexivity].
    apply String.eqb_eq in E'. subst. exact E.
Qed.



(** C9 (the code departs from the claim). The bonus is computed in
    doubles as [Math.round(100 * ((total - position + 1) / total))].
    For the 18th of 40 participants the exact value is 57.5, which
    rounds to 58; the quotient 23/40 is not a double, the product comes
    out just below 57.5, and the code returns 57.  A session of 40 ended
    through the handler writes 982 + 57 = 1039 to that player, not
    1040. *)
Theorem C9_bonus_of_18th_of_40_is_57 :
  SessionRoutes.calculatePositionBonus 18 40 = Some 57
  /\ Spec.positionBonus 18 40 = 58
  /\ SessionRoutes.calculatePositionBonus 35 80 = Some 57
  /\ Spec.positionBonus 35 80 = 58
  /\ exists sessions' store' s' p,
       SessionRoutes.endHandler {[ "g1" := fullHouse 40 ]}
         [Player.fresh "R" "player" "NA" "classic" 0] "g1" 9000
       = (sessions', store', SessionRoutes.Ended s')
       /\ In p (GameSession.players s')
       /\ GameSession.playerId p = "R"
       /\ GameSession.isActive p = true
       /\ GameSession.position p = Some 18
       /\ GameSession.currentSessionScore p = 982
       /\ Z.of_nat (length (GameSession.players s')) = 40
       /\ Player.currentScore <$> Player.findOne store' "R" = Some 1039.
Proof.
  split; [vm_compute; reflexivity|].
  split; [vm_compute; reflexivity|].
  split; [vm_compute; reflexivity|].
  split; [vm_compute; reflexivity|].
  eexists. eexists. eexists.
  exists (GameSession.mkParticipant "R" "player" 0 982 (Some 18) true).
  split; [vm_compute; reflexivity|].
  split; [vm_compute; tauto|].
  repeat split.
Qed.

(** ** Rate limiter *)

Lemma filter_filter_window (m b : Z) (l : list Z) :
  b <= m ->
  List.filter (fun t => m <? t) (List.filter (fun t => b <? t) l)
  = List.filter (fun t => m <? t) l.
Proof.
  intros H. induction l as [|x l IH]; simpl; [reflexivity|].
  destruct (b <? x) eqn:E; simpl.
  - rewrite IH. reflexivity.
  - assert (E' : (m <? x) = false) by lia. rewrite E'. exact IH.
Qed.

Lemma accepted_snoc (log : list outcome) (pid q : string) (t : Z) (ok : bool) :
  accepted (log ++ [(q, t, ok)]) pid
  = accepted log pid ++ (if String.eqb q pid && ok then [t] else []).
Proof.
  unfold accepted. rewrite List.filter_app, map_app. simpl.
  destruct (String.eqb q pid && ok); reflexivity.
Qed.

Lemma stored_validate (limits : gmap string (list Z)) (pid q : string)
      (now : Z) :
  let recent := List.filter (fun t => now - 60 * 1000 <? t) (stored limits pid) in
  let r := Validation.validateScoreUpdateRate limits pid 60 now in
  Validation.allowed (snd r) = negb (60 <=? Z.of_nat (length recent))
  /\ stored (fst r) q
     = if String.eqb pid q
       then recent ++ (if Validation.allowed (snd r) then [now] else [])
       else stored limits q.
Proof.
  simpl. unfold Validation.validateScoreUpdateRate, stored.
  set (limits1 := match limits !! pid with
                  | Some _ => limits
                  | None => <[pid:=[]]> limits
                  end).
  assert (H1 : default [] (limits1 !! pid) = default [] (limits !! pid)).
  { unfold limits1. destruct (limits !! pid) eqn:E; [rewrite E; reflexivity|].
    rewrite lookup_insert_eq. reflexivity. }
  assert (H2 : forall q, pid <> q -> limits1 !! q = limits !! q).
  { intros q' Hq. unfold limits1. destruct (limits !! pid); [reflexivity|].
    apply lookup_insert_ne, Hq. }
  rewrite H1.
  destruct (60 <=? _) eqn:E; simpl; split; try reflexivity.
  - destruct (String.eqb pid q) eqn:Eq.
    + apply String.eqb_eq in Eq. subst q. rewrite lookup_insert_eq. simpl.
      rewrite app_nil_r. reflexivity.
    + apply String.eqb_neq in Eq.
      rewrite lookup_insert_ne by exact Eq. rewrite H2 by exact Eq.
      reflexivity.
  - destruct (String.eqb pid q) eqn:Eq.
    + apply String.eqb_eq in Eq. subst q. rewrite lookup_insert_eq.
      reflexivity.
    + apply String.eqb_neq in Eq.
      rewrite !lookup_insert_ne by exact Eq. rewrite H2 by exact Eq.
      reflexivity.
Qed.

Lemma rateStep_tracks (bound : Z) (st : gmap string (list Z) * list outcome)
      (a : attempt) :
  tracks bound st -> bound <= snd a - 60 * 1000 ->
  tracks (snd a - 60 * 1000) (rateStep st a).
Proof.
  intros Ht Hb pid m Hm. destruct a as [q now]. simpl in *.
  unfold rateStep. simpl.
  destruct (stored_validate (fst st) q pid now) as [Hal Hst].
  destruct (Validation.validateScoreUpdateRate (fst st) q 60 now)
    as [limits' rc] eqn:E.
  simpl in *. rewrite Hst, accepted_snoc.
  destruct (String.eqb q pid) eqn:Eq; simpl.
  - apply String.eqb_eq in Eq. subst q.
    rewrite !List.filter_app. f_equal.
    rewrite filter_filter_window by exact Hm.
    apply Ht. lia.
  - rewrite app_nil_r. apply Ht. lia.
Qed.

Lemma chronological_snoc (l : list attempt) (a : attempt) :
  chronological (l ++ [a]) ->
  chronological l /\ forall x, In x l -> snd x <= snd a.
Proof.
  unfold chronological. induction l as [|y l IH]; simpl; intros H.
  - split; [constructor | contradiction].
  - apply StronglySorted_inv in H. destruct H as [Hl Hy].
    destruct (IH Hl) as [IH1 IH2].
    rewrite List.Forall_forall in Hy. split.
    + constructor; [exact IH1|].
      rewrite List.Forall_forall. intros x Hx. apply Hy.
      apply in_or_app. left. exact Hx.
    + intros x [<- | Hx]; [|apply IH2, Hx].
      apply Hy. apply in_or_app. right. left. reflexivity.
Qed.

Lemma runAttempts_snoc (limits : gmap string (list Z)) (l : list attempt)
      (a : attempt) :
  runAttempts limits (l ++ [a]) = rateStep (runAttempts limits l) a.
Proof. unfold runAttempts. rewrite fold_left_app. reflexivity. Qed.

Lemma rateStep_log (st : gmap string (list Z) * list outcome) (a : attempt) :
  snd (rateStep st a)
  = snd st
    ++ [(fst a, snd a,
         Validation.allowed
           (snd (Validation.validateScoreUpdateRate (fst st) (fst a) 60 (snd a))))]
  /\ fst (rateStep st a)
     = fst (Validation.validateScoreUpdateRate (fst st) (fst a) 60 (snd a)).
Proof.
  unfold rateStep.
  destruct (Validation.validateScoreUpdateRate _ _ _ _); simpl. auto.
Qed.

Lemma runAttempts_tracks (l : list attempt) :
  forall T, chronological l -> (forall x, In x l -> snd x <= T) ->
            tracks (T - 60 * 1000) (runAttempts ∅ l).
Proof.
  induction l as [|a l IH] using rev_ind; intros T Hc HT.
  - intros pid m _. reflexivity.
  - apply chronological_snoc in Hc. destruct Hc as [Hc Hle].
    rewrite runAttempts_snoc.
    pose proof (rateStep_tracks _ _ a (IH (snd a) Hc Hle) (Z.le_refl _)) as H.
    intros pid m Hm. apply H.
    assert (snd a <= T) by (apply HT, in_or_app; right; left; reflexivity).
    lia.
Qed.

(** The decision on an attempt that follows [pre]. *)
Lemma decision_after (pre : list attempt) (pid : string) (now : Z) :
  chronological (pre ++ [(pid, now)]) ->
  Validation.allowed
    (snd (Validation.validateScoreUpdateRate
            (fst (runAttempts ∅ pre)) pid 60 now))
  = negb (60 <=? Z.of_nat (acceptedInWindow (snd (runAttempts ∅ pre)) pid now)).
Proof.
  intros Hc. apply chronological_snoc in Hc. destruct Hc as [Hc Hle].
  simpl in Hle.
  destruct (stored_validate (fst (runAttempts ∅ pre)) pid pid now) as [-> _].
  unfold acceptedInWindow.
  rewrite (runAttempts_tracks pre now Hc Hle pid (now - 60 * 1000))
    by apply Z.le_refl.
  reflexivity.
Qed.

Lemma acceptedInWindow_le (log : list outcome) (pid : string) (now : Z) :
  (acceptedInWindow log pid now <= length log)%nat.
Proof.
  unfold acceptedInWindow, accepted.
  etransitivity; [apply List.filter_length_le|].
  rewrite length_map. apply List.filter_length_le.
Qed.

Lemma accepted_all (pid : string) (ts : list Z) :
  accepted (List.map (fun t => (pid, t, true)) ts) pid = ts.
Proof.
  unfold accepted. induction ts as [|t ts IH]; simpl; [reflexivity|].
  rewrite String.eqb_refl. simpl. rewrite IH. reflexivity.
Qed.

Lemma chronological_prefix (l1 l2 : list attempt) :
  chronological (l1 ++ l2) -> chronological l1.
Proof.
  unfold chronological. induction l1 as [|a l1 IH]; simpl; intros H;
    [constructor|].
  apply StronglySorted_inv in H. destruct H as [H1 H2].
  constructor; [apply IH, H1|].
  rewrite List.Forall_forall in H2 |- *.
  intros x Hx. apply H2, in_or_app. left. exact Hx.
Qed.

(** Fewer than 60 earlier attempts: everything is let through. *)
Lemma first_sixty_accepted (pid : string) (ts : list Z) :
  chronological (List.map (pair pid) ts) -> (length ts <= 60)%nat ->
  snd (runAttempts ∅ (List.map (pair pid) ts))
  = List.map (fun t => (pid, t, true)) ts.
Proof.
  induction ts as [|t ts IH] using rev_ind; intros Hc Hlen; [reflexivity|].
  rewrite map_app in Hc |- *. simpl in Hc |- *.
  rewrite length_app in Hlen. simpl in Hlen.
  rewrite runAttempts_snoc.
  destruct (rateStep_log (runAttempts ∅ (List.map (pair pid) ts)) (pid, t))
    as [-> _].
  simpl. rewrite (decision_after _ pid t Hc).
  rewrite IH; [|apply (chronological_prefix _ _ Hc)|lia].
  rewrite map_app. simpl. do 3 f_equal.
  pose proof (acceptedInWindow_le (List.map (fun t0 => (pid, t0, true)) ts)
                                  pid t) as H.
  rewrite length_map in H.
  apply negb_true_iff, Z.leb_gt. lia.
Qed.

Lemma resetTime_validate (limits : gmap string (list Z)) (pid : string)
      (now : Z) :
  let recent := List.filter (fun t => now - 60 * 1000 <? t) (stored limits pid) in
  let rc := snd (Validation.validateScoreUpdateRate limits pid 60 now) in
  Validation.allowed rc = false ->
  exists oldest rest,
    recent = oldest :: rest
    /\ Validation.resetTime rc
       = Some (JS.ceil_div (oldest + 60 * 1000 - now) 1000).
Proof.
  simpl. unfold Validation.validateScoreUpdateRate, stored.
  set (limits1 := match limits !! pid with
                  | Some _ => limits
                  | None => <[pid:=[]]> limits
                  end).
  assert (H1 : default [] (limits1 !! pid) = default [] (limits !! pid)).
  { unfold limits1. destruct (limits !! pid) eqn:E; [rewrite E; reflexivity|].
    rewrite lookup_insert_eq. reflexivity. }
  rewrite H1.
  remember (List.filter (fun t => now - 60 * 1000 <? t)
                        (default [] (limits !! pid))) as recent eqn:R.
  clear R.
  destruct (60 <=? Z.of_nat (length recent)) eqn:E; simpl; [|discriminate].
  intros _.
  destruct recent as [|oldest rest]; [discriminate E|].
  eauto.
Qed.

Lemma filter_all_window (b : Z) (l : list Z) :
  (forall t, In t l -> b < t) -> List.filter (fun t => b <? t) l = l.
Proof.
  induction l as [|x l IH]; simpl; intros H; [reflexivity|].
  assert (E : (b <? x) = true) by (apply Z.ltb_lt, H; left; reflexivity).
  rewrite E, IH; [reflexivity|]. intros t Ht. apply H. right. exact Ht.
Qed.

(** C7. With 60 updates per minute allowed, and attempts made in
    chronological order by any mix of players: an attempt is refused
    exactly when 60 or more earlier attempts for the same player id were
    let through within the 60 seconds before it, and the refusal carries
    a reset time, counted from the oldest of them.  In particular, of 61
    attempts for one player inside one window the first 60 pass and the
    61st is refused; the next attempt made once the oldest of the 60 is
    at least 60 seconds old passes again. *)
Theorem C7_sliding_window_rate_limit :
  (forall (pre : list attempt) (pid : string) (now : Z),
      chronological (pre ++ [(pid, now)]) ->
      let st := runAttempts ∅ pre in
      let rc := snd (Validation.validateScoreUpdateRate (fst st) pid 60 now) in
      (Validation.allowed rc = false
       <-> (60 <= acceptedInWindow (snd st) pid now)%nat)
      /\ (Validation.allowed rc = false ->
          exists oldest rest,
            List.filter (fun t => now - 60 * 1000 <? t) (accepted (snd st) pid)
            = oldest :: rest
            /\ Validation.resetTime rc
               = Some (JS.ceil_div (oldest + 60 * 1000 - now) 1000)))
  /\ (forall (pid : string) (t1 : Z) (ts : list Z) (t61 t' : Z),
         length ts = 59%nat ->
         chronological (List.map (pair pid) (t1 :: ts ++ [t61; t'])) ->
         t61 - 60 * 1000 < t1 ->
         t1 <= t' - 60 * 1000 ->
         snd (runAttempts ∅ (List.map (pair pid) (t1 :: ts ++ [t61; t'])))
         = List.map (fun t => (pid, t, true)) (t1 :: ts)
           ++ [(pid, t61, false); (pid, t', true)]).
Proof.
  split.
  - intros pre pid now Hc. simpl.
    pose proof (decision_after pre pid now Hc) as Hd.
    split.
    + rewrite Hd, negb_false_iff, Z.leb_le. lia.
    + intros Hr.
      destruct (resetTime_validate (fst (runAttempts ∅ pre)) pid now Hr)
        as (oldest & rest & Hrec & Hreset).
      exists oldest, rest. split; [|exact Hreset].
      apply chronological_snoc in Hc. destruct Hc as [Hc Hle].
      rewrite <- (runAttempts_tracks pre now Hc Hle pid (now - 60 * 1000))
        by apply Z.le_refl.
      exact Hrec.
  - intros pid t1 ts t61 t' Hlen Hc Hin Hout.
    assert (Hshape : t1 :: ts ++ [t61; t'] = ((t1 :: ts) ++ [t61]) ++ [t']).
    { simpl. rewrite <- app_assoc. reflexivity. }
    rewrite Hshape in Hc |- *. clear Hshape.
    assert (Hfirst : forall t, In t (t1 :: ts) -> t1 <= t).
    { intros t [<- | Ht]; [lia|].
      unfold chronological in Hc. simpl in Hc.
      apply StronglySorted_inv in Hc. destruct Hc as [_ Hf].
      rewrite List.Forall_forall in Hf.
      apply (Hf (pid, t)). rewrite <- app_assoc, map_app.
      apply in_or_app. left. apply in_map, Ht. }
    remember (t1 :: ts) as all eqn:Eall.
    assert (Hall : (length all = 60)%nat) by (subst all; simpl; lia).
    rewrite !map_app in Hc |- *. simpl in Hc |- *.
    assert (Hc61 : chronological (List.map (pair pid) all ++ [(pid, t61)]))
      by apply (chronological_prefix _ _ Hc).
    assert (Hc60 : chronological (List.map (pair pid) all))
      by apply (chronological_prefix _ _ Hc61).
    assert (Hlog60 : snd (runAttempts ∅ (List.map (pair pid) all))
                     = List.map (fun t => (pid, t, true)) all)
      by (apply first_sixty_accepted; [exact Hc60 | lia]).
    assert (Hlog61 : snd (runAttempts ∅ (List.map (pair pid) all ++ [(pid, t61)]))
                     = List.map (fun t => (pid, t, true)) all
                       ++ [(pid, t61, false)]).
    { rewrite runAttempts_snoc.
      destruct (rateStep_log (runAttempts ∅ (List.map (pair pid) all))
                             (pid, t61)) as [-> _].
      simpl. rewrite (decision_after _ pid t61 Hc61), Hlog60.
      do 3 f_equal. unfold acceptedInWindow.
      rewrite accepted_all, filter_all_window.
      - rewrite Hall. reflexivity.
      - intros t Ht. specialize (Hfirst t Ht). lia. }
    rewrite runAttempts_snoc.
    destruct (rateStep_log
                (runAttempts ∅ (List.map (pair pid) all ++ [(pid, t61)]))
                (pid, t')) as [-> _].
    simpl. rewrite (decision_after _ pid t' Hc), Hlog61.
    rewrite <- app_assoc. simpl. do 4 f_equal.
    unfold acceptedInWindow. rewrite accepted_snoc, accepted_all.
    rewrite andb_false_r, app_nil_r. subst all. simpl.
    assert (E : (t' - 60 * 1000 <? t1) = false) by lia.
    rewrite E.
    pose proof (List.filter_length_le (fun t => t' - 60 * 1000 <? t) ts) as Hf.
    apply negb_true_iff, Z.leb_gt. lia.
Qed.

Lemma C7_witness :
  Validation.allowed
    (snd (Validation.validateScoreUpdateRate
            (fst (runAttempts ∅ [("p", 0); ("q", 10); ("p", 500)]))
            "p" 60 1000)) = true.
Proof.
  assert (Hc : chronological ([("p", 0); ("q", 10); ("p", 500)] ++ [("p", 1000)])).
  { unfold chronological. simpl.
    repeat (constructor; [|repeat constructor; simpl; lia]). constructor. }
  destruct (proj1 C7_sliding_window_rate_limit _ "p" 1000 Hc) as [H _].
  destruct (Validation.allowed _); [reflexivity|].
  pose proof (proj1 H eq_refl) as E. vm_compute in E. lia.
Defined.

(** ** Socket service: channels *)

Lemma generateRoomNames_channels (region gameMode : option string) :
  list_to_set (SocketService.generateRoomNames region gameMode)
  = channels region gameMode.
Proof.
  unfold SocketService.generateRoomNames, channels, regionGiven, modeGiven,
    SocketService.truthyStr, JS.truthy.
  destruct region as [r|], gameMode as [m|]; simpl;
    repeat match goal with
           | |- context [String.eqb ?a ?b] => destruct (String.eqb a b)
           end; simpl; set_solver.
Qed.

Lemma updateOnlineStatus_keeps (store : list Player.doc) (p : Player.doc)
      (online : bool) (now : Z) :
  let p' := snd (Player.updateOnlineStatus store p online now) in
  Player.region p' = Player.region p
  /\ Player.currentGameMode p' = Player.currentGameMode p
  /\ Player.username p' = Player.username p.
Proof.
  unfold Player.updateOnlineStatus, Player.save.
  destruct (Player.findOne store _); simpl; unfold Player.preSave; simpl;
    destruct (0 <? Player.totalGamesPlayed p); simpl;
    destruct (Player.bestScore p <? _); simpl; auto.
Qed.

(** What a successful join handshake leaves behind. *)
Lemma handlePlayerJoin_rooms (st : SocketService.state) (socket : string)
      (data : Validation.joinRoom) (now : Z) (found : Player.doc) :
  Validation.validJoinRoom data = true ->
  let playerId := default "" (Validation.jr_playerId data) in
  Player.findOne (SocketService.playerStore st) playerId = Some found ->
  let region := JS.or_else (Validation.jr_region data) (Player.region found) in
  let gameMode :=
    JS.or_else (Validation.jr_gameMode data) (Player.currentGameMode found) in
  let rooms := SocketService.generateRoomNames (Some region) (Some gameMode) in
  let st' := fst (SocketService.handlePlayerJoin st socket data now) in
  SocketService.socketToPlayer st' !! socket = Some playerId
  /\ SocketService.roomSubscriptions st' !! playerId = Some (list_to_set rooms)
  /\ SocketService.socketRooms st' !! socket
     = Some (SocketService.roomsOf st socket ∪ list_to_set rooms).
Proof.
  intros Hv. simpl. intros Hf.
  unfold SocketService.handlePlayerJoin. rewrite Hv, Hf. simpl.
  pose proof (updateOnlineStatus_keeps (SocketService.playerStore st) found
                                       true now) as K.
  destruct (Player.updateOnlineStatus (SocketService.playerStore st) found
                                      true now) as [store' player].
  simpl in K. destruct K as (-> & -> & _). simpl.
  rewrite !lookup_insert_eq. auto.
Qed.

Lemma handleLeaderboardUnsubscription_rooms
      (st : SocketService.state) (socket playerId : string)
      (region gameMode : option string) :
  SocketService.socketToPlayer st !! socket = Some playerId ->
  let st' := fst (SocketService.handleLeaderboardUnsubscription
                    st socket region gameMode) in
  let rooms := SocketService.generateRoomNames region gameMode in
  SocketService.subscriptionsOf st' playerId
  = SocketService.subscriptionsOf st playerId ∖ list_to_set rooms
  /\ SocketService.roomsOf st' socket
     = SocketService.roomsOf st socket ∖ list_to_set rooms
  /\ SocketService.socketToPlayer st' = SocketService.socketToPlayer st.
Proof.
  intros Hs. simpl. unfold SocketService.handleLeaderboardUnsubscription.
  rewrite Hs. simpl.
  unfold SocketService.subscriptionsOf, SocketService.roomsOf. simpl.
  rewrite !lookup_insert_eq. auto.
Qed.

(** C8. The channels a connection is put in by a successful join
    handshake are those of [generateRoomNames] at the region and game
    mode in force, and that list is, as a set, the one the specification
    describes: ["global"], the region channel unless the region is
    absent or [GLOBAL], the game-mode channel when a mode is given, and
    the conjunction when both of these hold.  Unsubscribing takes the
    set computed from its own (region, gameMode) out of the player's
    subscriptions and out of the socket's rooms; done with the pair of
    the join it leaves the subscriptions empty. *)
Theorem C8_join_channels_round_trip
        (st : SocketService.state) (socket : string)
        (data : Validation.joinRoom) (now : Z) (found : Player.doc) :
  Validation.validJoinRoom data = true ->
  let playerId := default "" (Validation.jr_playerId data) in
  Player.findOne (SocketService.playerStore st) playerId = Some found ->
  let region := JS.or_else (Validation.jr_region data) (Player.region found) in
  let gameMode :=
    JS.or_else (Validation.jr_gameMode data) (Player.currentGameMode found) in
  let joined := fst (SocketService.handlePlayerJoin st socket data now) in
  let left := fst (SocketService.handleLeaderboardUnsubscription
                     joined socket (Some region) (Some gameMode)) in
  (forall r m, list_to_set (SocketService.generateRoomNames r m)
               = channels r m)
  /\ SocketService.subscriptionsOf joined playerId
     = channels (Some region) (Some gameMode)
  /\ SocketService.roomsOf joined socket
     = SocketService.roomsOf st socket ∪ channels (Some region) (Some gameMode)
  /\ (forall r m,
         let st' := fst (SocketService.handleLeaderboardUnsubscription
                           joined socket r m) in
         SocketService.subscriptionsOf st' playerId
         = SocketService.subscriptionsOf joined playerId ∖ channels r m
         /\ SocketService.roomsOf st' socket
            = SocketService.roomsOf joined socket ∖ channels r m)
  /\ SocketService.subscriptionsOf left playerId = ∅
  /\ SocketService.roomsOf left socket
     = SocketService.roomsOf st socket ∖ channels (Some region) (Some gameMode).
Proof.
  intros Hv. simpl. intros Hf.
  destruct (handlePlayerJoin_rooms st socket data now found Hv Hf)
    as (Hsock & Hsub & Hrooms).
  set (joined := fst (SocketService.handlePlayerJoin st socket data now)) in *.
  assert (Hsub' : SocketService.subscriptionsOf joined
                    (default "" (Validation.jr_playerId data))
                  = channels
                      (Some (JS.or_else (Validation.jr_region data)
                                        (Player.region found)))
                      (Some (JS.or_else (Validation.jr_gameMode data)
                                        (Player.currentGameMode found)))).
  { unfold SocketService.subscriptionsOf. rewrite Hsub.
    exact (generateRoomNames_channels _ _). }
  assert (Hrooms' : SocketService.roomsOf joined socket
                    = SocketService.roomsOf st socket
                      ∪ channels
                          (Some (JS.or_else (Validation.jr_region data)
                                            (Player.region found)))
                          (Some (JS.or_else (Validation.jr_gameMode data)
                                            (Player.currentGameMode found)))).
  { unfold SocketService.roomsOf at 1.
    rewrite Hrooms, generateRoomNames_channels. reflexivity. }
  split; [apply generateRoomNames_channels|].
  split; [exact Hsub'|]. split; [exact Hrooms'|].
  split.
  - intros r m.
    destruct (handleLeaderboardUnsubscription_rooms joined socket _ r m Hsock)
      as (H1 & H2 & _).
    rewrite generateRoomNames_channels in H1, H2. auto.
  - destruct (handleLeaderboardUnsubscription_rooms joined socket _
                (Some (JS.or_else (Validation.jr_region data)
                                  (Player.region found)))
                (Some (JS.or_else (Validation.jr_gameMode data)
                                  (Player.currentGameMode found))) Hsock)
      as (H1 & H2 & _).
    rewrite generateRoomNames_channels in H1, H2.
    rewrite H1, H2, Hsub', Hrooms'. split; set_solver.
Qed.

Lemma C8_witness :
  let st := SocketService.mkState ∅ ∅ ∅ ∅
              [Player.fresh "p1" "alice" "NA" "classic" 0] ∅ ∅ in
  let data := Validation.mkJoinRoom (Some "p1") None (Some "blitz") in
  let joined := fst (SocketService.handlePlayerJoin st "s1" data 5) in
  let left := fst (SocketService.handleLeaderboardUnsubscription
                     joined "s1" (Some "NA") (Some "blitz")) in
  SocketService.subscriptionsOf joined "p1"
  = channels (Some "NA") (Some "blitz")
  /\ SocketService.subscriptionsOf left "p1" = ∅.
Proof.
  simpl.
  pose proof (C8_join_channels_round_trip
                (SocketService.mkState ∅ ∅ ∅ ∅
                   [Player.fresh "p1" "alice" "NA" "classic" 0] ∅ ∅)
                "s1" (Validation.mkJoinRoom (Some "p1") None (Some "blitz")) 5
                (Player.fresh "p1" "alice" "NA" "classic" 0)
                eq_refl eq_refl) as (_ & H1 & _ & _ & H2 & _).
  split; [exact H1 | exact H2].
Defined.

(** ** Socket service: the score-update handler *)

Lemma applyScoreUpdate_rateLimit (st : SocketService.state) (playerId : string)
      (data : Validation.scoreUpdate) (now : Z) :
  SocketService.scoreUpdateRateLimit
    (fst (SocketService.applyScoreUpdate st playerId data now))
  = SocketService.scoreUpdateRateLimit st.
Proof.
  unfold SocketService.applyScoreUpdate.
  destruct (Validation.su_sessionId data) as [sessionId|]; simpl.
  - destruct (SocketService.truthyStr sessionId); simpl.
    + destruct (GameSession.updatePlayerScore _ _ _ _ _ _ _)
        as [[sessions' updated]|e]; simpl; [|reflexivity].
      destruct (Player.updatePlayerScore _ _ _ _ _) as [store' [p|]]; simpl;
        [|reflexivity].
      destruct (SocketService.connectedPlayers st !! playerId); reflexivity.
    + destruct (Player.updatePlayerScore _ _ _ _ _) as [store' [p|]]; simpl;
        [|reflexivity].
      destruct (SocketService.connectedPlayers st !! playerId); reflexivity.
  - destruct (Player.updatePlayerScore _ _ _ _ _) as [store' [p|]]; simpl;
      [|reflexivity].
    destruct (SocketService.connectedPlayers st !! playerId); reflexivity.
Qed.

(** C10. In [handleScoreUpdate] the rate-limit check comes before the
    ownership check and records the attempt.  For a valid payload that
    the limiter lets through, the handler leaves the rate-limit map
    exactly as the check left it on every path that follows (refusal as
    unauthorized, a failing session update, an unknown player, success):
    the time of the attempt has been appended to the entry of the
    player id the payload names.  A socket that does not own that id is
    answered with [unauthorized], the two stores untouched; an owner
    whose player document does not exist is answered with
    [update_failed]; in both cases the slot is spent. *)
Theorem C10_rate_limit_consumed_before_ownership
        (st : SocketService.state) (socket : string)
        (data : Validation.scoreUpdate) (now : Z) :
  Validation.validScoreUpdate data = true ->
  let playerId := default "" (Validation.su_playerId data) in
  let checked :=
    Validation.validateScoreUpdateRate
      (SocketService.scoreUpdateRateLimit st) playerId 60 now in
  Validation.allowed (snd checked) = true ->
  let st' := fst (SocketService.handleScoreUpdate st socket data now) in
  let out := snd (SocketService.handleScoreUpdate st socket data now) in
  SocketService.scoreUpdateRateLimit st' = fst checked
  /\ stored (SocketService.scoreUpdateRateLimit st') playerId
     = List.filter (fun t => now - 60 * 1000 <? t)
                   (stored (SocketService.scoreUpdateRateLimit st) playerId)
       ++ [now]
  /\ (SocketService.socketToPlayer st !! socket <> Some playerId ->
      out = [(SocketService.ToSender,
              SocketService.Error SocketService.unauthorized)]
      /\ SocketService.playerStore st' = SocketService.playerStore st
      /\ SocketService.sessionStore st' = SocketService.sessionStore st)
  /\ (SocketService.socketToPlayer st !! socket = Some playerId ->
      Validation.su_sessionId data = None ->
      Player.findOne (SocketService.playerStore st) playerId = None ->
      out = [(SocketService.ToSender,
              SocketService.Error SocketService.update_failed)]).
Proof.
  intros Hv. simpl. intros Ha.
  destruct (stored_validate (SocketService.scoreUpdateRateLimit st)
              (default "" (Validation.su_playerId data))
              (default "" (Validation.su_playerId data)) now) as [_ Hst].
  rewrite String.eqb_refl, Ha in Hst.
  unfold SocketService.handleScoreUpdate. rewrite Hv. simpl.
  destruct (Validation.validateScoreUpdateRate _ _ _ _) as [limits' rc] eqn:E.
  simpl in *. rewrite Ha. simpl.
  destruct (bool_decide _) eqn:Eown; simpl.
  - apply bool_decide_eq_true in Eown.
    rewrite applyScoreUpdate_rateLimit. simpl.
    split; [reflexivity|]. split; [exact Hst|].
    split; [intros Hno; contradiction|].
    intros _ Hsid Hnone.
    unfold SocketService.applyScoreUpdate. rewrite Hsid. simpl.
    unfold Player.updatePlayerScore. rewrite Hnone. reflexivity.
  - apply bool_decide_eq_false in Eown.
    split; [reflexivity|]. split; [exact Hst|].
    split; [intros _; auto|].
    intros Hyes. contradiction.
Qed.

Lemma C10_witness :
  let st := SocketService.mkState ∅ ∅ ∅ ∅
              [Player.fresh "p1" "alice" "NA" "classic" 0] ∅ ∅ in
  let data := Validation.mkScoreUpdate (Some "p1") None (Some 1500)
                                       None None None in
  let r := SocketService.handleScoreUpdate st "intruder" data 1000 in
  snd r = [(SocketService.ToSender,
            SocketService.Error SocketService.unauthorized)]
  /\ stored (SocketService.scoreUpdateRateLimit (fst r)) "p1" = [1000]
  /\ SocketService.playerStore (fst r) = SocketService.playerStore st.
Proof.
  simpl.
  pose proof (C10_rate_limit_consumed_before_ownership
                (SocketService.mkState ∅ ∅ ∅ ∅
                   [Player.fresh "p1" "alice" "NA" "classic" 0] ∅ ∅)
                "intruder"
                (Validation.mkScoreUpdate (Some "p1") None (Some 1500)
                                          None None None)
                1000 eq_refl eq_refl) as (_ & H2 & H3 & _).
  assert (Hno : (∅ : gmap string string) !! "intruder" <> Some "p1")
    by (rewrite lookup_empty; discriminate).
  destruct (H3 Hno) as (Hout & Hp & _).
  split; [exact Hout|]. split; [exact H2 | exact Hp].
Defined.

(** * Further properties of the code *)

(** ** Player: game results, ordering, pages and ranks *)

Lemma find_app_none {A : Type} (f : A -> bool) (l1 l2 : list A) :
  List.find f l1 = None -> List.find f (l1 ++ l2) = List.find f l2.
Proof.
  induction l1 as [|x l1 IH]; simpl; [reflexivity|].
  destruct (f x); [discriminate | exact IH].
Qed.

Lemma save_findOne (store : list Player.doc) (p : Player.doc) :
  Player.findOne (fst (Player.save store p)) (Player.playerId p)
  = Some (snd (Player.save store p)).
Proof.
  unfold Player.save.
  destruct (preSave_keeps p) as (Hid & _).
  destruct (Player.findOne store (Player.playerId p)) eqn:E; simpl.
  - rewrite findOne_replaceFirst by exact Hid.
    rewrite String.eqb_refl, E. reflexivity.
  - unfold Player.findOne in *. rewrite find_app_none by exact E.
    simpl. unfold Player.hasId. rewrite Hid, String.eqb_refl. reflexivity.
Qed.



Lemma before_false (a b : Player.doc) :
  Player.before b a = false <-> listedBefore a b.
Proof.
  unfold Player.before, listedBefore.
  rewrite orb_false_iff, andb_false_iff, Z.ltb_ge, Z.ltb_ge, Z.eqb_neq.
  split; intros H; [split; lia|].
  destruct H as [H1 H2]. split; [lia|].
  destruct (Z.eq_dec (Player.currentScore b) (Player.currentScore a)) as [E|E];
    [right; apply H2; lia | left; exact E].
Qed.

Lemma before_true (a b : Player.doc) :
  Player.before a b = true -> listedBefore a b.
Proof.
  unfold Player.before, listedBefore.
  rewrite orb_true_iff, andb_true_iff, Z.ltb_lt, Z.ltb_lt, Z.eqb_eq. lia.
Qed.

Lemma listedBefore_trans (a b c : Player.doc) :
  listedBefore a b -> listedBefore b c -> listedBefore a c.
Proof. unfold listedBefore. lia. Qed.

Lemma insertSorted_sorted (x : Player.doc) (l : list Player.doc) :
  StronglySorted listedBefore l ->
  StronglySorted listedBefore (Player.insertSorted x l).
Proof.
  induction l as [|y l IH]; simpl; intros H.
  - constructor; constructor.
  - apply StronglySorted_inv in H. destruct H as [Hl Hy].
    destruct (Player.before y x) eqn:E.
    + constructor; [apply IH, Hl|].
      eapply Permutation_Forall; [apply Permutation_sym, insertSorted_perm|].
      constructor; [apply before_true, E | exact Hy].
    + apply before_false in E.
      constructor; [constructor; assumption|].
      constructor; [exact E|].
      rewrite List.Forall_forall in Hy |- *. intros z Hz.
      apply (listedBefore_trans x y z E), Hy, Hz.
Qed.

Lemma sortLeaderboard_sorted (l : list Player.doc) :
  StronglySorted listedBefore (Player.sortLeaderboard l).
Proof.
  unfold Player.sortLeaderboard.
  induction l as [|x l IH]; simpl; [constructor|].
  apply insertSorted_sorted, IH.
Qed.

Lemma StronglySorted_skipn {A : Type} (R : A -> A -> Prop) (n : nat)
      (l : list A) :
  StronglySorted R l -> StronglySorted R (skipn n l).
Proof.
  revert l. induction n as [|n IH]; intros l H; simpl; [exact H|].
  destruct l as [|x l]; [constructor|].
  apply IH. apply StronglySorted_inv in H. tauto.
Qed.

Lemma StronglySorted_firstn {A : Type} (R : A -> A -> Prop) (n : nat)
      (l : list A) :
  StronglySorted R l -> StronglySorted R (firstn n l).
Proof.
  revert l. induction n as [|n IH]; intros l H; simpl; [constructor|].
  destruct l as [|x l]; [constructor|].
  apply StronglySorted_inv in H. destruct H as [Hl Hx].
  constructor; [apply IH, Hl|].
  rewrite List.Forall_forall in Hx |- *. intros y Hy. apply Hx.
  rewrite <- (firstn_skipn n l). apply in_or_app. left. exact Hy.
Qed.

Lemma StronglySorted_nth {A : Type} (R : A -> A -> Prop) (l : list A)
      (i j : nat) (a b : A) :
  StronglySorted R l -> (i < j)%nat ->
  nth_error l i = Some a -> nth_error l j = Some b -> R a b.
Proof.
  intros H. revert i j.
  induction H as [|x l Hl IH Hx]; intros i j Hij Ha Hb.
  - destruct i; discriminate.
  - destruct j as [|j]; [lia|]. simpl in Hb.
    destruct i as [|i]; simpl in Ha.
    + injection Ha as <-. apply nth_error_In in Hb.
      rewrite List.Forall_forall in Hx. apply (Hx b Hb).
    + apply (IH i j); [lia | assumption | assumption].
Qed.

Lemma getLeaderboard_sorted (store : list Player.doc) (o : Player.options) :
  StronglySorted listedBefore (Player.getLeaderboard store o).
Proof.
  unfold Player.getLeaderboard, Player.applyLimit.
  destruct (Player.limit o);
    [|apply StronglySorted_firstn];
    apply StronglySorted_skipn, sortLeaderboard_sorted.
Qed.

(** X2. Every page [getLeaderboard] returns is in leaderboard order: of
    two players on it, the one listed first has at least the score of
    the other, and among equal scores the more recent activity. *)
Theorem X2_getLeaderboard_is_ordered
        (store : list Player.doc) (o : Player.options) (i j : nat)
        (a b : Player.doc) :
  (i < j)%nat ->
  nth_error (Player.getLeaderboard store o) i = Some a ->
  nth_error (Player.getLeaderboard store o) j = Some b ->
  Player.currentScore b <= Player.currentScore a
  /\ (Player.currentScore a = Player.currentScore b ->
      Player.lastActiveAt b <= Player.lastActiveAt a).
Proof.
  intros Hij Ha Hb.
  apply (StronglySorted_nth listedBefore _ i j a b
           (getLeaderboard_sorted store o) Hij Ha Hb).
Qed.

Lemma X2_witness :
  let a := Player.mkDoc "a" "ann" "NA" 900 1 0 0 "classic" true 10 0 0 0 in
  let b := Player.mkDoc "b" "bob" "NA" 1000 1 0 0 "classic" true 20 0 0 0 in
  let c := Player.mkDoc "c" "cy" "EU" 1000 1 0 0 "classic" true 30 0 0 0 in
  Player.getLeaderboard [a; b; c] (Player.mkOptions 2 0 None None false)
  = [c; b]
  /\ Player.currentScore b <= Player.currentScore c
  /\ (Player.currentScore c = Player.currentScore b ->
      Player.lastActiveAt b <= Player.lastActiveAt c).
Proof.
  intros a b c. split; [reflexivity|].
  apply (X2_getLeaderboard_is_ordered [a; b; c]
           (Player.mkOptions 2 0 None None false) 0 1 c b);
    [lia | reflexivity | reflexivity].
Defined.




Lemma filter_length_lt_bool {A : Type} (f : A -> bool) (l : list A) (x : A) :
  In x l -> f x = false -> (length (List.filter f l) < length l)%nat.
Proof.
  induction l as [|y l IH]; simpl; intros Hin Hf; [contradiction|].
  destruct Hin as [-> | Hin].
  - rewrite Hf. pose proof (List.filter_length_le f l). lia.
  - specialize (IH Hin Hf). destruct (f y); simpl; lia.
Qed.

Lemma rank_null_or_bounded
        (store : list Player.doc) (pid : string)
        (region gameMode : option string) :
  (Player.findOne store pid = None ->
   Player.getPlayerRank store pid region gameMode = None)
  /\ (forall p, Player.findOne store pid = Some p ->
        exists r, Player.getPlayerRank store pid region gameMode = Some r
                  /\ 1 <= r <= Z.of_nat (length store)).
Proof.
  unfold Player.getPlayerRank, Player.countDocuments. split.
  - intros ->. reflexivity.
  - intros p Hp. rewrite Hp. eexists. split; [reflexivity|].
    assert (Hin : In p store)
      by (unfold Player.findOne in Hp; apply find_some in Hp; tauto).
    assert (Hf : Player.matches (Player.rankConditions p region gameMode) p
                 = false).
    { rewrite matches_rankConditions, Z.ltb_irrefl. reflexivity. }
    pose proof (filter_length_lt_bool _ store p Hin Hf). lia.
Qed.

(** X4. [getPlayerRank] answers [null] for an unknown player id, and
    for a known one a rank between 1 and the number of stored players,
    whatever the filter. *)
Theorem X4_rank_is_null_or_within_population
        (store : list Player.doc) (pid : string)
        (region gameMode : option string) :
  (Player.findOne store pid = None ->
   Player.getPlayerRank store pid region gameMode = None)
  /\ (forall p, Player.findOne store pid = Some p ->
        exists r, Player.getPlayerRank store pid region gameMode = Some r
                  /\ 1 <= r <= Z.of_nat (length store)).
Proof. apply rank_null_or_bounded. Qed.

Lemma X4_witness :
  let a := Player.mkDoc "a" "ann" "NA" 900 1 0 0 "classic" true 10 0 0 0 in
  let b := Player.mkDoc "b" "bob" "NA" 1000 1 0 0 "classic" true 20 0 0 0 in
  Player.getPlayerRank [a; b] "zed" None None = None
  /\ exists r, Player.getPlayerRank [a; b] "a" (Some "NA") None = Some r
               /\ 1 <= r <= 2.
Proof.
  intros a b.
  destruct (X4_rank_is_null_or_within_population [a; b] "zed" None None)
    as [H _].
  destruct (X4_rank_is_null_or_within_population [a; b] "a" (Some "NA") None)
    as [_ H'].
  split; [apply H; reflexivity | apply (H' a); reflexivity].
Defined.

Lemma findOne_unique (store : list Player.doc) (a : Player.doc) :
  List.NoDup (List.map Player.playerId store) -> In a store ->
  Player.findOne store (Player.playerId a) = Some a.
Proof.
  unfold Player.findOne.
  induction store as [|y store IH]; simpl; intros Hnd Hin; [contradiction|].
  apply NoDup_cons_iff in Hnd. destruct Hnd as [Hy Hnd].
  unfold Player.hasId at 1. destruct (String.eqb _ _) eqn:E.
  - destruct Hin as [-> | Hin]; [reflexivity|].
    apply String.eqb_eq in E. exfalso. apply Hy. rewrite E.
    apply in_map, Hin.
  - destruct Hin as [-> | Hin]; [rewrite String.eqb_refl in E; discriminate|].
    apply IH; assumption.
Qed.

Lemma filter_length_perm {A : Type} (f : A -> bool) (l l' : list A) :
  Permutation l l' -> length (List.filter f l) = length (List.filter f l').
Proof.
  induction 1 as [|x l l' _ IH|x y l|l l' l'' _ IH1 _ IH2]; simpl.
  - reflexivity.
  - destruct (f x); simpl; rewrite IH; reflexivity.
  - destruct (f x), (f y); reflexivity.
  - rewrite IH1. exact IH2.
Qed.

Lemma filter_filter_and {A : Type} (f g : A -> bool) (l : list A) :
  List.filter f (List.filter g l) = List.filter (fun x => f x && g x) l.
Proof.
  induction l as [|x l IH]; simpl; [reflexivity|].
  destruct (g x); simpl.
  - rewrite andb_true_r. destruct (f x); rewrite IH; reflexivity.
  - rewrite andb_false_r. exact IH.
Qed.

Lemma sorted_split (l1 l2 : list Player.doc) (a : Player.doc) :
  StronglySorted listedBefore (l1 ++ a :: l2) ->
  (forall z, In z l2 -> listedBefore a z)
  /\ (forall z, In z l1 -> listedBefore z a).
Proof.
  induction l1 as [|y l1 IH]; simpl; intros H;
    apply StronglySorted_inv in H; destruct H as [Hl Hy];
    rewrite List.Forall_forall in Hy.
  - split; [exact Hy | contradiction].
  - destruct (IH Hl) as [IH1 IH2]. split; [exact IH1|].
    intros z [<- | Hz]; [|apply IH2, Hz].
    apply Hy, in_or_app. right. left. reflexivity.
Qed.

Lemma filter_none {A : Type} (f : A -> bool) (l : list A) :
  (forall x, In x l -> f x = false) -> List.filter f l = [].
Proof.
  induction l as [|x l IH]; simpl; intros H; [reflexivity|].
  rewrite (H x (or_introl eq_refl)). apply IH.
  intros y Hy. apply H. right. exact Hy.
Qed.

Lemma filter_every {A : Type} (f : A -> bool) (l : list A) :
  (forall x, In x l -> f x = true) -> List.filter f l = l.
Proof.
  induction l as [|x l IH]; simpl; intros H; [reflexivity|].
  rewrite (H x (or_introl eq_refl)). f_equal. apply IH.
  intros y Hy. apply H. right. exact Hy.
Qed.

(** The rank of a listed player, counted on the board it is listed on. *)
Lemma rank_on_board (store : list Player.doc) (region gameMode : option string)
      (a : Player.doc) :
  List.NoDup (List.map Player.playerId store) ->
  In a (board store region gameMode false) ->
  Player.getPlayerRank store (Player.playerId a) region gameMode
  = Some (Z.of_nat
            (length (List.filter
                       (fun q => Player.currentScore a <? Player.currentScore q)
                       (board store region gameMode false))) + 1).
Proof.
  intros Hnd Hin.
  pose proof (proj1 (getLeaderboard_all store region gameMode false a) Hin)
    as [Hstore _].
  unfold Player.getPlayerRank, Player.countDocuments.
  rewrite (findOne_unique store a Hnd Hstore). do 3 f_equal.
  assert (Hb : board store region gameMode false
               = Player.sortLeaderboard
                   (List.filter
                      (Player.matches
                         (Player.leaderboardConditions
                            (Player.mkOptions 0 0 region gameMode false)))
                      store)) by reflexivity.
  rewrite Hb.
  rewrite (filter_length_perm _ _ _ (sortLeaderboard_perm _)).
  rewrite filter_filter_and. f_equal. apply filter_ext_bool. intros q.
  rewrite matches_rankConditions, matches_leaderboardConditions. simpl.
  rewrite andb_true_r, andb_assoc. reflexivity.
Qed.

Lemma rank_le_place
        (store : list Player.doc) (region gameMode : option string)
        (i : nat) (a : Player.doc) :
  List.NoDup (List.map Player.playerId store) ->
  nth_error (board store region gameMode false) i = Some a ->
  exists r,
    Player.getPlayerRank store (Player.playerId a) region gameMode = Some r
    /\ 1 <= r <= Z.of_nat i + 1
    /\ ((forall b, In b (firstn i (board store region gameMode false)) ->
                   Player.currentScore b <> Player.currentScore a) ->
        r = Z.of_nat i + 1).
Proof.
  intros Hnd Hi.
  rewrite (rank_on_board store region gameMode a Hnd (nth_error_In _ _ Hi)).
  eexists. split; [reflexivity|].
  pose proof (getLeaderboard_sorted store
                (Player.mkOptions 0 0 region gameMode false)) as Hs.
  fold (board store region gameMode false) in Hs.
  destruct (nth_error_split _ _ Hi) as (l1 & l2 & HL & Hlen).
  rewrite HL in Hs |- *. destruct (sorted_split l1 l2 a Hs) as [Hafter Hbefore].
  assert (Htail : List.filter
                    (fun q => Player.currentScore a <? Player.currentScore q)
                    (a :: l2) = []).
  { simpl. rewrite Z.ltb_irrefl. apply filter_none.
    intros z Hz. destruct (Hafter z Hz) as [Hle _]. lia. }
  rewrite List.filter_app, Htail, app_nil_r.
  assert (Hfirst : firstn i (l1 ++ a :: l2) = l1).
  { rewrite <- Hlen. rewrite firstn_app, Nat.sub_diag. simpl.
    rewrite app_nil_r. apply firstn_all. }
  rewrite Hfirst.
  pose proof (List.filter_length_le
                (fun q => Player.currentScore a <? Player.currentScore q) l1).
  split; [lia|].
  intros Hne.
  rewrite filter_every; [lia|].
  intros z Hz.
  destruct (Hbefore z Hz) as [Hle _]. specialize (Hne z Hz). lia.
Qed.

(** X5. With unique player ids, the rank [getPlayerRank] reports for a
    player is never worse than the place the player takes on the whole
    leaderboard under the same region and game-mode filter, and it is
    that very place when none of the players listed above has the same
    score.  (Tied players share a rank but take consecutive places.) *)
Theorem X5_rank_at_most_place_on_board
        (store : list Player.doc) (region gameMode : option string)
        (i : nat) (a : Player.doc) :
  List.NoDup (List.map Player.playerId store) ->
  nth_error (board store region gameMode false) i = Some a ->
  exists r,
    Player.getPlayerRank store (Player.playerId a) region gameMode = Some r
    /\ 1 <= r <= Z.of_nat i + 1
    /\ ((forall b, In b (firstn i (board store region gameMode false)) ->
                   Player.currentScore b <> Player.currentScore a) ->
        r = Z.of_nat i + 1).
Proof. apply rank_le_place. Qed.

Lemma X5_witness :
  let a := Player.mkDoc "a" "ann" "NA" 1000 1 0 0 "classic" true 10 0 0 0 in
  let b := Player.mkDoc "b" "bob" "NA" 1000 1 0 0 "classic" true 20 0 0 0 in
  nth_error (board [a; b] None None false) 1 = Some a
  /\ exists r, Player.getPlayerRank [a; b] "a" None None = Some r
               /\ 1 <= r <= 2.
Proof.
  intros a b. split; [reflexivity|].
  assert (Hnd : List.NoDup (List.map Player.playerId [a; b])).
  { simpl. repeat (constructor; [simpl; intuition discriminate|]).
    constructor. }
  destruct (X5_rank_at_most_place_on_board [a; b] None None 1 a Hnd eq_refl)
    as (r & Hr & Hb & _).
  exists r. split; [exact Hr | exact Hb].
Defined.

Lemma filter_replaceFirst (f : Player.doc -> bool) (pid : string)
      (d' : Player.doc) (store : list Player.doc) :
  List.NoDup (List.map Player.playerId store) ->
  f d' = false ->
  List.filter f (Player.replaceFirst pid (fun _ => d') store)
  = List.filter (fun q => negb (Player.hasId pid q) && f q) store.
Proof.
  intros Hnd Hf.
  induction store as [|y store IH]; simpl; [reflexivity|].
  simpl in Hnd. apply NoDup_cons_iff in Hnd. destruct Hnd as [Hy Hnd].
  destruct (Player.hasId pid y) eqn:E; simpl.
  - rewrite Hf. apply filter_ext_in. intros q Hq.
    assert (Hq' : Player.hasId pid q = false).
    { unfold Player.hasId in *. apply String.eqb_neq. intros Eq.
      apply String.eqb_eq in E. apply Hy. rewrite E, <- Eq.
      apply in_map, Hq. }
    rewrite Hq'. reflexivity.
  - rewrite (IH Hnd). reflexivity.
Qed.

Lemma replaceFirst_length (pid : string) (f : Player.doc -> Player.doc)
      (store : list Player.doc) :
  length (Player.replaceFirst pid f store) = length store.
Proof.
  induction store as [|y store IH]; simpl; [reflexivity|].
  destruct (Player.hasId pid y); simpl; [reflexivity | rewrite IH; reflexivity].
Qed.

(** X6. A score update is seen by the next rank query.  With unique
    player ids, after [updatePlayerScore(pid, s)] the rank of [pid]
    under a region filter is one plus the number of the other players
    the filter admits whose score is strictly greater than [s]; the
    collection keeps its size and every other player's document.  For
    an unknown id nothing is written and [null] is returned. *)
Theorem X6_rank_after_score_update
        (store : list Player.doc) (pid : string) (s : Z)
        (gameMode region : option string) (now : Z) :
  List.NoDup (List.map Player.playerId store) ->
  let store' := fst (Player.updatePlayerScore store pid s gameMode now) in
  (Player.findOne store pid = None ->
   Player.updatePlayerScore store pid s gameMode now = (store, None))
  /\ (forall p, Player.findOne store pid = Some p ->
        Player.getPlayerRank store' pid region None
        = Some (Z.of_nat
                  (length (List.filter
                             (fun q => negb (Player.hasId pid q)
                                       && ((s <? Player.currentScore q)
                                           && Spec.regionAdmits region q))
                             store)) + 1))
  /\ length store' = length store
  /\ (forall pid', pid' <> pid ->
        Player.findOne store' pid' = Player.findOne store pid').
Proof.
  intros Hnd. simpl. split; [|split; [|split]].
  - intros H. unfold Player.updatePlayerScore. rewrite H. reflexivity.
  - intros p Hp. unfold Player.getPlayerRank, Player.countDocuments.
    rewrite updatePlayerScore_findOne, String.eqb_refl, Hp. simpl.
    do 3 f_equal.
    unfold Player.updatePlayerScore. rewrite Hp. simpl.
    set (p' := Player.applyScoreUpdate s gameMode now p).
    destruct (applyScoreUpdate_fields s gameMode now p) as (_ & Hs & _).
    fold p' in Hs.
    rewrite filter_replaceFirst.
    + f_equal. apply filter_ext_bool. intros q.
      rewrite matches_rankConditions, Hs. simpl.
      rewrite andb_true_r. reflexivity.
    + exact Hnd.
    + rewrite matches_rankConditions, Z.ltb_irrefl. reflexivity.
  - unfold Player.updatePlayerScore.
    destruct (Player.findOne store pid); simpl; [|reflexivity].
    apply replaceFirst_length.
  - intros pid' Hne. rewrite updatePlayerScore_findOne.
    apply not_eq_sym in Hne. apply String.eqb_neq in Hne. rewrite Hne.
    reflexivity.
Qed.

Lemma X6_witness :
  let a := Player.mkDoc "a" "ann" "NA" 900 1 0 0 "classic" true 10 0 0 0 in
  let b := Player.mkDoc "b" "bob" "NA" 1000 1 0 0 "classic" true 20 0 0 0 in
  let c := Player.mkDoc "c" "cy" "EU" 1500 1 0 0 "classic" true 30 0 0 0 in
  Player.getPlayerRank
    (fst (Player.updatePlayerScore [a; b; c] "a" 1200 None 50))
    "a" None None = Some 2.
Proof.
  intros a b c.
  assert (Hnd : List.NoDup (List.map Player.playerId [a; b; c])).
  { simpl. repeat (constructor; [simpl; intuition discriminate|]).
    constructor. }
  destruct (X6_rank_after_score_update [a; b; c] "a" 1200 None None 50 Hnd)
    as (_ & H & _).
  rewrite (H a eq_refl). reflexivity.
Defined.

(** ** Leaderboard routes: pagination and the window around a player *)

Lemma withRanks_players (base : Z) (l : list Player.doc) :
  List.map LeaderboardRoutes.player (LeaderboardRoutes.withRanks base l) = l.
Proof.
  revert base. induction l as [|p l IH]; intros base; simpl;
    [reflexivity | rewrite IH; reflexivity].
Qed.


Lemma withRanks_length (base : Z) (l : list Player.doc) :
  length (LeaderboardRoutes.withRanks base l) = length l.
Proof.
  rewrite <- (length_map LeaderboardRoutes.player), withRanks_players.
  reflexivity.
Qed.

Lemma withRanks_ranks (l : list Player.doc) :
  forall b : nat,
    List.map LeaderboardRoutes.rank
             (LeaderboardRoutes.withRanks (Z.of_nat b) l)
    = List.map (fun k => Z.of_nat (b + k)) (seq 1 (length l)).
Proof.
  induction l as [|p l IH]; intros b; simpl; [reflexivity|].
  f_equal; [lia|].
  replace (Z.of_nat b + 1) with (Z.of_nat (S b)) by lia.
  rewrite IH, <- (seq_shift (length l) 1), map_map.
  apply map_ext. intros k. f_equal. lia.
Qed.

Lemma ceil_div_gt (t b p : Z) :
  0 < b -> (p < JS.ceil_div t b <-> p * b < t).
Proof.
  intros Hb. unfold JS.ceil_div.
  pose proof (Z.div_mod (- t) b ltac:(lia)) as Hd.
  pose proof (Z.mod_pos_bound (- t) b Hb) as Hm.
  split; intros H; nia.
Qed.

Lemma board_length (store : list Player.doc) (region gameMode : option string)
      (online : bool) :
  Z.of_nat (length (board store region gameMode online))
  = Player.countDocuments store
      (Player.leaderboardConditions
         (Player.mkOptions 0 0 region gameMode online)).
Proof.
  unfold Player.countDocuments. f_equal.
  apply Permutation_length.
  apply (sortLeaderboard_perm
           (List.filter
              (Player.matches
                 (Player.leaderboardConditions
                    (Player.mkOptions 0 0 region gameMode online)))
              store)).
Qed.

(** X7. The leaderboard route's page and its pagination block agree.
    For [limit >= 1] and [page >= 1]: the entries are the players of
    that page of [getLeaderboard], numbered consecutively from
    [(page - 1) * limit + 1]; their number is [limit], or what is left
    of the filtered population after the earlier pages; [totalPlayers]
    is that population; and [hasNextPage] is true exactly when the next
    page is not empty, [hasPreviousPage] exactly when [page > 1]. *)
Theorem X7_leaderboard_pagination_consistent
        (store : list Player.doc) (limit page : nat)
        (region gameMode : option string) (online : bool) :
  (1 <= limit)%nat -> (1 <= page)%nat ->
  let r := LeaderboardRoutes.leaderboard store limit page region gameMode
                                         online in
  let skip := ((page - 1) * limit)%nat in
  let whole := board store region gameMode online in
  List.map LeaderboardRoutes.player (fst r)
  = Player.getLeaderboard store
      (Player.mkOptions limit skip region gameMode online)
  /\ List.map LeaderboardRoutes.rank (fst r)
     = List.map (fun k => Z.of_nat (skip + k)) (seq 1 (length (fst r)))
  /\ length (fst r) = Nat.min limit (length whole - skip)
  /\ LeaderboardRoutes.totalPlayers (snd r) = Z.of_nat (length whole)
  /\ (LeaderboardRoutes.hasNextPage (snd r) = true
      <-> fst (LeaderboardRoutes.leaderboard store limit (page + 1) region
                                             gameMode online) <> [])
  /\ (LeaderboardRoutes.hasPreviousPage (snd r) = true <-> (1 < page)%nat).
Proof.
  intros Hl Hp. simpl.
  assert (Hpage : forall s,
             Player.getLeaderboard store
               (Player.mkOptions limit s region gameMode online)
             = firstn limit (skipn s (board store region gameMode online))).
  { intros s. unfold board, Player.getLeaderboard. simpl.
    destruct limit; [lia | reflexivity]. }
  assert (Hlen : forall s,
             length (LeaderboardRoutes.withRanks (Z.of_nat s)
                       (Player.getLeaderboard store
                          (Player.mkOptions limit s region gameMode online)))
             = Nat.min limit (length (board store region gameMode online) - s)).
  { intros s. rewrite <- (length_map LeaderboardRoutes.player).
    rewrite withRanks_players, Hpage, length_firstn, length_skipn.
    reflexivity. }
  split; [apply withRanks_players|].
  split.
  { rewrite withRanks_ranks, withRanks_length. reflexivity. }
  split; [apply Hlen|].
  split; [symmetry; apply board_length|].
  split.
  - rewrite Z.ltb_lt, ceil_div_gt by lia.
    assert (Ht : Player.countDocuments store
                   (Player.leaderboardConditions
                      (Player.mkOptions limit ((page - 1) * limit) region
                                        gameMode online))
                 = Z.of_nat (length (board store region gameMode online)))
      by (symmetry; apply board_length).
    rewrite Ht.
    replace (page + 1 - 1)%nat with page by lia.
    set (n := length (board store region gameMode online)).
    split.
    + intros H E. apply (f_equal (@length _)) in E.
      rewrite Hlen in E. fold n in E. simpl in E. nia.
    + intros H.
      destruct (Nat.min limit (n - page * limit)) eqn:E.
      * exfalso. apply H. apply length_zero_iff_nil.
        rewrite Hlen. exact E.
      * nia.
  - rewrite Z.ltb_lt. lia.
Qed.

Lemma X7_witness :
  let a := Player.mkDoc "a" "ann" "NA" 900 1 0 0 "classic" true 10 0 0 0 in
  let b := Player.mkDoc "b" "bob" "NA" 1000 1 0 0 "classic" true 20 0 0 0 in
  let c := Player.mkDoc "c" "cy" "EU" 800 1 0 0 "classic" true 30 0 0 0 in
  LeaderboardRoutes.hasNextPage
    (snd (LeaderboardRoutes.leaderboard [a; b; c] 2 1 None None false)) = true
  /\ List.map LeaderboardRoutes.rank
       (fst (LeaderboardRoutes.leaderboard [a; b; c] 2 2 None None false))
     = [3].
Proof.
  intros a b c.
  destruct (X7_leaderboard_pagination_consistent [a; b; c] 2 1 None None false)
    as (_ & _ & _ & _ & H1 & _); [lia | lia |].
  destruct (X7_leaderboard_pagination_consistent [a; b; c] 2 2 None None false)
    as (_ & H2 & _); [lia | lia |].
  split; [apply H1; discriminate | exact H2].
Defined.



(** ** GameSession: the life of a session *)

Lemma preSave_session_keeps (now : Z) (s : GameSession.doc) :
  GameSession.sessionStatus s <> GameSession.completed ->
  GameSession.preSave now s = s.
Proof.
  intros H. unfold GameSession.preSave.
  destruct (GameSession.startedAt s); [|reflexivity].
  destruct (GameSession.sessionStatus s); try reflexivity.
  contradiction.
Qed.

Lemma find_none_existsb {A : Type} (f : A -> bool) (l : list A) :
  existsb f l = false -> List.find f l = None.
Proof.
  induction l as [|y l IH]; simpl; [reflexivity|].
  destruct (f y); simpl; [discriminate | exact IH].
Qed.

Lemma join_new_player
        (store : gmap string GameSession.doc) (sid : string)
        (s : GameSession.doc) (pd : GameSession.playerData) (now : Z) :
  store !! sid = Some s ->
  GameSession.sessionId s = sid ->
  joinable s ->
  Z.of_nat (length (GameSession.players s)) < GameSession.maxPlayers s ->
  existsb (GameSession.hasId (GameSession.pd_playerId pd))
          (GameSession.players s) = false ->
  let starts :=
    (2 <=? Z.of_nat (length (GameSession.players s)) + 1)
    && GameSession.status_eqb (GameSession.sessionStatus s)
                              GameSession.waiting in
  let joinEvent :=
    GameSession.mkEvent now (Some (GameSession.pd_playerId pd))
      GameSession.player_joined
      (GameSession.joinedData (GameSession.pd_username pd)) in
  exists s',
    GameSession.joinSession store sid pd now
    = GameSession.Ok (<[sid := s']> store, s')
    /\ GameSession.players s'
       = GameSession.players s
         ++ [GameSession.mkParticipant (GameSession.pd_playerId pd)
               (GameSession.pd_username pd) (GameSession.pd_currentScore pd)
               0 None true]
    /\ GameSession.sessionStatus s'
       = (if starts then GameSession.active else GameSession.sessionStatus s)
    /\ GameSession.startedAt s'
       = (if starts then Some now else GameSession.startedAt s)
    /\ GameSession.realTimeEvents s'
       = GameSession.realTimeEvents s ++ [joinEvent]
         ++ (if starts
             then [GameSession.mkEvent now None GameSession.game_start
                     (GameSession.gameStartData
                        (Z.of_nat (length (GameSession.players s)) + 1))]
             else [])
    /\ Z.of_nat (length (GameSession.players s')) <= GameSession.maxPlayers s'
    /\ GameSession.maxPlayers s' = GameSession.maxPlayers s.
Proof.
  intros Hs Hid Hj Hcap Hnew. simpl.
  unfold GameSession.joinSession.
  rewrite Hs, (joinable_status s Hj).
  assert (E : (GameSession.maxPlayers s
               <=? Z.of_nat (length (GameSession.players s))) = false) by lia.
  rewrite E, (find_none_existsb _ _ Hnew). simpl.
  rewrite length_app. simpl.
  replace (Z.of_nat (length (GameSession.players s) + 1))
    with (Z.of_nat (length (GameSession.players s)) + 1) by lia.
  unfold GameSession.save.
  destruct ((2 <=? Z.of_nat (length (GameSession.players s)) + 1)
            && GameSession.status_eqb (GameSession.sessionStatus s)
                                      GameSession.waiting) eqn:Est.
  - rewrite preSave_session_keeps by (simpl; discriminate).
    simpl. rewrite Hid. eexists. split; [reflexivity|]. simpl.
    rewrite <- app_assoc. rewrite length_app. simpl.
    repeat split; try reflexivity. lia.
  - rewrite preSave_session_keeps
      by (simpl; destruct Hj as [-> | ->]; discriminate).
    simpl. rewrite Hid. eexists. split; [reflexivity|]. simpl.
    rewrite length_app. simpl.
    repeat split; try reflexivity. lia.
Qed.

(** X9. Joining as a new player.  For a session in status waiting or
    active, below capacity, and a player id not yet among its
    participants, [joinSession] succeeds and stores the session it
    returns: the participant is appended, active, with session score 0
    and the player's current score as initial score; earlier
    participants are untouched; a join event is logged.  The session
    starts (status active, [startedAt] now, a game-start event carrying
    the head count) exactly when it was waiting and this join brings
    the count to two or more; otherwise status, start time and the rest
    of the log are as before. *)
Theorem X9_joinSession_adds_and_activates
        (store : gmap string GameSession.doc) (sid : string)
        (s : GameSession.doc) (pd : GameSession.playerData) (now : Z) :
  store !! sid = Some s ->
  GameSession.sessionId s = sid ->
  joinable s ->
  Z.of_nat (length (GameSession.players s)) < GameSession.maxPlayers s ->
  existsb (GameSession.hasId (GameSession.pd_playerId pd))
          (GameSession.players s) = false ->
  let starts :=
    (2 <=? Z.of_nat (length (GameSession.players s)) + 1)
    && GameSession.status_eqb (GameSession.sessionStatus s)
                              GameSession.waiting in
  let joinEvent :=
    GameSession.mkEvent now (Some (GameSession.pd_playerId pd))
      GameSession.player_joined
      (GameSession.joinedData (GameSession.pd_username pd)) in
  exists s',
    GameSession.joinSession store sid pd now
    = GameSession.Ok (<[sid := s']> store, s')
    /\ GameSession.players s'
       = GameSession.players s
         ++ [GameSession.mkParticipant (GameSession.pd_playerId pd)
               (GameSession.pd_username pd) (GameSession.pd_currentScore pd)
               0 None true]
    /\ GameSession.sessionStatus s'
       = (if starts then GameSession.active else GameSession.sessionStatus s)
    /\ GameSession.startedAt s'
       = (if starts then Some now else GameSession.startedAt s)
    /\ GameSession.realTimeEvents s'
       = GameSession.realTimeEvents s ++ [joinEvent]
         ++ (if starts
             then [GameSession.mkEvent now None GameSession.game_start
                     (GameSession.gameStartData
                        (Z.of_nat (length (GameSession.players s)) + 1))]
             else [])
    /\ Z.of_nat (length (GameSession.players s')) <= GameSession.maxPlayers s'
    /\ GameSession.maxPlayers s' = GameSession.maxPlayers s.
Proof. apply join_new_player. Qed.

Lemma X9_witness :
  let ann := GameSession.mkParticipant "a" "ann" 0 0 None true in
  let s := GameSession.mkDoc "g1" [ann] "classic" "NA"
             GameSession.waiting 4 None None None [] in
  exists s',
    GameSession.joinSession {[ "g1" := s ]} "g1"
      (GameSession.mkPlayerData "b" "bob" 700) 5
    = GameSession.Ok (<[ "g1" := s' ]> {[ "g1" := s ]}, s')
    /\ GameSession.sessionStatus s' = GameSession.active
    /\ GameSession.startedAt s' = Some 5.
Proof.
  intros ann s.
  destruct (X9_joinSession_adds_and_activates
              {[ "g1" := s ]} "g1" s (GameSession.mkPlayerData "b" "bob" 700) 5)
    as (s' & H1 & _ & H2 & H3 & _).
  - reflexivity.
  - reflexivity.
  - left. reflexivity.
  - simpl. lia.
  - reflexivity.
  - exists s'. split; [exact H1|]. split; [exact H2 | exact H3].
Defined.

Lemma not_In_ids (pid : string) (l : list GameSession.participant) :
  existsb (GameSession.hasId pid) l = false ->
  ~ In pid (List.map GameSession.playerId l).
Proof.
  induction l as [|y l IH]; simpl; intros H; [tauto|].
  apply orb_false_iff in H. destruct H as [Hy Hl].
  intros [E | Hin]; [|apply (IH Hl Hin)].
  unfold GameSession.hasId in Hy. apply String.eqb_neq in Hy. congruence.
Qed.

(** X10. What every successful join preserves.  Whichever way
    [joinSession] succeeds, the session it returns is the one stored
    under its id; participant ids stay pairwise distinct; the head
    count stays within [maxPlayers]; and the status is waiting or
    active, never back at waiting once the session was active. *)
Theorem X10_joinSession_keeps_session_invariants
        (store store' : gmap string GameSession.doc) (sid : string)
        (s s' : GameSession.doc) (pd : GameSession.playerData) (now : Z) :
  store !! sid = Some s ->
  GameSession.sessionId s = sid ->
  GameSession.joinSession store sid pd now = GameSession.Ok (store', s') ->
  store' !! sid = Some s'
  /\ (List.NoDup (List.map GameSession.playerId (GameSession.players s)) ->
      List.NoDup (List.map GameSession.playerId (GameSession.players s')))
  /\ Z.of_nat (length (GameSession.players s')) <= GameSession.maxPlayers s'
  /\ joinable s'
  /\ (GameSession.sessionStatus s = GameSession.active ->
      GameSession.sessionStatus s' = GameSession.active).
Proof.
  intros Hs Hid Hjoin. pose proof Hjoin as Hjoin0.
  unfold GameSession.joinSession in Hjoin. rewrite Hs in Hjoin.
  destruct (negb _) eqn:Ej in Hjoin; [discriminate|].
  assert (Hj : joinable s).
  { apply negb_false_iff, orb_true_iff in Ej. unfold joinable.
    destruct (GameSession.sessionStatus s); simpl in Ej; intuition discriminate. }
  destruct (GameSession.maxPlayers s <=? _) eqn:Ecap in Hjoin; [discriminate|].
  apply Z.leb_gt in Ecap.
  destruct (existsb (GameSession.hasId (GameSession.pd_playerId pd))
                    (GameSession.players s)) eqn:Ex.
  - destruct (find_existsb _ _ Ex) as [x Hx]. rewrite Hx in Hjoin.
    injection Hjoin as <- <-.
    split; [exact Hs|]. split; [auto|]. split; [lia|]. split; [exact Hj|].
    auto.
  - destruct (join_new_player store sid s pd now Hs Hid Hj Ecap Ex)
      as (s1 & H1 & Hp & Hst & _ & _ & Hlen & _).
    rewrite H1 in Hjoin0. injection Hjoin0 as <- <-.
    split; [apply lookup_insert_eq|].
    split.
    { intros Hnd. rewrite Hp, map_app. simpl.
      apply (Permutation_NoDup (Permutation_cons_append _ _)).
      constructor; [apply (not_In_ids _ _ Ex) | exact Hnd]. }
    split; [exact Hlen|].
    split.
    { unfold joinable. rewrite Hst.
      match goal with
      | |- context [if ?c then _ else _] => destruct c
      end; [right; reflexivity | exact Hj]. }
    intros Ha. rewrite Hst, Ha.
    match goal with
    | |- context [if ?c then _ else _] => destruct c
    end; reflexivity.
Qed.

Lemma X10_witness :
  let ann := GameSession.mkParticipant "a" "ann" 0 0 None true in
  let s := GameSession.mkDoc "g1" [ann] "classic" "NA"
             GameSession.waiting 2 None None None [] in
  exists store' s',
    GameSession.joinSession {[ "g1" := s ]} "g1"
      (GameSession.mkPlayerData "b" "bob" 700) 5
    = GameSession.Ok (store', s')
    /\ List.NoDup (List.map GameSession.playerId (GameSession.players s'))
    /\ Z.of_nat (length (GameSession.players s')) <= GameSession.maxPlayers s'.
Proof.
  intros ann s.
  assert (Hl : ({[ "g1" := s ]} : gmap string GameSession.doc) !! "g1"
               = Some s) by reflexivity.
  destruct (GameSession.joinSession {[ "g1" := s ]} "g1"
              (GameSession.mkPlayerData "b" "bob" 700) 5)
    as [[store' s']|e] eqn:E; [|vm_compute in E; discriminate E].
  destruct (X10_joinSession_keeps_session_invariants
              {[ "g1" := s ]} store' "g1" s s'
              (GameSession.mkPlayerData "b" "bob" 700) 5 Hl eq_refl E)
    as (_ & H1 & H2 & _).
  exists store', s'. split; [reflexivity|]. split; [|exact H2].
  apply H1. simpl. constructor; [simpl; tauto | constructor].
Defined.

(** X11. Scoring inside a session.  [updatePlayerScore] needs an active
    session that lists the player; anything else is refused with
    'Active session not found for player' and nothing is written, and
    the later 'Player not found in session' can never be raised.  On
    success, with distinct participant ids, the named participant's
    in-session score is replaced by the given score (not added to), all
    other participants and the status are untouched, and one
    score-update event is logged. *)
Theorem X11_session_score_is_last_write_wins
        (store : gmap string GameSession.doc) (sid pid : string)
        (score delta : Z) (reason : string) (now : Z) :
  GameSession.updatePlayerScore store sid pid score delta reason now
  <> GameSession.Throw GameSession.PlayerNotInSession
  /\ (forall s,
         store !! sid = Some s ->
         GameSession.sessionStatus s = GameSession.active ->
         existsb (GameSession.hasId pid) (GameSession.players s) = true ->
         List.NoDup (List.map GameSession.playerId (GameSession.players s)) ->
         exists s',
           GameSession.updatePlayerScore store sid pid score delta reason now
           = GameSession.Ok (<[GameSession.sessionId s := s']> store, s')
           /\ GameSession.players s'
              = List.map
                  (fun q => if GameSession.hasId pid q
                            then GameSession.set_currentSessionScore score q
                            else q)
                  (GameSession.players s)
           /\ GameSession.sessionStatus s' = GameSession.active
           /\ GameSession.realTimeEvents s'
              = GameSession.realTimeEvents s
                ++ [GameSession.mkEvent now (Some pid) GameSession.score_update
                      (GameSession.scoreData score delta reason)])
  /\ ((forall s, store !! sid = Some s ->
                 GameSession.sessionStatus s <> GameSession.active
                 \/ existsb (GameSession.hasId pid) (GameSession.players s)
                    = false) ->
      GameSession.updatePlayerScore store sid pid score delta reason now
      = GameSession.Throw GameSession.ActiveSessionNotFoundForPlayer).
Proof.
  split; [|split].
  - unfold GameSession.updatePlayerScore.
    destruct (store !! sid) as [s|]; [|discriminate].
    destruct (GameSession.status_eqb _ _ && existsb _ _) eqn:E; simpl;
      [|discriminate].
    apply andb_true_iff in E. destruct E as [_ E].
    apply existsb_exists in E. destruct E as (x & Hx & Hf).
    destruct (findIndex_found _ _ x Hx Hf) as [i ->]. discriminate.
  - intros s Hs Ha Hex Hnd.
    unfold GameSession.updatePlayerScore. rewrite Hs, Ha, Hex. simpl.
    apply existsb_exists in Hex. destruct Hex as (x & Hx & Hf).
    destruct (findIndex_found _ _ x Hx Hf) as [i Hi]. rewrite Hi.
    rewrite (alter_findIndex _ _ _ _ Hnd Hi).
    unfold GameSession.save.
    rewrite preSave_session_keeps by (simpl; rewrite Ha; discriminate).
    simpl. eexists. split; [reflexivity|]. simpl. auto.
  - intros H. unfold GameSession.updatePlayerScore.
    destruct (store !! sid) as [s|] eqn:Hs; [|reflexivity].
    destruct (H s eq_refl) as [Hna | Hex].
    + destruct (GameSession.sessionStatus s); simpl; try reflexivity.
      contradiction.
    + rewrite Hex, andb_false_r. reflexivity.
Qed.

Lemma X11_witness :
  let ann := GameSession.mkParticipant "a" "ann" 0 40 None true in
  let bob := GameSession.mkParticipant "b" "bob" 0 20 None true in
  let s := GameSession.mkDoc "g1" [ann; bob] "classic" "NA"
             GameSession.active 4 (Some 0) None None [] in
  exists s',
    GameSession.updatePlayerScore {[ "g1" := s ]} "g1" "a" 15 (-25) "hit" 9
    = GameSession.Ok (<[ "g1" := s' ]> {[ "g1" := s ]}, s')
    /\ List.map GameSession.currentSessionScore (GameSession.players s')
       = [15; 20].
Proof.
  intros ann bob s.
  destruct (X11_session_score_is_last_write_wins
              {[ "g1" := s ]} "g1" "a" 15 (-25) "hit" 9) as (_ & H & _).
  assert (Hl : ({[ "g1" := s ]} : gmap string GameSession.doc) !! "g1"
               = Some s) by reflexivity.
  destruct (H s Hl eq_refl eq_refl) as (s' & H1 & H2 & _).
  - simpl. repeat (constructor; [simpl; intuition discriminate|]).
    constructor.
  - exists s'. split; [exact H1|]. rewrite H2. reflexivity.
Defined.

Lemma endSession_shape
      (store : gmap string GameSession.doc) (sid : string)
      (s : GameSession.doc) (now : Z) :
  store !! sid = Some s ->
  GameSession.sessionStatus s = GameSession.active ->
  List.NoDup (List.map GameSession.playerId (GameSession.players s)) ->
  let ps' := List.map (placed (GameSession.sortPlayers (GameSession.players s)) 0)
                      (GameSession.players s) in
  let s' :=
    GameSession.preSave now
      (GameSession.pushEvent now None GameSession.game_end
         (GameSession.gameEndData (List.map GameSession.toFinalScore ps'))
         (GameSession.set_players ps'
            (GameSession.set_endedAt (Some now)
               (GameSession.set_status GameSession.completed s)))) in
  GameSession.endSession store sid now
  = GameSession.Ok (<[GameSession.sessionId s' := s']> store, s').
Proof.
  intros Hs Ha Hnd. simpl.
  unfold GameSession.endSession. rewrite Hs, Ha. simpl.
  rewrite assignPositions_placed.
  - reflexivity.
  - exact Hnd.
  - eapply Permutation_NoDup; [|exact Hnd].
    apply Permutation_map, Permutation_sym, sortPlayers_perm.
  - intros x Hx. apply in_map.
    apply (Permutation_in _ (sortPlayers_perm _) Hx).
Qed.

(** X12. Ending stamps the session and closes it.  Ending an active
    session (distinct participant ids, stored under its id) that has a
    start time and no duration yet sets [endedAt] to now and [duration]
    to the rounded number of seconds since the start, and logs one
    game-end event whose scoreboard lists every participant, in list
    order, with the score and the position just assigned.  The stored
    session is then refused by a second end, by join and by a score
    update. *)
Theorem X12_endSession_stamps_and_closes
        (store : gmap string GameSession.doc) (sid : string)
        (s : GameSession.doc) (t0 now : Z) :
  store !! sid = Some s ->
  GameSession.sessionId s = sid ->
  GameSession.sessionStatus s = GameSession.active ->
  List.NoDup (List.map GameSession.playerId (GameSession.players s)) ->
  GameSession.startedAt s = Some t0 ->
  GameSession.duration s = None ->
  exists store' s',
    GameSession.endSession store sid now = GameSession.Ok (store', s')
    /\ store' !! sid = Some s'
    /\ GameSession.endedAt s' = Some now
    /\ GameSession.duration s' = Some (JS.round_div (now - t0) 1000)
    /\ GameSession.realTimeEvents s'
       = GameSession.realTimeEvents s
         ++ [GameSession.mkEvent now None GameSession.game_end
               (GameSession.gameEndData
                  (List.map GameSession.toFinalScore (GameSession.players s')))]
    /\ (forall now', GameSession.endSession store' sid now'
                     = GameSession.Throw GameSession.ActiveSessionNotFound)
    /\ (forall pd now', GameSession.joinSession store' sid pd now'
                        = GameSession.Throw GameSession.SessionNotJoinable)
    /\ (forall pid score delta reason now',
           GameSession.updatePlayerScore store' sid pid score delta reason now'
           = GameSession.Throw GameSession.ActiveSessionNotFoundForPlayer).
Proof.
  intros Hs Hid Ha Hnd Ht0 Hd.
  pose proof (endSession_shape store sid s now Hs Ha Hnd) as H.
  simpl in H.
  set (ps' := List.map (placed (GameSession.sortPlayers (GameSession.players s)) 0)
                       (GameSession.players s)) in *.
  set (s1 := GameSession.pushEvent now None GameSession.game_end _ _) in *.
  assert (Hpre : GameSession.preSave now s1
                 = GameSession.set_endedAt (Some now)
                     (GameSession.set_duration
                        (Some (JS.round_div (now - t0) 1000)) s1)).
  { unfold GameSession.preSave. unfold s1 at 1 2 3. simpl.
    rewrite Ht0, Hd. reflexivity. }
  rewrite Hpre in H. simpl in H. rewrite Hid in H.
  eexists. eexists. split; [exact H|].
  split; [apply lookup_insert_eq|].
  split; [reflexivity|]. split; [reflexivity|]. split; [reflexivity|].
  assert (Hc : GameSession.sessionStatus
                 (GameSession.set_endedAt (Some now)
                    (GameSession.set_duration
                       (Some (JS.round_div (now - t0) 1000)) s1))
               = GameSession.completed) by reflexivity.
  pose proof (fun now' =>
                completed_refused_by_gated_operations
                  (<[sid := _]> store) sid _ now'
                  (lookup_insert_eq _ _ _) Hc) as Hclosed.
  split; [intros now'; apply (Hclosed now')|].
  split; [intros pd now'; apply (Hclosed now')|].
  intros pid score delta reason now'. apply (Hclosed now').
Qed.

Lemma X12_witness :
  let ann := GameSession.mkParticipant "a" "ann" 0 10 None true in
  let bob := GameSession.mkParticipant "b" "bob" 0 20 None true in
  let s := GameSession.mkDoc "g1" [ann; bob] "classic" "NA"
             GameSession.active 4 (Some 1000) None None [] in
  exists store' s',
    GameSession.endSession {[ "g1" := s ]} "g1" 63500
    = GameSession.Ok (store', s')
    /\ GameSession.duration s' = Some 63
    /\ GameSession.endSession store' "g1" 70000
       = GameSession.Throw GameSession.ActiveSessionNotFound.
Proof.
  intros ann bob s.
  assert (Hl : ({[ "g1" := s ]} : gmap string GameSession.doc) !! "g1"
               = Some s) by reflexivity.
  assert (Hnd : List.NoDup (List.map GameSession.playerId
                                     (GameSession.players s))).
  { simpl. repeat (constructor; [simpl; intuition discriminate|]).
    constructor. }
  destruct (X12_endSession_stamps_and_closes
              {[ "g1" := s ]} "g1" s 1000 63500 Hl eq_refl eq_refl Hnd
              eq_refl eq_refl)
    as (store' & s' & H1 & _ & _ & H2 & _ & H3 & _).
  exists store', s'. split; [exact H1|]. split; [exact H2 | apply H3].
Defined.

Lemma existsb_findIndex (pid : string) (l : list GameSession.participant) :
  existsb (GameSession.hasId pid) l = false ->
  JS.findIndex (GameSession.hasId pid) l = None.
Proof.
  intros H. apply findIndex_None. intros x Hx.
  destruct (GameSession.hasId pid x) eqn:E; [|reflexivity].
  assert (existsb (GameSession.hasId pid) l = true)
    by (apply existsb_exists; eauto).
  congruence.
Qed.

Lemma removePlayer_shape
      (store : gmap string GameSession.doc) (s : GameSession.doc)
      (pid : string) (now : Z) :
  List.NoDup (List.map GameSession.playerId (GameSession.players s)) ->
  let r := GameSession.removePlayer store s pid now in
  let s' := snd r in
  fst r = <[GameSession.sessionId s := s']> store
  /\ GameSession.sessionId s' = GameSession.sessionId s
  /\ GameSession.maxPlayers s' = GameSession.maxPlayers s
  /\ List.map GameSession.playerId (GameSession.players s')
     = List.map GameSession.playerId (GameSession.players s)
  /\ (existsb (GameSession.hasId pid) (GameSession.players s) = true ->
      GameSession.players s'
      = List.map (fun q => if GameSession.hasId pid q
                           then GameSession.set_isActive false q else q)
                 (GameSession.players s)
      /\ GameSession.realTimeEvents s'
         = GameSession.realTimeEvents s
           ++ [GameSession.mkEvent now (Some pid) GameSession.player_left
                 (GameSession.leftData "disconnected")]
      /\ GameSession.sessionStatus s'
         = if forallb (fun q => GameSession.hasId pid q
                                || negb (GameSession.isActive q))
                      (GameSession.players s)
           then GameSession.abandoned
           else GameSession.sessionStatus s)
  /\ (existsb (GameSession.hasId pid) (GameSession.players s) = false ->
      GameSession.players s' = GameSession.players s
      /\ GameSession.realTimeEvents s' = GameSession.realTimeEvents s
      /\ GameSession.sessionStatus s' = GameSession.sessionStatus s).
Proof.
  intros Hnd. simpl. unfold GameSession.removePlayer.
  destruct (existsb (GameSession.hasId pid) (GameSession.players s)) eqn:Ex.
  - pose proof Ex as Ex'. apply existsb_exists in Ex'.
    destruct Ex' as (x & Hx & Hf).
    destruct (findIndex_found _ _ x Hx Hf) as [i Hi]. rewrite Hi.
    rewrite (alter_findIndex _ _ _ _ Hnd Hi).
    set (ps' := List.map _ (GameSession.players s)).
    assert (Hact : (length (List.filter GameSession.isActive ps') =? 0)%nat
                   = forallb (fun q => GameSession.hasId pid q
                                       || negb (GameSession.isActive q))
                             (GameSession.players s)).
    { unfold ps'. clear. induction (GameSession.players s) as [|q l IH];
        simpl; [reflexivity|].
      destruct (GameSession.hasId pid q); simpl.
      - exact IH.
      - destruct (GameSession.isActive q); simpl; [reflexivity | exact IH]. }
    simpl. rewrite Hact. unfold GameSession.save.
    match goal with
    | |- context [GameSession.preSave now ?x] =>
        destruct (preSave_session_fields now x) as (Hp & Hst & Hsid & Hev);
        assert (Hmax : GameSession.maxPlayers (GameSession.preSave now x)
                       = GameSession.maxPlayers x)
          by (unfold GameSession.preSave;
              destruct (GameSession.startedAt x); [|reflexivity];
              destruct (_ && _); reflexivity)
    end.
    simpl. rewrite Hp, Hst, Hsid, Hev, Hmax.
    destruct (forallb _ _); simpl.
    + split; [reflexivity|]. split; [reflexivity|]. split; [reflexivity|].
      split.
      { unfold ps'. rewrite map_map. apply map_ext. intros q.
        destruct (GameSession.hasId pid q); reflexivity. }
      split; [auto | discriminate].
    + split; [reflexivity|]. split; [reflexivity|]. split; [reflexivity|].
      split.
      { unfold ps'. rewrite map_map. apply map_ext. intros q.
        destruct (GameSession.hasId pid q); reflexivity. }
      split; [auto | discriminate].
  - rewrite (existsb_findIndex _ _ Ex). unfold GameSession.save. simpl.
    destruct (preSave_session_fields now s) as (Hp & Hst & Hsid & Hev).
    assert (Hmax : GameSession.maxPlayers (GameSession.preSave now s)
                   = GameSession.maxPlayers s)
      by (unfold GameSession.preSave;
          destruct (GameSession.startedAt s); [|reflexivity];
          destruct (_ && _); reflexivity).
    rewrite Hp, Hst, Hsid, Hev, Hmax.
    repeat split; try reflexivity; discriminate.
Qed.

(** X13. Leaving is a soft removal.  [removePlayer] never deletes a
    participant: the ids in the list are the same afterwards.  With
    distinct ids and the player on the list, exactly that participant
    is marked inactive, a leave event is logged, and the status becomes
    abandoned precisely when no other participant was still active;
    for a player who is not on the list, participants, log and status
    are as they were.  The result is stored under the session's id. *)
Theorem X13_removePlayer_is_soft
        (store : gmap string GameSession.doc) (s : GameSession.doc)
        (pid : string) (now : Z) :
  List.NoDup (List.map GameSession.playerId (GameSession.players s)) ->
  let r := GameSession.removePlayer store s pid now in
  let s' := snd r in
  fst r = <[GameSession.sessionId s := s']> store
  /\ GameSession.sessionId s' = GameSession.sessionId s
  /\ GameSession.maxPlayers s' = GameSession.maxPlayers s
  /\ List.map GameSession.playerId (GameSession.players s')
     = List.map GameSession.playerId (GameSession.players s)
  /\ (existsb (GameSession.hasId pid) (GameSession.players s) = true ->
      GameSession.players s'
      = List.map (fun q => if GameSession.hasId pid q
                           then GameSession.set_isActive false q else q)
                 (GameSession.players s)
      /\ GameSession.realTimeEvents s'
         = GameSession.realTimeEvents s
           ++ [GameSession.mkEvent now (Some pid) GameSession.player_left
                 (GameSession.leftData "disconnected")]
      /\ GameSession.sessionStatus s'
         = if forallb (fun q => GameSession.hasId pid q
                                || negb (GameSession.isActive q))
                      (GameSession.players s)
           then GameSession.abandoned
           else GameSession.sessionStatus s)
  /\ (existsb (GameSession.hasId pid) (GameSession.players s) = false ->
      GameSession.players s' = GameSession.players s
      /\ GameSession.realTimeEvents s' = GameSession.realTimeEvents s
      /\ GameSession.sessionStatus s' = GameSession.sessionStatus s).
Proof. apply removePlayer_shape. Qed.

Lemma X13_witness :
  let ann := GameSession.mkParticipant "a" "ann" 0 10 None true in
  let bob := GameSession.mkParticipant "b" "bob" 0 20 None true in
  let s := GameSession.mkDoc "g1" [ann; bob] "classic" "NA"
             GameSession.active 4 (Some 0) None None [] in
  List.map GameSession.isActive
           (GameSession.players
              (snd (GameSession.removePlayer {[ "g1" := s ]} s "a" 9)))
  = [false; true]
  /\ GameSession.sessionStatus
       (snd (GameSession.removePlayer {[ "g1" := s ]} s "a" 9))
     = GameSession.active.
Proof.
  intros ann bob s.
  assert (Hnd : List.NoDup (List.map GameSession.playerId
                                     (GameSession.players s))).
  { simpl. repeat (constructor; [simpl; intuition discriminate|]).
    constructor. }
  destruct (X13_removePlayer_is_soft {[ "g1" := s ]} s "a" 9 Hnd)
    as (_ & _ & _ & _ & H & _).
  destruct (H eq_refl) as (H1 & _ & H2).
  split; [rewrite H1; reflexivity | rewrite H2; reflexivity].
Defined.

Lemma existsb_same_ids (pid : string) (l l' : list GameSession.participant) :
  List.map GameSession.playerId l' = List.map GameSession.playerId l ->
  existsb (GameSession.hasId pid) l' = existsb (GameSession.hasId pid) l.
Proof.
  revert l'. induction l as [|x l IH]; intros [|x' l'] H; simpl in *;
    try discriminate; [reflexivity|].
  injection H as Hx Hl. unfold GameSession.hasId at 1 3.
  rewrite Hx, (IH l' Hl). reflexivity.
Qed.

(** X14. A player who left cannot get back in.  After [removePlayer]
    has marked a listed player inactive (distinct ids, session stored
    under its id), a new [joinSession] by the same player either
    returns the stored session as it is, because the id is still on
    the list, or is refused as not joinable or full; in no case does it
    write anything, so the participant stays inactive. *)
Theorem X14_left_player_stays_inactive
        (store : gmap string GameSession.doc) (sid : string)
        (s : GameSession.doc) (pd : GameSession.playerData) (now now' : Z) :
  GameSession.sessionId s = sid ->
  List.NoDup (List.map GameSession.playerId (GameSession.players s)) ->
  existsb (GameSession.hasId (GameSession.pd_playerId pd))
          (GameSession.players s) = true ->
  let r := GameSession.removePlayer store s (GameSession.pd_playerId pd) now in
  fst r !! sid = Some (snd r)
  /\ (forall q, In q (GameSession.players (snd r)) ->
                GameSession.playerId q = GameSession.pd_playerId pd ->
                GameSession.isActive q = false)
  /\ (GameSession.joinSession (fst r) sid pd now'
      = GameSession.Ok (fst r, snd r)
      \/ GameSession.joinSession (fst r) sid pd now'
         = GameSession.Throw GameSession.SessionNotJoinable
      \/ GameSession.joinSession (fst r) sid pd now'
         = GameSession.Throw GameSession.SessionFull).
Proof.
  intros Hid Hnd Hex. simpl.
  destruct (removePlayer_shape store s (GameSession.pd_playerId pd) now Hnd)
    as (Hst & _ & _ & Hids & Hin & _).
  destruct (Hin Hex) as (Hp & _ & _).
  set (r := GameSession.removePlayer store s (GameSession.pd_playerId pd) now)
    in *.
  assert (Hl : fst r !! sid = Some (snd r))
    by (rewrite Hst, Hid; apply lookup_insert_eq).
  split; [exact Hl|]. split.
  - intros q Hq Hqid. rewrite Hp in Hq. apply in_map_iff in Hq.
    destruct Hq as (q0 & Hq0 & _).
    destruct (GameSession.hasId (GameSession.pd_playerId pd) q0) eqn:E.
    + subst q. reflexivity.
    + subst q. apply String.eqb_neq in E. contradiction.
  - unfold GameSession.joinSession. rewrite Hl.
    destruct (negb _); [right; left; reflexivity|].
    destruct (_ <=? _); [right; right; reflexivity|].
    left.
    assert (Hex' : existsb (GameSession.hasId (GameSession.pd_playerId pd))
                           (GameSession.players (snd r)) = true)
      by (rewrite (existsb_same_ids _ _ _ Hids); exact Hex).
    destruct (find_existsb _ _ Hex') as [x ->]. reflexivity.
Qed.

Lemma X14_witness :
  let ann := GameSession.mkParticipant "a" "ann" 0 10 None true in
  let bob := GameSession.mkParticipant "b" "bob" 0 20 None true in
  let s := GameSession.mkDoc "g1" [ann; bob] "classic" "NA"
             GameSession.active 4 (Some 0) None None [] in
  let r := GameSession.removePlayer {[ "g1" := s ]} s "a" 9 in
  GameSession.joinSession (fst r) "g1" (GameSession.mkPlayerData "a" "ann" 0) 20
  = GameSession.Ok (fst r, snd r)
  /\ List.map GameSession.isActive (GameSession.players (snd r))
     = [false; true].
Proof.
  intros ann bob s r.
  assert (Hnd : List.NoDup (List.map GameSession.playerId
                                     (GameSession.players s))).
  { simpl. repeat (constructor; [simpl; intuition discriminate|]).
    constructor. }
  destruct (X14_left_player_stays_inactive
              {[ "g1" := s ]} "g1" s (GameSession.mkPlayerData "a" "ann" 0)
              9 20 eq_refl Hnd eq_refl) as (_ & _ & [H | [H | H]]).
  - split; [exact H | reflexivity].
  - exfalso. vm_compute in H. discriminate H.
  - exfalso. vm_compute in H. discriminate H.
Defined.

(** X15. The joinable flag of the session routes is safe but narrow.
    When [isJoinable] is reported for a stored session, [joinSession]
    does not fail for any player.  The flag is however false for every
    active session, and an active session below capacity accepts joins
    all the same. *)
Theorem X15_isJoinable_implies_join_succeeds
        (store : gmap string GameSession.doc) (sid : string)
        (s : GameSession.doc) (pd : GameSession.playerData) (now : Z) :
  store !! sid = Some s ->
  (SessionRoutes.isJoinable s = true ->
   exists r, GameSession.joinSession store sid pd now = GameSession.Ok r)
  /\ (GameSession.sessionStatus s = GameSession.active ->
      SessionRoutes.isJoinable s = false
      /\ (Z.of_nat (length (GameSession.players s)) < GameSession.maxPlayers s ->
          exists r, GameSession.joinSession store sid pd now
                    = GameSession.Ok r)).
Proof.
  intros Hs.
  assert (Hok : joinable s ->
                Z.of_nat (length (GameSession.players s))
                < GameSession.maxPlayers s ->
                exists r, GameSession.joinSession store sid pd now
                          = GameSession.Ok r).
  { intros Hj Hcap. unfold GameSession.joinSession.
    rewrite Hs, (joinable_status s Hj).
    assert (E : (GameSession.maxPlayers s
                 <=? Z.of_nat (length (GameSession.players s))) = false)
      by lia.
    rewrite E. destruct (List.find _ _); eauto. }
  split.
  - unfold SessionRoutes.isJoinable. intros H.
    apply andb_true_iff in H. destruct H as [Hw Hcap].
    apply Hok; [|lia]. left.
    destruct (GameSession.sessionStatus s); try discriminate. reflexivity.
  - intros Ha. split.
    + unfold SessionRoutes.isJoinable. rewrite Ha. reflexivity.
    + apply Hok. right. exact Ha.
Qed.

Lemma X15_witness :
  let ann := GameSession.mkParticipant "a" "ann" 0 10 None true in
  let s := GameSession.mkDoc "g1" [ann] "classic" "NA"
             GameSession.waiting 4 None None None [] in
  exists r, GameSession.joinSession {[ "g1" := s ]} "g1"
              (GameSession.mkPlayerData "b" "bob" 0) 5 = GameSession.Ok r.
Proof.
  intros ann s.
  assert (Hl : ({[ "g1" := s ]} : gmap string GameSession.doc) !! "g1"
               = Some s) by reflexivity.
  destruct (X15_isJoinable_implies_join_succeeds
              {[ "g1" := s ]} "g1" s (GameSession.mkPlayerData "b" "bob" 0) 5
              Hl) as [H _].
  apply H. reflexivity.
Defined.

(** ** Rate limiter: what the map holds *)

Lemma remaining_validate (limits : gmap string (list Z)) (pid : string)
      (now : Z) :
  let r := Validation.validateScoreUpdateRate limits pid 60 now in
  Validation.remaining (snd r)
  = if Validation.allowed (snd r)
    then 60 - Z.of_nat (length (stored (fst r) pid))
    else 0.
Proof.
  simpl. unfold Validation.validateScoreUpdateRate, stored.
  destruct (60 <=? _); simpl; [reflexivity|].
  rewrite lookup_insert_eq. reflexivity.
Qed.

(** X16. The rate-limit map stays small and fresh.  One call of
    [validateScoreUpdateRate] for a player at time [now] leaves in that
    player's entry only timestamps newer than [now] minus 60 seconds
    and leaves every other player's entry alone; when it lets the
    attempt through, the [remaining] it reports is 60 minus the number
    of timestamps then stored, and it is 0 on refusal.  Starting from
    an empty map, no sequence of calls, in whatever order of times,
    makes an entry longer than 60. *)
Theorem X16_rate_limit_entries_bounded_and_pruned :
  (forall (limits : gmap string (list Z)) (pid : string) (now : Z),
      let r := Validation.validateScoreUpdateRate limits pid 60 now in
      (forall t, In t (stored (fst r) pid) -> now - 60 * 1000 < t)
      /\ (forall q, q <> pid -> stored (fst r) q = stored limits q)
      /\ Validation.remaining (snd r)
         = (if Validation.allowed (snd r)
            then 60 - Z.of_nat (length (stored (fst r) pid))
            else 0)
      /\ 0 <= Validation.remaining (snd r) <= 59)
  /\ (forall (attempts : list attempt) (pid : string),
         (length (stored (fst (runAttempts ∅ attempts)) pid) <= 60)%nat).
Proof.
  split.
  - intros limits pid now. simpl.
    destruct (stored_validate limits pid pid now) as [Hal Hst].
    rewrite String.eqb_refl in Hst.
    split; [|split; [|split]].
    + intros t Ht. rewrite Hst in Ht. apply in_app_or in Ht.
      destruct Ht as [Ht | Ht].
      * apply filter_In in Ht. lia.
      * destruct (Validation.allowed _); simpl in Ht; [|contradiction].
        destruct Ht as [<- | []]. lia.
    + intros q Hq. destruct (stored_validate limits pid q now) as [_ Hq'].
      apply not_eq_sym, String.eqb_neq in Hq. rewrite Hq in Hq'. exact Hq'.
    + apply remaining_validate.
    + rewrite remaining_validate, Hst, Hal.
      destruct (60 <=? _) eqn:E; simpl; [lia|].
      rewrite length_app. simpl. lia.
  - intros attempts pid.
    induction attempts as [|a l IH] using rev_ind.
    { unfold runAttempts, stored. simpl. rewrite lookup_empty. simpl. lia. }
    rewrite runAttempts_snoc.
    destruct (rateStep_log (runAttempts ∅ l) a) as [_ ->].
    destruct (stored_validate (fst (runAttempts ∅ l)) (fst a) pid (snd a))
      as [Hal ->].
    destruct (String.eqb (fst a) pid) eqn:E; [|exact IH].
    apply String.eqb_eq in E. rewrite E in *. rewrite Hal.
    pose proof (List.filter_length_le
                  (fun t => snd a - 60 * 1000 <? t)
                  (stored (fst (runAttempts ∅ l)) pid)) as Hf.
    destruct (60 <=? _) eqn:E'; simpl.
    + rewrite app_nil_r. lia.
    + rewrite length_app. simpl. lia.
Qed.

Lemma runAttempts_log_attempts (l : list attempt) :
  List.map fst (snd (runAttempts ∅ l)) = l.
Proof.
  induction l as [|a l IH] using rev_ind; [reflexivity|].
  rewrite runAttempts_snoc.
  destruct (rateStep_log (runAttempts ∅ l) a) as [-> _].
  rewrite List.map_app. simpl. f_equal; [exact IH|].
  destruct a; reflexivity.
Qed.

Lemma accepted_from_attempts (l : list attempt) (pid : string) (t : Z) :
  In t (accepted (snd (runAttempts ∅ l)) pid) -> In (pid, t) l.
Proof.
  unfold accepted. intros H. apply in_map_iff in H.
  destruct H as (o & Ho & Hin). apply filter_In in Hin.
  destruct Hin as [Hin Hf]. apply andb_true_iff in Hf.
  destruct Hf as [Hf _]. apply String.eqb_eq in Hf.
  rewrite <- (runAttempts_log_attempts l).
  apply in_map_iff. exists o. split; [|exact Hin].
  destruct o as [[q t'] ok]. simpl in *. congruence.
Qed.

(** X17. The reset time of a refusal is a whole number of seconds
    between 1 and 60.  For attempts made in chronological order from
    an empty map, whenever an attempt is refused the [resetTime] it
    reports lies in 1..60. *)
Theorem X17_reset_time_between_1_and_60
        (pre : list attempt) (pid : string) (now : Z) :
  chronological (pre ++ [(pid, now)]) ->
  let rc := snd (Validation.validateScoreUpdateRate
                   (fst (runAttempts ∅ pre)) pid 60 now) in
  Validation.allowed rc = false ->
  exists r, Validation.resetTime rc = Some r /\ 1 <= r <= 60.
Proof.
  intros Hc. simpl. intros Hr.
  destruct (resetTime_validate (fst (runAttempts ∅ pre)) pid now Hr)
    as (oldest & rest & Hrec & Hreset).
  exists (JS.ceil_div (oldest + 60 * 1000 - now) 1000).
  split; [exact Hreset|].
  apply chronological_snoc in Hc. destruct Hc as [Hc Hle].
  simpl in Hle.
  rewrite (runAttempts_tracks pre now Hc Hle pid (now - 60 * 1000))
    in Hrec by apply Z.le_refl.
  assert (Hin : In oldest
                   (List.filter (fun t => now - 60 * 1000 <? t)
                                (accepted (snd (runAttempts ∅ pre)) pid)))
    by (rewrite Hrec; left; reflexivity).
  apply filter_In in Hin. destruct Hin as [Hin Hw].
  apply accepted_from_attempts in Hin. specialize (Hle _ Hin). simpl in Hle.
  unfold JS.ceil_div.
  pose proof (Z.div_mod (- (oldest + 60 * 1000 - now)) 1000 ltac:(lia)) as Hd.
  pose proof (Z.mod_pos_bound (- (oldest + 60 * 1000 - now)) 1000 ltac:(lia))
    as Hm.
  lia.
Qed.

Lemma X16_witness :
  let r := Validation.validateScoreUpdateRate
             {[ "p" := [0; 50000; 70000] ]} "p" 60 100000 in
  stored (fst r) "p" = [50000; 70000; 100000]
  /\ Validation.remaining (snd r) = 57
  /\ (forall t, In t (stored (fst r) "p") -> 100000 - 60 * 1000 < t).
Proof.
  intros r.
  destruct (proj1 X16_rate_limit_entries_bounded_and_pruned
              {[ "p" := [0; 50000; 70000] ]} "p" 100000)
    as (H1 & _ & H2 & _).
  split; [reflexivity|]. split; [exact H2 | exact H1].
Defined.

Lemma chronological_ticks (pid : string) (T : Z) (n : nat) :
  forall a : nat,
    Z.of_nat (a + n) <= T ->
    chronological (List.map (fun k => (pid, Z.of_nat k)) (seq a n)
                   ++ [(pid, T)]).
Proof.
  unfold chronological.
  induction n as [|n IH]; intros a Ha; simpl.
  - constructor; constructor.
  - constructor; [apply IH; lia|].
    rewrite List.Forall_forall. intros x Hx. apply in_app_or in Hx.
    destruct Hx as [Hx | [<- | []]]; simpl; [|lia].
    apply in_map_iff in Hx. destruct Hx as (k & <- & Hk).
    apply in_seq in Hk. simpl. lia.
Qed.

Lemma X17_witness :
  let pre := List.map (fun k => ("p", Z.of_nat k)) (seq 1 60) in
  exists r,
    Validation.resetTime
      (snd (Validation.validateScoreUpdateRate
              (fst (runAttempts ∅ pre)) "p" 60 100))
    = Some r /\ 1 <= r <= 60.
Proof.
  intros pre.
  apply (X17_reset_time_between_1_and_60 pre "p" 100).
  - apply (chronological_ticks "p" 100 60 1). simpl. lia.
  - vm_compute. reflexivity.
Defined.

(** ** Socket service: the registry *)

Lemma find_app {A : Type} (f : A -> bool) (l1 l2 : list A) :
  List.find f (l1 ++ l2)
  = match List.find f l1 with
    | Some x => Some x
    | None => List.find f l2
    end.
Proof.
  induction l1 as [|x l1 IH]; simpl; [reflexivity|].
  destruct (f x); [reflexivity | exact IH].
Qed.

Lemma updateOnlineStatus_result (store : list Player.doc) (p : Player.doc)
      (online : bool) (now : Z) :
  let r := Player.updateOnlineStatus store p online now in
  Player.findOne (fst r) (Player.playerId p) = Some (snd r)
  /\ Player.playerId (snd r) = Player.playerId p
  /\ Player.isOnline (snd r) = online
  /\ Player.lastActiveAt (snd r) = now
  /\ Player.currentScore (snd r) = Player.currentScore p
  /\ (forall pid', pid' <> Player.playerId p ->
        Player.findOne (fst r) pid' = Player.findOne store pid').
Proof.
  simpl. unfold Player.updateOnlineStatus.
  set (q := Player.set_lastActiveAt now (Player.set_isOnline online p)).
  assert (Hq : Player.playerId q = Player.playerId p) by reflexivity.
  split; [rewrite <- Hq; apply save_findOne|].
  assert (Hsnd : snd (Player.save store q) = Player.preSave q).
  { unfold Player.save. destruct (Player.findOne store _); reflexivity. }
  rewrite Hsnd.
  assert (Hpre : Player.playerId (Player.preSave q) = Player.playerId p
                 /\ Player.isOnline (Player.preSave q) = online
                 /\ Player.lastActiveAt (Player.preSave q) = now
                 /\ Player.currentScore (Player.preSave q)
                    = Player.currentScore p).
  { unfold Player.preSave.
    destruct (0 <? Player.totalGamesPlayed q); simpl;
      destruct (Player.bestScore p <? Player.currentScore p); simpl; auto. }
  destruct Hpre as (H1 & H2 & H3 & H4).
  split; [exact H1|]. split; [exact H2|]. split; [exact H3|].
  split; [exact H4|].
  intros pid' Hne.
  assert (Hneb : String.eqb (Player.playerId p) pid' = false)
    by (apply String.eqb_neq; congruence).
  unfold Player.save.
  destruct (Player.findOne store (Player.playerId q)) eqn:E; simpl.
  - rewrite (findOne_replaceFirst store (Player.playerId p) pid'
               (Player.preSave q) H1).
    rewrite Hneb. reflexivity.
  - unfold Player.findOne. rewrite find_app. simpl.
    unfold Player.hasId at 2. rewrite H1, Hneb.
    destruct (List.find (Player.hasId pid') store); reflexivity.
Qed.

Lemma handlePlayerJoin_success (st : SocketService.state) (socket : string)
      (data : Validation.joinRoom) (now : Z) (found : Player.doc) :
  Validation.validJoinRoom data = true ->
  let playerId := default "" (Validation.jr_playerId data) in
  Player.findOne (SocketService.playerStore st) playerId = Some found ->
  let region := JS.or_else (Validation.jr_region data) (Player.region found) in
  let gameMode :=
    JS.or_else (Validation.jr_gameMode data) (Player.currentGameMode found) in
  let rooms := SocketService.generateRoomNames (Some region) (Some gameMode) in
  let updated :=
    Player.updateOnlineStatus (SocketService.playerStore st) found true now in
  SocketService.handlePlayerJoin st socket data now
  = (SocketService.mkState
       (<[playerId := SocketService.mkConn socket now region gameMode
                        (Player.username found)]>
          (SocketService.connectedPlayers st))
       (<[socket := playerId]> (SocketService.socketToPlayer st))
       (<[playerId := list_to_set rooms]> (SocketService.roomSubscriptions st))
       (<[socket := SocketService.roomsOf st socket ∪ list_to_set rooms]>
          (SocketService.socketRooms st))
       (fst updated) (SocketService.sessionStore st)
       (SocketService.scoreUpdateRateLimit st),
     (SocketService.ToSender,
      SocketService.PlayerJoined playerId (Player.username found)
        (Player.currentScore found) (Player.region found)
        (Player.currentGameMode found) rooms)
     :: List.map
          (fun room =>
             (SocketService.ToRoomButSender room,
              SocketService.PlayerOnline playerId (Player.username found)
                                         (Player.currentScore found)))
          rooms).
Proof.
  intros Hv. simpl. intros Hf.
  unfold SocketService.handlePlayerJoin. rewrite Hv, Hf. simpl.
  pose proof (updateOnlineStatus_keeps (SocketService.playerStore st) found
                                       true now) as K.
  pose proof (updateOnlineStatus_result (SocketService.playerStore st) found
                                        true now) as R.
  destruct (Player.updateOnlineStatus (SocketService.playerStore st) found
                                      true now) as [store' player].
  simpl in K, R. destruct K as (-> & -> & ->).
  destruct R as (_ & _ & _ & _ & -> & _). reflexivity.
Qed.

(** X18. The join handshake.  A payload that fails validation, or that
    names a player who does not exist, changes nothing and is answered
    with one error.  Otherwise the player's stored document is marked
    online with [lastActiveAt] now (score unchanged), the connection is
    registered both ways (player to socket with the region and game
    mode in force, socket to player), the sessions and the rate limiter
    are untouched, the sender is told the rooms it was put in, and one
    online notice goes to each of those rooms. *)
Theorem X18_handlePlayerJoin_registers_connection
        (st : SocketService.state) (socket : string)
        (data : Validation.joinRoom) (now : Z) :
  let playerId := default "" (Validation.jr_playerId data) in
  let r := SocketService.handlePlayerJoin st socket data now in
  (Validation.validJoinRoom data = false ->
   r = (st, [(SocketService.ToSender,
              SocketService.Error SocketService.validation_error)]))
  /\ (Validation.validJoinRoom data = true ->
      Player.findOne (SocketService.playerStore st) playerId = None ->
      r = (st, [(SocketService.ToSender,
                 SocketService.Error SocketService.player_not_found)]))
  /\ (forall found,
         Validation.validJoinRoom data = true ->
         Player.findOne (SocketService.playerStore st) playerId = Some found ->
         let region :=
           JS.or_else (Validation.jr_region data) (Player.region found) in
         let gameMode :=
           JS.or_else (Validation.jr_gameMode data)
                      (Player.currentGameMode found) in
         let rooms :=
           SocketService.generateRoomNames (Some region) (Some gameMode) in
         (exists stored,
             Player.findOne (SocketService.playerStore (fst r)) playerId
             = Some stored
             /\ Player.isOnline stored = true
             /\ Player.lastActiveAt stored = now
             /\ Player.currentScore stored = Player.currentScore found)
         /\ SocketService.connectedPlayers (fst r) !! playerId
            = Some (SocketService.mkConn socket now region gameMode
                                         (Player.username found))
         /\ SocketService.socketToPlayer (fst r) !! socket = Some playerId
         /\ SocketService.sessionStore (fst r) = SocketService.sessionStore st
         /\ SocketService.scoreUpdateRateLimit (fst r)
            = SocketService.scoreUpdateRateLimit st
         /\ snd r
            = (SocketService.ToSender,
               SocketService.PlayerJoined playerId (Player.username found)
                 (Player.currentScore found) (Player.region found)
                 (Player.currentGameMode found) rooms)
              :: List.map
                   (fun room =>
                      (SocketService.ToRoomButSender room,
                       SocketService.PlayerOnline playerId
                         (Player.username found) (Player.currentScore found)))
                   rooms).
Proof.
  simpl. split; [|split].
  - intros Hv. unfold SocketService.handlePlayerJoin. rewrite Hv. reflexivity.
  - intros Hv Hf. unfold SocketService.handlePlayerJoin. rewrite Hv, Hf.
    reflexivity.
  - intros found Hv Hf.
    rewrite (handlePlayerJoin_success st socket data now found Hv Hf). simpl.
    destruct (updateOnlineStatus_result (SocketService.playerStore st) found
                                        true now)
      as (H1 & _ & H3 & H4 & H5 & _).
    rewrite (findOne_id _ _ _ Hf) in H1.
    split; [eexists; split; [exact H1|]; auto|].
    rewrite !lookup_insert_eq. auto.
Qed.

Lemma X18_witness :
  let st := SocketService.mkState ∅ ∅ ∅ ∅
              [Player.fresh "p1" "alice" "NA" "classic" 0] ∅ ∅ in
  let data := Validation.mkJoinRoom (Some "p1") None None in
  SocketService.connectedPlayers
    (fst (SocketService.handlePlayerJoin st "s1" data 7)) !! "p1"
  = Some (SocketService.mkConn "s1" 7 "NA" "classic" "alice")
  /\ SocketService.handlePlayerJoin st "s1"
       (Validation.mkJoinRoom (Some "ghost") None None) 7
     = (st, [(SocketService.ToSender,
              SocketService.Error SocketService.player_not_found)]).
Proof.
  intros st data.
  destruct (X18_handlePlayerJoin_registers_connection st "s1" data 7)
    as (_ & _ & H).
  destruct (H (Player.fresh "p1" "alice" "NA" "classic" 0) eq_refl eq_refl)
    as (_ & H1 & _).
  destruct (X18_handlePlayerJoin_registers_connection st "s1"
              (Validation.mkJoinRoom (Some "ghost") None None) 7)
    as (_ & H2 & _).
  split; [exact H1 | apply H2; reflexivity].
Defined.

Lemma updateOnlineStatus_bestScore (store : list Player.doc) (p : Player.doc)
      (online : bool) (now : Z) :
  let p' := snd (Player.updateOnlineStatus store p online now) in
  Player.currentScore p' <= Player.bestScore p'.
Proof. unfold Player.updateOnlineStatus. apply save_bestScore. Qed.

Lemma truthy_truthyStr (s : option string) :
  JS.truthy s = true -> SocketService.truthyStr (default "" s) = true.
Proof. destruct s as [v|]; simpl; [auto | discriminate]. Qed.

Lemma handleDisconnection_state (st : SocketService.state)
      (socket reason : string) (now : Z) (pid : string) :
  SocketService.socketToPlayer st !! socket = Some pid ->
  SocketService.truthyStr pid = true ->
  let r := SocketService.handleDisconnection st socket reason now in
  SocketService.connectedPlayers (fst r)
  = delete pid (SocketService.connectedPlayers st)
  /\ SocketService.socketToPlayer (fst r)
     = delete socket (SocketService.socketToPlayer st)
  /\ SocketService.roomSubscriptions (fst r)
     = delete pid (SocketService.roomSubscriptions st)
  /\ SocketService.socketRooms (fst r)
     = delete socket (SocketService.socketRooms st)
  /\ SocketService.sessionStore (fst r) = SocketService.sessionStore st
  /\ SocketService.scoreUpdateRateLimit (fst r)
     = SocketService.scoreUpdateRateLimit st
  /\ match Player.findOne (SocketService.playerStore st) pid with
     | Some found =>
         SocketService.playerStore (fst r)
         = fst (Player.updateOnlineStatus (SocketService.playerStore st)
                                          found false now)
         /\ snd r
            = List.map
                (fun room =>
                   (SocketService.ToRoomButSender room,
                    SocketService.PlayerOffline pid (Player.username found)
                                                reason))
                (elements (SocketService.subscriptionsOf st pid))
     | None =>
         SocketService.playerStore (fst r) = SocketService.playerStore st
         /\ snd r = []
     end.
Proof.
  intros Hs Ht. simpl. unfold SocketService.handleDisconnection.
  rewrite Hs, Ht.
  destruct (Player.findOne (SocketService.playerStore st) pid) as [found|].
  - pose proof (updateOnlineStatus_keeps (SocketService.playerStore st) found
                                         false now) as (_ & _ & K).
    destruct (Player.updateOnlineStatus (SocketService.playerStore st) found
                                        false now) as [store' player].
    simpl in *. rewrite K. repeat split; reflexivity.
  - simpl. repeat split; reflexivity.
Qed.

(** X19. Disconnection of a socket that owns a player.  The player
    leaves the registry ([isPlayerOnline] is false afterwards), the
    player's subscriptions and the socket's own entries are dropped, and
    the number of connected players does not grow.  Every other
    player's connection, subscriptions and stored document, every other
    socket's owner, the sessions and the rate limiter are left as they
    were.  If the player's document exists it is saved offline with
    [lastActiveAt] now, the score unchanged and the best score no lower
    than it, and one offline notice goes to each room the player was
    subscribed to; if it does not exist nothing is sent. *)
Theorem X19_disconnection_unregisters_player
        (st : SocketService.state) (socket reason : string) (now : Z)
        (pid : string) :
  SocketService.socketToPlayer st !! socket = Some pid ->
  SocketService.truthyStr pid = true ->
  let r := SocketService.handleDisconnection st socket reason now in
  let st' := fst r in
  SocketService.isPlayerOnline st' pid = false
  /\ SocketService.socketToPlayer st' !! socket = None
  /\ SocketService.subscriptionsOf st' pid = ∅
  /\ SocketService.roomsOf st' socket = ∅
  /\ (SocketService.getConnectedPlayersCount st'
      <= SocketService.getConnectedPlayersCount st)%nat
  /\ (forall other, other <> pid ->
         SocketService.connectedPlayers st' !! other
         = SocketService.connectedPlayers st !! other
         /\ SocketService.roomSubscriptions st' !! other
            = SocketService.roomSubscriptions st !! other
         /\ Player.findOne (SocketService.playerStore st') other
            = Player.findOne (SocketService.playerStore st) other)
  /\ (forall s, s <> socket ->
         SocketService.socketToPlayer st' !! s
         = SocketService.socketToPlayer st !! s)
  /\ SocketService.sessionStore st' = SocketService.sessionStore st
  /\ SocketService.scoreUpdateRateLimit st'
     = SocketService.scoreUpdateRateLimit st
  /\ (forall found,
         Player.findOne (SocketService.playerStore st) pid = Some found ->
         (exists stored,
             Player.findOne (SocketService.playerStore st') pid = Some stored
             /\ Player.isOnline stored = false
             /\ Player.lastActiveAt stored = now
             /\ Player.currentScore stored = Player.currentScore found
             /\ Player.currentScore stored <= Player.bestScore stored)
         /\ snd r
            = List.map
                (fun room =>
                   (SocketService.ToRoomButSender room,
                    SocketService.PlayerOffline pid (Player.username found)
                                                reason))
                (elements (SocketService.subscriptionsOf st pid)))
  /\ (Player.findOne (SocketService.playerStore st) pid = None ->
      SocketService.playerStore st' = SocketService.playerStore st
      /\ snd r = []).
Proof.
  intros Hs Ht. simpl.
  destruct (handleDisconnection_state st socket reason now pid Hs Ht)
    as (Hc & Hm & Hsub & Hr & Hsess & Hrate & Hp).
  unfold SocketService.isPlayerOnline, SocketService.subscriptionsOf,
    SocketService.roomsOf, SocketService.getConnectedPlayersCount.
  rewrite Hc, Hm, Hsub, Hr, Hsess, Hrate. rewrite !lookup_delete_eq.
  split. { apply bool_decide_eq_false. intros [x Hx]. discriminate. }
  split; [reflexivity|]. split; [reflexivity|]. split; [reflexivity|].
  split.
  { rewrite map_size_delete.
    destruct (SocketService.connectedPlayers st !! pid); simpl; lia. }
  split.
  { intros other Hne. rewrite !lookup_delete_ne by congruence.
    split; [reflexivity|]. split; [reflexivity|].
    destruct (Player.findOne (SocketService.playerStore st) pid)
      as [found|] eqn:Ef.
    - destruct Hp as [-> _].
      destruct (updateOnlineStatus_result (SocketService.playerStore st)
                  found false now) as (_ & _ & _ & _ & _ & Ho).
      apply Ho. rewrite (findOne_id _ _ _ Ef). exact Hne.
    - destruct Hp as [-> _]. reflexivity. }
  split. { intros s Hne. rewrite lookup_delete_ne by congruence. reflexivity. }
  split; [reflexivity|]. split; [reflexivity|].
  split.
  - intros found Hf. rewrite Hf in Hp. destruct Hp as [Hstore Hout].
    split; [|exact Hout]. rewrite Hstore.
    destruct (updateOnlineStatus_result (SocketService.playerStore st)
                found false now) as (H1 & _ & H3 & H4 & H5 & _).
    rewrite (findOne_id _ _ _ Hf) in H1.
    eexists. split; [exact H1|]. split; [exact H3|]. split; [exact H4|].
    split; [exact H5|]. apply updateOnlineStatus_bestScore.
  - intros Hf. rewrite Hf in Hp. exact Hp.
Qed.

Lemma X19_witness :
  let st := fst (SocketService.handlePlayerJoin
                   (SocketService.mkState ∅ ∅ ∅ ∅
                      [Player.fresh "p1" "alice" "NA" "classic" 0] ∅ ∅)
                   "s1" (Validation.mkJoinRoom (Some "p1") None None) 7) in
  let st' := fst (SocketService.handleDisconnection st "s1" "transport close"
                                                    9) in
  SocketService.isPlayerOnline st "p1" = true
  /\ SocketService.isPlayerOnline st' "p1" = false
  /\ SocketService.socketToPlayer st' !! "s1" = None.
Proof.
  intros st st'.
  assert (Hs : SocketService.socketToPlayer st !! "s1" = Some "p1")
    by reflexivity.
  destruct (X19_disconnection_unregisters_player st "s1" "transport close" 9
              "p1" Hs eq_refl) as (H1 & H2 & _).
  split; [reflexivity|]. split; [exact H1 | exact H2].
Defined.

Lemma handlePlayerJoin_store (st : SocketService.state) (socket : string)
      (data : Validation.joinRoom) (now : Z) (found : Player.doc) :
  Validation.validJoinRoom data = true ->
  let playerId := default "" (Validation.jr_playerId data) in
  Player.findOne (SocketService.playerStore st) playerId = Some found ->
  exists stored,
    Player.findOne
      (SocketService.playerStore
         (fst (SocketService.handlePlayerJoin st socket data now))) playerId
    = Some stored.
Proof.
  intros Hv. simpl. intros Hf.
  rewrite (handlePlayerJoin_success st socket data now found Hv Hf). simpl.
  destruct (updateOnlineStatus_result (SocketService.playerStore st) found
                                      true now) as (H1 & _).
  rewrite (findOne_id _ _ _ Hf) in H1. eauto.
Qed.

(** X20. One player, two sockets.  When a player who joined from one
    socket joins again from another, the registry entry is overwritten
    with the new socket while both sockets stay mapped to the player.
    The disconnection of the old socket then unregisters the player
    although the new socket is still there: the player is no longer
    reported online, the subscriptions are gone and the stored document
    is set offline, yet the new socket still owns the player id. *)
Theorem X20_old_socket_disconnect_unregisters_new_connection
        (st : SocketService.state) (s1 s2 reason : string)
        (d1 d2 : Validation.joinRoom) (t1 t2 t3 : Z) (found : Player.doc) :
  Validation.validJoinRoom d1 = true ->
  Validation.validJoinRoom d2 = true ->
  Validation.jr_playerId d2 = Validation.jr_playerId d1 ->
  s1 <> s2 ->
  let playerId := default "" (Validation.jr_playerId d1) in
  Player.findOne (SocketService.playerStore st) playerId = Some found ->
  let st1 := fst (SocketService.handlePlayerJoin st s1 d1 t1) in
  let st2 := fst (SocketService.handlePlayerJoin st1 s2 d2 t2) in
  let st3 := fst (SocketService.handleDisconnection st2 s1 reason t3) in
  SocketService.socketId <$> SocketService.connectedPlayers st2 !! playerId
  = Some s2
  /\ SocketService.socketToPlayer st2 !! s1 = Some playerId
  /\ SocketService.socketToPlayer st2 !! s2 = Some playerId
  /\ SocketService.isPlayerOnline st3 playerId = false
  /\ SocketService.subscriptionsOf st3 playerId = ∅
  /\ SocketService.socketToPlayer st3 !! s2 = Some playerId
  /\ exists stored,
      Player.findOne (SocketService.playerStore st3) playerId = Some stored
      /\ Player.isOnline stored = false
      /\ Player.lastActiveAt stored = t3.
Proof.
  intros Hv1 Hv2 Hid Hne. simpl. intros Hf.
  destruct (handlePlayerJoin_store st s1 d1 t1 found Hv1 Hf) as [f1 Hf1].
  pose proof (handlePlayerJoin_rooms st s1 d1 t1 found Hv1 Hf) as (Hs1 & _).
  set (st1 := fst (SocketService.handlePlayerJoin st s1 d1 t1)) in *.
  set (pid := default "" (Validation.jr_playerId d1)) in *.
  assert (Hpid : default "" (Validation.jr_playerId d2) = pid)
    by (unfold pid; rewrite Hid; reflexivity).
  assert (Hf1' : Player.findOne (SocketService.playerStore st1)
                   (default "" (Validation.jr_playerId d2)) = Some f1)
    by (rewrite Hpid; exact Hf1).
  destruct (handlePlayerJoin_store st1 s2 d2 t2 f1 Hv2 Hf1') as [f2 Hf2].
  pose proof (handlePlayerJoin_success st1 s2 d2 t2 f1 Hv2 Hf1') as E2.
  simpl in E2. rewrite Hpid in E2, Hf2.
  set (st2 := fst (SocketService.handlePlayerJoin st1 s2 d2 t2)) in *.
  assert (Hc2 : SocketService.socketId
                  <$> SocketService.connectedPlayers st2 !! pid = Some s2).
  { unfold st2. rewrite E2. simpl. rewrite lookup_insert_eq. reflexivity. }
  assert (Hm1 : SocketService.socketToPlayer st2 !! s1 = Some pid).
  { unfold st2. rewrite E2. simpl.
    rewrite lookup_insert_ne by congruence. exact Hs1. }
  assert (Hm2 : SocketService.socketToPlayer st2 !! s2 = Some pid).
  { unfold st2. rewrite E2. simpl. apply lookup_insert_eq. }
  assert (Ht : SocketService.truthyStr pid = true).
  { apply truthy_truthyStr. unfold Validation.validJoinRoom in Hv1.
    apply andb_prop in Hv1 as [Hv1 _]. apply andb_prop in Hv1 as [Hv1 _].
    exact Hv1. }
  destruct (handleDisconnection_state st2 s1 reason t3 pid Hm1 Ht)
    as (Hc & Hm & Hsub & _ & _ & _ & Hp).
  rewrite Hf2 in Hp. destruct Hp as [Hstore _].
  unfold SocketService.isPlayerOnline, SocketService.subscriptionsOf.
  rewrite Hc, Hm, Hsub, Hstore. rewrite !lookup_delete_eq.
  rewrite lookup_delete_ne by congruence.
  split; [exact Hc2|]. split; [exact Hm1|]. split; [exact Hm2|].
  split. { apply bool_decide_eq_false. intros [x Hx]. discriminate. }
  split; [reflexivity|]. split; [exact Hm2|].
  destruct (updateOnlineStatus_result (SocketService.playerStore st2) f2
                                      false t3) as (H1 & _ & H3 & H4 & _).
  rewrite (findOne_id _ _ _ Hf2) in H1. eauto.
Qed.

Lemma X20_witness :
  let st := SocketService.mkState ∅ ∅ ∅ ∅
              [Player.fresh "p1" "alice" "NA" "classic" 0] ∅ ∅ in
  let d := Validation.mkJoinRoom (Some "p1") None None in
  let st1 := fst (SocketService.handlePlayerJoin st "s1" d 1) in
  let st2 := fst (SocketService.handlePlayerJoin st1 "s2" d 2) in
  let st3 := fst (SocketService.handleDisconnection st2 "s1" "ping timeout" 3) in
  SocketService.isPlayerOnline st3 "p1" = false
  /\ SocketService.socketToPlayer st3 !! "s2" = Some "p1".
Proof.
  intros st d st1 st2 st3.
  assert (Hne : "s1" <> "s2") by discriminate.
  destruct (X20_old_socket_disconnect_unregisters_new_connection
              st "s1" "s2" "ping timeout" d d 1 2 3
              (Player.fresh "p1" "alice" "NA" "classic" 0)
              eq_refl eq_refl eq_refl Hne eq_refl)
    as (_ & _ & _ & H1 & _ & H2 & _).
  split; [exact H1 | exact H2].
Defined.

(** ** Socket service: subscriptions *)

Lemma global_in_channels (r m : option string) : "global" ∈ channels r m.
Proof. unfold channels. set_solver. Qed.

Lemma handleLeaderboardSubscription_rooms
      (st : SocketService.state) (socket playerId : string)
      (region gameMode : option string) :
  SocketService.socketToPlayer st !! socket = Some playerId ->
  let st' := fst (SocketService.handleLeaderboardSubscription
                    st socket region gameMode) in
  let rooms := SocketService.generateRoomNames region gameMode in
  SocketService.subscriptionsOf st' playerId
  = SocketService.subscriptionsOf st playerId ∪ list_to_set rooms
  /\ SocketService.roomsOf st' socket
     = SocketService.roomsOf st socket ∪ list_to_set rooms
  /\ SocketService.socketToPlayer st' = SocketService.socketToPlayer st.
Proof.
  intros Hs. simpl. unfold SocketService.handleLeaderboardSubscription.
  rewrite Hs. simpl.
  unfold SocketService.subscriptionsOf, SocketService.roomsOf. simpl.
  rewrite !lookup_insert_eq. auto.
Qed.

Lemma handleLeaderboardSubscription_eq
      (st : SocketService.state) (socket playerId : string)
      (region gameMode : option string) :
  SocketService.socketToPlayer st !! socket = Some playerId ->
  SocketService.handleLeaderboardSubscription st socket region gameMode
  = (SocketService.set_rooms
       (<[playerId := SocketService.subscriptionsOf st playerId
                      ∪ channels region gameMode]>
          (SocketService.roomSubscriptions st))
       (<[socket := SocketService.roomsOf st socket
                    ∪ channels region gameMode]>
          (SocketService.socketRooms st))
       st,
     [(SocketService.ToSender,
       SocketService.LeaderboardSubscribed
         (SocketService.generateRoomNames region gameMode))]).
Proof.
  intros Hs. unfold SocketService.handleLeaderboardSubscription.
  rewrite Hs. cbv beta iota zeta.
  rewrite <- !generateRoomNames_channels. reflexivity.
Qed.

(** X21. Leaderboard subscriptions.  A socket that has not joined is
    refused ([not_authenticated]) when it subscribes and ignored when it
    unsubscribes, the state unchanged either way.  For a socket that
    owns a player, subscribing adds the channels of the given region and
    game mode to what the player and the socket already have (the
    global channel among them) and touches no other player; doing it a
    second time changes nothing.  Unsubscribing, whatever region and
    game mode it names, always takes the player out of the global
    channel. *)
Theorem X21_subscription_accumulates_and_unsubscription_drops_global
        (st : SocketService.state) (socket : string)
        (region gameMode : option string) :
  (SocketService.socketToPlayer st !! socket = None ->
   SocketService.handleLeaderboardSubscription st socket region gameMode
   = (st, [(SocketService.ToSender,
            SocketService.Error SocketService.not_authenticated)])
   /\ SocketService.handleLeaderboardUnsubscription st socket region gameMode
      = (st, []))
  /\ (forall playerId,
         SocketService.socketToPlayer st !! socket = Some playerId ->
         SocketService.truthyStr playerId = true ->
         let r := SocketService.handleLeaderboardSubscription
                    st socket region gameMode in
         let st' := fst r in
         snd r = [(SocketService.ToSender,
                   SocketService.LeaderboardSubscribed
                     (SocketService.generateRoomNames region gameMode))]
         /\ SocketService.subscriptionsOf st' playerId
            = SocketService.subscriptionsOf st playerId
              ∪ channels region gameMode
         /\ SocketService.roomsOf st' socket
            = SocketService.roomsOf st socket ∪ channels region gameMode
         /\ "global" ∈ SocketService.subscriptionsOf st' playerId
         /\ (forall other, other <> playerId ->
                SocketService.roomSubscriptions st' !! other
                = SocketService.roomSubscriptions st !! other)
         /\ SocketService.handleLeaderboardSubscription
              st' socket region gameMode = (st', snd r)
         /\ (forall region' gameMode',
                let st'' := fst (SocketService.handleLeaderboardUnsubscription
                                   st' socket region' gameMode') in
                "global" ∉ SocketService.subscriptionsOf st'' playerId
                /\ "global" ∉ SocketService.roomsOf st'' socket)).
Proof.
  split.
  - intros Hs. unfold SocketService.handleLeaderboardSubscription,
      SocketService.handleLeaderboardUnsubscription. rewrite Hs. auto.
  - intros playerId Hs _. simpl.
    destruct (handleLeaderboardSubscription_rooms st socket playerId
                region gameMode Hs) as (Hsub & Hrooms & Hsock).
    rewrite generateRoomNames_channels in Hsub, Hrooms.
    split.
    { unfold SocketService.handleLeaderboardSubscription. rewrite Hs.
      reflexivity. }
    split; [exact Hsub|]. split; [exact Hrooms|].
    split. { rewrite Hsub. pose proof (global_in_channels region gameMode).
             set_solver. }
    split.
    { intros other Hne. unfold SocketService.handleLeaderboardSubscription.
      rewrite Hs. simpl. rewrite lookup_insert_ne by congruence. reflexivity. }
    split.
    { rewrite (handleLeaderboardSubscription_eq st socket playerId
                 region gameMode Hs).
      cbn [fst snd].
      rewrite (handleLeaderboardSubscription_eq _ socket playerId
                 region gameMode) by exact Hs.
      unfold SocketService.subscriptionsOf, SocketService.roomsOf,
        SocketService.set_rooms.
      cbn [SocketService.roomSubscriptions SocketService.socketRooms
           SocketService.connectedPlayers SocketService.socketToPlayer
           SocketService.playerStore SocketService.sessionStore
           SocketService.scoreUpdateRateLimit].
      rewrite !lookup_insert_eq, !insert_insert_eq. cbn [default].
      assert (E : forall a b : gset string, a ∪ b ∪ b = a ∪ b) by set_solver.
      unfold id. rewrite !E. reflexivity. }
    intros region' gameMode'.
    set (st' := fst (SocketService.handleLeaderboardSubscription
                       st socket region gameMode)) in *.
    assert (Hs' : SocketService.socketToPlayer st' !! socket = Some playerId)
      by (rewrite Hsock; exact Hs).
    destruct (handleLeaderboardUnsubscription_rooms st' socket playerId
                region' gameMode' Hs') as (H1 & H2 & _).
    rewrite generateRoomNames_channels in H1, H2. rewrite H1, H2.
    pose proof (global_in_channels region' gameMode'). set_solver.
Qed.

Lemma X21_witness :
  let st := fst (SocketService.handlePlayerJoin
                   (SocketService.mkState ∅ ∅ ∅ ∅
                      [Player.fresh "p1" "alice" "NA" "classic" 0] ∅ ∅)
                   "s1" (Validation.mkJoinRoom (Some "p1") None None) 7) in
  let st' := fst (SocketService.handleLeaderboardSubscription
                    st "s1" (Some "EU") None) in
  let st'' := fst (SocketService.handleLeaderboardUnsubscription
                     st' "s1" (Some "EU") None) in
  SocketService.subscriptionsOf st' "p1"
  = SocketService.subscriptionsOf st "p1" ∪ channels (Some "EU") None
  /\ "global" ∉ SocketService.subscriptionsOf st'' "p1".
Proof.
  intros st st' st''.
  assert (Hs : SocketService.socketToPlayer st !! "s1" = Some "p1")
    by reflexivity.
  destruct (X21_subscription_accumulates_and_unsubscription_drops_global
              st "s1" (Some "EU") None) as (_ & H).
  destruct (H "p1" Hs eq_refl) as (_ & H1 & _ & _ & _ & _ & H2).
  destruct (H2 (Some "EU") None) as (H3 & _).
  split; [exact H1 | exact H3].
Defined.

(** ** Socket service: score updates *)

Lemma handleScoreUpdate_owner (st : SocketService.state) (socket : string)
      (data : Validation.scoreUpdate) (now : Z) :
  Validation.validScoreUpdate data = true ->
  let playerId := default "" (Validation.su_playerId data) in
  let checked :=
    Validation.validateScoreUpdateRate
      (SocketService.scoreUpdateRateLimit st) playerId 60 now in
  Validation.allowed (snd checked) = true ->
  SocketService.socketToPlayer st !! socket = Some playerId ->
  SocketService.handleScoreUpdate st socket data now
  = SocketService.applyScoreUpdate
      (SocketService.set_rateLimit (fst checked) st) playerId data now.
Proof.
  intros Hv. simpl. intros Ha Hs.
  unfold SocketService.handleScoreUpdate. rewrite Hv. simpl.
  destruct (Validation.validateScoreUpdateRate _ _ _ _) as [limits' rc].
  simpl in *. rewrite Ha. simpl.
  rewrite bool_decide_eq_true_2 by exact Hs. reflexivity.
Qed.

Lemma or_else_falsy (a : option string) (b : string) :
  JS.truthy a = false -> JS.or_else a b = b.
Proof.
  destruct a as [v|]; simpl; [|reflexivity].
  unfold JS.or_else, JS.truthy. simpl.
  destruct (String.eqb v ""); simpl; [reflexivity | discriminate].
Qed.

(** X22. Score updates that are turned away at the door.  A payload
    that fails validation changes nothing at all, the rate limiter
    included.  A valid payload for a player who already has sixty
    updates inside the last minute is refused with [rate_limit_exceeded]
    and the number of seconds (rounded up) until the oldest of them
    leaves the window: players, sessions and the registry are untouched,
    the limiter only forgets that player's expired entries, and the
    answer is the same whichever socket sent the payload. *)
Theorem X22_refused_score_update_changes_no_score
        (st : SocketService.state) (socket : string)
        (data : Validation.scoreUpdate) (now : Z) :
  let playerId := default "" (Validation.su_playerId data) in
  let recent :=
    List.filter (fun t => now - 60 * 1000 <? t)
                (stored (SocketService.scoreUpdateRateLimit st) playerId) in
  let r := SocketService.handleScoreUpdate st socket data now in
  (Validation.validScoreUpdate data = false ->
   r = (st, [(SocketService.ToSender,
              SocketService.Error SocketService.validation_error)]))
  /\ (Validation.validScoreUpdate data = true ->
      60 <= Z.of_nat (length recent) ->
      (exists oldest rest,
          recent = oldest :: rest
          /\ snd r
             = [(SocketService.ToSender,
                 SocketService.Error
                   (SocketService.rate_limit_exceeded
                      (Some (JS.ceil_div (oldest + 60 * 1000 - now) 1000))))])
      /\ SocketService.playerStore (fst r) = SocketService.playerStore st
      /\ SocketService.sessionStore (fst r) = SocketService.sessionStore st
      /\ SocketService.connectedPlayers (fst r)
         = SocketService.connectedPlayers st
      /\ SocketService.socketToPlayer (fst r) = SocketService.socketToPlayer st
      /\ SocketService.roomSubscriptions (fst r)
         = SocketService.roomSubscriptions st
      /\ stored (SocketService.scoreUpdateRateLimit (fst r)) playerId = recent
      /\ (forall q, q <> playerId ->
             stored (SocketService.scoreUpdateRateLimit (fst r)) q
             = stored (SocketService.scoreUpdateRateLimit st) q)
      /\ (forall socket',
             SocketService.handleScoreUpdate st socket' data now = r)).
Proof.
  simpl. split.
  - intros Hv. unfold SocketService.handleScoreUpdate. rewrite Hv. reflexivity.
  - intros Hv Hfull.
    pose proof (stored_validate (SocketService.scoreUpdateRateLimit st)
                  (default "" (Validation.su_playerId data))) as Hst.
    pose proof (resetTime_validate (SocketService.scoreUpdateRateLimit st)
                  (default "" (Validation.su_playerId data)) now) as Hreset.
    simpl in Hst, Hreset.
    assert (Ha : Validation.allowed
                   (snd (Validation.validateScoreUpdateRate
                           (SocketService.scoreUpdateRateLimit st)
                           (default "" (Validation.su_playerId data)) 60 now))
                 = false).
    { destruct (Hst (default "" (Validation.su_playerId data)) now) as [-> _].
      apply negb_false_iff, Z.leb_le. exact Hfull. }
    assert (Hall : forall s,
               SocketService.handleScoreUpdate st s data now
               = (SocketService.set_rateLimit
                    (fst (Validation.validateScoreUpdateRate
                            (SocketService.scoreUpdateRateLimit st)
                            (default "" (Validation.su_playerId data)) 60 now))
                    st,
                  [(SocketService.ToSender,
                    SocketService.Error
                      (SocketService.rate_limit_exceeded
                         (Validation.resetTime
                            (snd (Validation.validateScoreUpdateRate
                                    (SocketService.scoreUpdateRateLimit st)
                                    (default "" (Validation.su_playerId data))
                                    60 now)))))])).
    { intros s. unfold SocketService.handleScoreUpdate. rewrite Hv. simpl.
      destruct (Validation.validateScoreUpdateRate _ _ _ _) as [limits' rc].
      simpl in *. rewrite Ha. reflexivity. }
    rewrite Hall. simpl.
    destruct (Hreset Ha) as (oldest & rest & Hrec & Hrt).
    split. { exists oldest, rest. split; [exact Hrec|]. rewrite Hrt.
             reflexivity. }
    do 5 (split; [reflexivity|]).
    split.
    { destruct (Hst (default "" (Validation.su_playerId data)) now) as [_ ->].
      rewrite String.eqb_refl, Ha. apply app_nil_r. }
    split.
    { intros q Hq. destruct (Hst q now) as [_ ->].
      destruct (String.eqb_spec (default "" (Validation.su_playerId data)) q);
        [congruence | reflexivity]. }
    intros s. apply Hall.
Qed.

Lemma X22_witness :
  let st := SocketService.mkState ∅ ∅ ∅ ∅
              [Player.fresh "p1" "alice" "NA" "classic" 0] ∅
              {[ "p1" := repeat 1000 60 ]} in
  let data := Validation.mkScoreUpdate (Some "p1") None (Some 5)
                                       None None None in
  let r := SocketService.handleScoreUpdate st "s1" data 2000 in
  SocketService.playerStore (fst r) = SocketService.playerStore st
  /\ SocketService.handleScoreUpdate st "s2" data 2000 = r.
Proof.
  intros st data r.
  destruct (X22_refused_score_update_changes_no_score st "s1" data 2000)
    as (_ & H).
  assert (Hfull :
            60 <= Z.of_nat
                    (length
                       (List.filter
                          (fun t => 2000 - 60 * 1000 <? t)
                          (stored (SocketService.scoreUpdateRateLimit st)
                                  (default "" (Validation.su_playerId data))))))
    by (vm_compute; discriminate).
  destruct (H eq_refl Hfull) as (_ & H1 & _ & _ & _ & _ & _ & _ & H2).
  split; [exact H1 | exact (H2 "s2")].
Defined.

Lemma applyScoreUpdate_global (st : SocketService.state) (playerId : string)
      (data : Validation.scoreUpdate) (now : Z) (found : Player.doc) :
  JS.truthy (Validation.su_sessionId data) = false ->
  Player.findOne (SocketService.playerStore st) playerId = Some found ->
  let score := default 0 (Validation.su_score data) in
  let delta := default 0 (Validation.su_delta data) in
  let mode := Validation.su_gameMode data in
  let updated := Player.applyScoreUpdate score mode now found in
  let b :=
    SocketService.mkBroadcast playerId (Player.username updated)
      (score - delta) (Player.currentScore updated) delta
      (Player.currentGameMode updated) (Player.region updated)
      (JS.or_else (Validation.su_reason data) "score_update") in
  let r := SocketService.applyScoreUpdate st playerId data now in
  SocketService.playerStore (fst r)
  = Player.replaceFirst playerId (fun _ => updated)
                        (SocketService.playerStore st)
  /\ SocketService.connectedPlayers (fst r)
     = match SocketService.connectedPlayers st !! playerId with
       | Some c =>
           <[playerId :=
               SocketService.mkConn (SocketService.socketId c) now
                 (SocketService.region c)
                 (JS.or_else mode (SocketService.gameMode c))
                 (SocketService.username c)]>
             (SocketService.connectedPlayers st)
       | None => SocketService.connectedPlayers st
       end
  /\ SocketService.socketToPlayer (fst r) = SocketService.socketToPlayer st
  /\ SocketService.roomSubscriptions (fst r)
     = SocketService.roomSubscriptions st
  /\ SocketService.socketRooms (fst r) = SocketService.socketRooms st
  /\ SocketService.sessionStore (fst r) = SocketService.sessionStore st
  /\ snd r
     = (SocketService.ToSender,
        SocketService.ScoreUpdated b None
          (Player.totalGamesPlayed updated) (Player.averageScore updated)
          (Player.bestScore updated))
       :: List.map (fun room => (SocketService.ToRoomButSender room,
                                  SocketService.LeaderboardScoreUpdated b))
                   (elements (SocketService.subscriptionsOf st playerId)).
Proof.
  intros Hsid Hf. simpl.
  assert (Hstep :
            match Validation.su_sessionId data with
            | Some sessionId =>
                if SocketService.truthyStr sessionId
                then
                  match GameSession.updatePlayerScore
                          (SocketService.sessionStore st) sessionId playerId
                          (default 0 (Validation.su_score data))
                          (default 0 (Validation.su_delta data))
                          (JS.or_else (Validation.su_reason data)
                                      "score_update") now with
                  | GameSession.Ok (sessions', updated) =>
                      GameSession.Ok
                        (SocketService.set_sessionStore sessions' st,
                         Some (sessionId, updated))
                  | GameSession.Throw e => GameSession.Throw e
                  end
                else GameSession.Ok (st, None)
            | None => GameSession.Ok (st, None)
            end = GameSession.Ok (st, None)).
  { destruct (Validation.su_sessionId data) as [sid|]; [|reflexivity].
    unfold JS.truthy in Hsid. unfold SocketService.truthyStr.
    rewrite Hsid. reflexivity. }
  unfold SocketService.applyScoreUpdate. cbv zeta. rewrite Hstep.
  unfold Player.updatePlayerScore. rewrite Hf. cbv zeta.
  unfold SocketService.subscriptionsOf.
  destruct (SocketService.connectedPlayers st !! playerId) as [c|] eqn:Ec;
    simpl; rewrite Ec; simpl.
  - repeat split; try reflexivity.
    + destruct (JS.truthy (Validation.su_gameMode data)) eqn:Em; simpl;
        [reflexivity|].
      rewrite (or_else_falsy _ _ Em). destruct c; reflexivity.
    + destruct (JS.truthy (Validation.su_gameMode data)); simpl;
        rewrite app_nil_r; reflexivity.
  - repeat split; try reflexivity. rewrite app_nil_r. reflexivity.
Qed.

Lemma applyScoreUpdate_identity newScore gameMode now (p : Player.doc) :
  let p' := Player.applyScoreUpdate newScore gameMode now p in
  Player.username p' = Player.username p
  /\ Player.region p' = Player.region p
  /\ Player.lastActiveAt p' = now
  /\ Player.isOnline p' = Player.isOnline p
  /\ Player.currentGameMode p'
     = JS.or_else gameMode (Player.currentGameMode p).
Proof.
  simpl. unfold Player.applyScoreUpdate.
  destruct (JS.truthy gameMode) eqn:Em; simpl.
  - repeat split; reflexivity.
  - rewrite (or_else_falsy _ _ Em). repeat split; reflexivity.
Qed.

(** X23. An accepted global score update.  For a valid payload without
    a session id, sent by the socket that owns the player, with fewer
    than sixty updates of that player in the last minute and the
    player's document present: the stored score becomes the (non
    negative) score of the payload, the games counter goes up by one,
    the game mode follows the payload when it names one, and the best
    and average scores stay as they were; no other player and no
    session is touched, the subscriptions stay, the connection (if
    registered) is stamped with the time of the update, and the limiter
    records the attempt.  The sender gets one [score:updated] whose old
    score is the payload's [score - delta]; the same data goes once to
    each room the player is subscribed to. *)
Theorem X23_accepted_global_score_update
        (st : SocketService.state) (socket : string)
        (data : Validation.scoreUpdate) (now : Z) (found : Player.doc) :
  Validation.validScoreUpdate data = true ->
  let playerId := default "" (Validation.su_playerId data) in
  let recent :=
    List.filter (fun t => now - 60 * 1000 <? t)
                (stored (SocketService.scoreUpdateRateLimit st) playerId) in
  Z.of_nat (length recent) < 60 ->
  SocketService.socketToPlayer st !! socket = Some playerId ->
  JS.truthy (Validation.su_sessionId data) = false ->
  Player.findOne (SocketService.playerStore st) playerId = Some found ->
  let score := default 0 (Validation.su_score data) in
  let delta := default 0 (Validation.su_delta data) in
  let mode :=
    JS.or_else (Validation.su_gameMode data) (Player.currentGameMode found) in
  let b :=
    SocketService.mkBroadcast playerId (Player.username found)
      (score - delta) score delta mode (Player.region found)
      (JS.or_else (Validation.su_reason data) "score_update") in
  let r := SocketService.handleScoreUpdate st socket data now in
  let st' := fst r in
  0 <= score
  /\ (exists updated,
         Player.findOne (SocketService.playerStore st') playerId = Some updated
         /\ Player.currentScore updated = score
         /\ Player.totalGamesPlayed updated = Player.totalGamesPlayed found + 1
         /\ Player.currentGameMode updated = mode
         /\ Player.lastActiveAt updated = now
         /\ Player.bestScore updated = Player.bestScore found
         /\ Player.averageScore updated = Player.averageScore found)
  /\ (forall other, other <> playerId ->
         Player.findOne (SocketService.playerStore st') other
         = Player.findOne (SocketService.playerStore st) other)
  /\ SocketService.sessionStore st' = SocketService.sessionStore st
  /\ SocketService.roomSubscriptions st' = SocketService.roomSubscriptions st
  /\ SocketService.socketToPlayer st' = SocketService.socketToPlayer st
  /\ (forall c, SocketService.connectedPlayers st !! playerId = Some c ->
         exists c',
           SocketService.connectedPlayers st' !! playerId = Some c'
           /\ SocketService.lastActivity c' = now
           /\ SocketService.socketId c' = SocketService.socketId c)
  /\ stored (SocketService.scoreUpdateRateLimit st') playerId
     = recent ++ [now]
  /\ snd r
     = (SocketService.ToSender,
        SocketService.ScoreUpdated b None
          (Player.totalGamesPlayed found + 1) (Player.averageScore found)
          (Player.bestScore found))
       :: List.map (fun room => (SocketService.ToRoomButSender room,
                                  SocketService.LeaderboardScoreUpdated b))
                   (elements (SocketService.subscriptionsOf st playerId)).
Proof.
  intros Hv. simpl. intros Hroom Hs Hsid Hf.
  set (pid := default "" (Validation.su_playerId data)) in *.
  destruct (stored_validate (SocketService.scoreUpdateRateLimit st) pid pid now)
    as [Ha Hst].
  assert (Ha' : Validation.allowed
                  (snd (Validation.validateScoreUpdateRate
                          (SocketService.scoreUpdateRateLimit st) pid 60 now))
                = true).
  { rewrite Ha. apply negb_true_iff, Z.leb_gt. exact Hroom. }
  rewrite String.eqb_refl, Ha' in Hst.
  rewrite (handleScoreUpdate_owner st socket data now Hv Ha' Hs).
  fold pid.
  set (st1 := SocketService.set_rateLimit
                (fst (Validation.validateScoreUpdateRate
                        (SocketService.scoreUpdateRateLimit st) pid 60 now))
                st).
  assert (Hf1 : Player.findOne (SocketService.playerStore st1) pid = Some found)
    by exact Hf.
  destruct (applyScoreUpdate_global st1 pid data now found Hsid Hf1)
    as (Hstore & Hconn & Hsock & Hsub & _ & Hsess & Hout).
  pose proof (applyScoreUpdate_rateLimit st1 pid data now) as Hrate.
  destruct (applyScoreUpdate_fields (default 0 (Validation.su_score data))
              (Validation.su_gameMode data) now found)
    as (Fid & Fscore & Fbest & Favg & Fgames).
  destruct (applyScoreUpdate_identity (default 0 (Validation.su_score data))
              (Validation.su_gameMode data) now found)
    as (Fname & Fregion & Flast & _ & Fmode).
  split.
  { unfold Validation.validScoreUpdate in Hv.
    destruct (Validation.su_score data) as [v|]; simpl.
    - destruct (0 <=? v) eqn:E; [apply Z.leb_le; exact E|].
      rewrite !andb_false_r in Hv. simpl in Hv. discriminate.
    - rewrite !andb_false_r in Hv. simpl in Hv. discriminate. }
  split.
  { eexists. split.
    - rewrite Hstore. simpl.
      rewrite findOne_replaceFirst
        by (rewrite Fid; apply (findOne_id _ _ _ Hf)).
      rewrite String.eqb_refl, Hf. reflexivity.
    - auto 10. }
  split.
  { intros other Hne. rewrite Hstore. simpl.
    rewrite findOne_replaceFirst
      by (rewrite Fid; apply (findOne_id _ _ _ Hf)).
    destruct (String.eqb_spec pid other); [congruence | reflexivity]. }
  split; [exact Hsess|]. split; [exact Hsub|]. split; [exact Hsock|].
  split.
  { intros c Hc. rewrite Hconn. simpl. rewrite Hc.
    rewrite lookup_insert_eq. eexists. split; [reflexivity|].
    split; reflexivity. }
  split. { rewrite Hrate. exact Hst. }
  rewrite Hout, Fname, Fregion, Fscore, Fmode, Fbest, Favg, Fgames.
  reflexivity.
Qed.

Lemma X23_witness :
  let st := fst (SocketService.handlePlayerJoin
                   (SocketService.mkState ∅ ∅ ∅ ∅
                      [Player.fresh "p1" "alice" "NA" "classic" 0] ∅ ∅)
                   "s1" (Validation.mkJoinRoom (Some "p1") None None) 7) in
  let data := Validation.mkScoreUpdate (Some "p1") None (Some 1500)
                                       (Some "blitz") (Some 500) None in
  let st' := fst (SocketService.handleScoreUpdate st "s1" data 9) in
  (exists updated,
      Player.findOne (SocketService.playerStore st') "p1" = Some updated
      /\ Player.currentScore updated = 1500
      /\ Player.currentGameMode updated = "blitz")
  /\ stored (SocketService.scoreUpdateRateLimit st') "p1" = [9].
Proof.
  intros st data st'.
  assert (Hs : SocketService.socketToPlayer st !! "s1" = Some "p1")
    by reflexivity.
  assert (Hf : exists found,
             Player.findOne (SocketService.playerStore st) "p1" = Some found)
    by (eexists; reflexivity).
  destruct Hf as [found Hf].
  assert (Hroom :
            Z.of_nat
              (length
                 (List.filter
                    (fun t => 9 - 60 * 1000 <? t)
                    (stored (SocketService.scoreUpdateRateLimit st)
                            (default "" (Validation.su_playerId data))))) < 60)
    by reflexivity.
  destruct (X23_accepted_global_score_update st "s1" data 9 found
              eq_refl Hroom Hs eq_refl Hf)
    as (_ & (updated & H1 & H2 & _ & H3 & _) & _ & _ & _ & _ & _ & H4 & _).
  split; [|exact H4].
  exists updated. split; [exact H1|]. split; [exact H2 | exact H3].
Defined.

(** ** Scores inside a session: the route and the socket handler *)

Lemma find_scored (pid : string) (score : Z)
      (l : list GameSession.participant) :
  existsb (GameSession.hasId pid) l = true ->
  GameSession.currentSessionScore
    <$> List.find (GameSession.hasId pid)
          (List.map (fun q => if GameSession.hasId pid q
                              then GameSession.set_currentSessionScore score q
                              else q) l)
  = Some score.
Proof.
  induction l as [|a l IH]; simpl; [discriminate|].
  destruct (GameSession.hasId pid a) eqn:E; simpl.
  - intros _. unfold GameSession.hasId in *. simpl. rewrite E. reflexivity.
  - intros H. rewrite E. apply IH, H.
Qed.

Lemma session_score_written
      (store : gmap string GameSession.doc) (sid pid : string)
      (score delta : Z) (reason : string) (now : Z) (s : GameSession.doc) :
  store !! sid = Some s ->
  GameSession.sessionStatus s = GameSession.active ->
  existsb (GameSession.hasId pid) (GameSession.players s) = true ->
  List.NoDup (List.map GameSession.playerId (GameSession.players s)) ->
  exists s',
    GameSession.updatePlayerScore store sid pid score delta reason now
    = GameSession.Ok (<[GameSession.sessionId s := s']> store, s')
    /\ GameSession.players s'
       = List.map
           (fun q => if GameSession.hasId pid q
                     then GameSession.set_currentSessionScore score q
                     else q)
           (GameSession.players s)
    /\ GameSession.sessionStatus s' = GameSession.active
    /\ GameSession.currentSessionScore
         <$> List.find (GameSession.hasId pid) (GameSession.players s')
       = Some score.
Proof.
  intros Hs Ha Hex Hnd.
  unfold GameSession.updatePlayerScore. rewrite Hs, Ha, Hex. simpl.
  pose proof Hex as Hex'.
  apply existsb_exists in Hex'. destruct Hex' as (x & Hx & Hf).
  destruct (findIndex_found _ _ x Hx Hf) as [i Hi]. rewrite Hi.
  rewrite (alter_findIndex _ _ _ _ Hnd Hi).
  unfold GameSession.save.
  rewrite preSave_session_keeps by (simpl; rewrite Ha; discriminate).
  simpl. eexists. split; [reflexivity|]. simpl.
  split; [reflexivity|]. split; [exact Ha|]. apply find_scored, Hex.
Qed.

Lemma session_score_refused
      (store : gmap string GameSession.doc) (sid pid : string)
      (score delta : Z) (reason : string) (now : Z) :
  (forall s, store !! sid = Some s ->
             GameSession.sessionStatus s <> GameSession.active
             \/ existsb (GameSession.hasId pid) (GameSession.players s)
                = false) ->
  GameSession.updatePlayerScore store sid pid score delta reason now
  = GameSession.Throw GameSession.ActiveSessionNotFoundForPlayer.
Proof.
  intros H. unfold GameSession.updatePlayerScore.
  destruct (store !! sid) as [s|] eqn:Hs; [|reflexivity].
  destruct (H s eq_refl) as [Hna | Hex].
  - destruct (GameSession.sessionStatus s); simpl; try reflexivity.
    contradiction.
  - rewrite Hex, andb_false_r. reflexivity.
Qed.



(** X25. A score update over the socket that names a session.  For a
    valid payload from the owning socket that the limiter lets through,
    the attempt is recorded by the limiter in every case.  If there is
    no active session listing the player the update fails as
    [internal_error] and neither players nor sessions change.
    Otherwise (participant ids distinct) the in-session score is set to
    the payload's score first; when the player's document is missing
    the update is then reported as failed although the session keeps the
    new score, and when it exists the global score is set as well and
    the last message goes to everyone in the session's room with both
    scores. *)
Theorem X25_session_bound_score_update
        (st : SocketService.state) (socket : string)
        (data : Validation.scoreUpdate) (now : Z) (sid : string) :
  Validation.validScoreUpdate data = true ->
  let playerId := default "" (Validation.su_playerId data) in
  let recent :=
    List.filter (fun t => now - 60 * 1000 <? t)
                (stored (SocketService.scoreUpdateRateLimit st) playerId) in
  Z.of_nat (length recent) < 60 ->
  SocketService.socketToPlayer st !! socket = Some playerId ->
  Validation.su_sessionId data = Some sid ->
  let score := default 0 (Validation.su_score data) in
  let r := SocketService.handleScoreUpdate st socket data now in
  let st' := fst r in
  stored (SocketService.scoreUpdateRateLimit st') playerId = recent ++ [now]
  /\ ((forall s, SocketService.sessionStore st !! sid = Some s ->
                 GameSession.sessionStatus s <> GameSession.active
                 \/ existsb (GameSession.hasId playerId) (GameSession.players s)
                    = false) ->
      snd r = [(SocketService.ToSender,
                SocketService.Error SocketService.internal_error)]
      /\ SocketService.playerStore st' = SocketService.playerStore st
      /\ SocketService.sessionStore st' = SocketService.sessionStore st)
  /\ (forall s,
         SocketService.sessionStore st !! sid = Some s ->
         GameSession.sessionStatus s = GameSession.active ->
         existsb (GameSession.hasId playerId) (GameSession.players s) = true ->
         List.NoDup (List.map GameSession.playerId (GameSession.players s)) ->
         (exists s',
             SocketService.sessionStore st'
             = <[GameSession.sessionId s := s']> (SocketService.sessionStore st)
             /\ GameSession.currentSessionScore
                  <$> List.find (GameSession.hasId playerId)
                        (GameSession.players s')
                = Some score)
         /\ (Player.findOne (SocketService.playerStore st) playerId = None ->
             snd r = [(SocketService.ToSender,
                       SocketService.Error SocketService.update_failed)]
             /\ SocketService.playerStore st' = SocketService.playerStore st)
         /\ (forall found,
                Player.findOne (SocketService.playerStore st) playerId
                = Some found ->
                (exists updated,
                    Player.findOne (SocketService.playerStore st') playerId
                    = Some updated
                    /\ Player.currentScore updated = score)
                /\ exists front,
                    snd r
                    = front
                      ++ [(SocketService.ToRoom (SocketService.sessionRoom sid),
                           SocketService.SessionScoreUpdated sid playerId
                             (Player.username found) (Some score) score)])).
Proof.
  intros Hv. simpl. intros Hroom Hs Hsid.
  set (pid := default "" (Validation.su_playerId data)) in *.
  destruct (stored_validate (SocketService.scoreUpdateRateLimit st) pid pid now)
    as [Ha Hst].
  assert (Ha' : Validation.allowed
                  (snd (Validation.validateScoreUpdateRate
                          (SocketService.scoreUpdateRateLimit st) pid 60 now))
                = true).
  { rewrite Ha. apply negb_true_iff, Z.leb_gt. exact Hroom. }
  rewrite String.eqb_refl, Ha' in Hst.
  assert (Ht : SocketService.truthyStr sid = true).
  { unfold Validation.validScoreUpdate in Hv. rewrite Hsid in Hv.
    destruct (SocketService.truthyStr sid) eqn:E; [reflexivity|].
    unfold SocketService.truthyStr in E. simpl in Hv. rewrite E in Hv.
    rewrite andb_false_r in Hv. simpl in Hv. discriminate. }
  rewrite (handleScoreUpdate_owner st socket data now Hv Ha' Hs).
  fold pid.
  set (st1 := SocketService.set_rateLimit
                (fst (Validation.validateScoreUpdateRate
                        (SocketService.scoreUpdateRateLimit st) pid 60 now))
                st).
  pose proof (applyScoreUpdate_rateLimit st1 pid data now) as Hrate.
  split. { rewrite Hrate. exact Hst. }
  unfold SocketService.applyScoreUpdate. cbv zeta. rewrite Hsid, Ht.
  change (SocketService.sessionStore st1) with (SocketService.sessionStore st).
  split.
  - intros H. rewrite (session_score_refused _ _ _ _ _ _ _ H).
    simpl. auto.
  - intros s Hl Hact Hex Hnd.
    destruct (session_score_written (SocketService.sessionStore st) sid pid
                (default 0 (Validation.su_score data))
                (default 0 (Validation.su_delta data))
                (JS.or_else (Validation.su_reason data) "score_update")
                now s Hl Hact Hex Hnd)
      as (s' & E & _ & _ & Hscore).
    rewrite E. cbv beta iota.
    change (SocketService.playerStore
              (SocketService.set_sessionStore
                 (<[GameSession.sessionId s := s']>
                    (SocketService.sessionStore st)) st1))
      with (SocketService.playerStore st).
    pose proof (updatePlayerScore_findOne (SocketService.playerStore st) pid pid
                  (default 0 (Validation.su_score data))
                  (Validation.su_gameMode data) now) as Hfind.
    rewrite String.eqb_refl in Hfind.
    unfold Player.updatePlayerScore in *.
    destruct (Player.findOne (SocketService.playerStore st) pid)
      as [found|] eqn:Ef.
    + cbv zeta.
      destruct (applyScoreUpdate_fields (default 0 (Validation.su_score data))
                  (Validation.su_gameMode data) now found)
        as (_ & Fscore & _).
      destruct (applyScoreUpdate_identity (default 0 (Validation.su_score data))
                  (Validation.su_gameMode data) now found)
        as (Fname & _).
      split.
      { exists s'. split; [|exact Hscore].
        destruct (SocketService.connectedPlayers _ !! pid); reflexivity. }
      split; [discriminate|].
      intros f Hf. injection Hf as <-.
      split.
      { eexists. split; [|exact Fscore].
        simpl in Hfind.
        destruct (SocketService.connectedPlayers _ !! pid); exact Hfind. }
      eexists. cbn [snd]. rewrite Hscore, Fscore, Fname.
      rewrite app_comm_cons. reflexivity.
    + simpl. split; [exists s'; auto|].
      split; [auto|]. intros f Hf. discriminate.
Qed.

Lemma X25_witness :
  let p1 := GameSession.mkParticipant "p1" "alice" 0 40 None true in
  let s := GameSession.mkDoc "g1" [p1] "classic" "NA"
             GameSession.active 4 (Some 0) None None [] in
  let st := SocketService.mkState ∅ {[ "s1" := "p1" ]} ∅ ∅
              [Player.fresh "p1" "alice" "NA" "classic" 0]
              {[ "g1" := s ]} ∅ in
  let data := Validation.mkScoreUpdate (Some "p1") (Some "g1") (Some 15)
                                       None None None in
  let r := SocketService.handleScoreUpdate st "s1" data 9 in
  exists front,
    snd r
    = front
      ++ [(SocketService.ToRoom "session:g1",
           SocketService.SessionScoreUpdated "g1" "p1" "alice" (Some 15) 15)].
Proof.
  intros p1 s st data r.
  assert (Hs : SocketService.socketToPlayer st !! "s1" = Some "p1")
    by reflexivity.
  assert (Hl : SocketService.sessionStore st !! "g1" = Some s) by reflexivity.
  assert (Hroom :
            Z.of_nat
              (length
                 (List.filter
                    (fun t => 9 - 60 * 1000 <? t)
                    (stored (SocketService.scoreUpdateRateLimit st)
                            (default "" (Validation.su_playerId data))))) < 60)
    by reflexivity.
  assert (Hnd : List.NoDup (List.map GameSession.playerId
                                     (GameSession.players s))).
  { simpl. constructor; [simpl; tauto | constructor]. }
  destruct (X25_session_bound_score_update st "s1" data 9 "g1"
              eq_refl Hroom Hs eq_refl) as (_ & _ & H).
  destruct (H s Hl eq_refl eq_refl Hnd) as (_ & _ & H3).
  destruct (H3 (Player.fresh "p1" "alice" "NA" "classic" 0) eq_refl)
    as (_ & front & Hfront).
  exists front. exact Hfront.
Defined.

(** ** Socket service: the cleanup interval *)

Lemma isInactive_spec (st : SocketService.state) (now : Z) (pid : string) :
  SocketService.isInactive st now pid = true
  <-> exists c, SocketService.connectedPlayers st !! pid = Some c
                /\ 10 * 60 * 1000 < now - SocketService.lastActivity c.
Proof.
  unfold SocketService.isInactive, SocketService.inactiveThreshold.
  destruct (SocketService.connectedPlayers st !! pid) as [c|].
  - rewrite Z.ltb_lt. split.
    + intros H. exists c. auto.
    + intros (c' & E & H). injection E as <-. exact H.
  - split; [discriminate|]. intros (c & E & _). discriminate.
Qed.

Lemma isInactive_after_cleanup (st : SocketService.state) (now : Z)
      (pid : string) :
  SocketService.isInactive (fst (SocketService.cleanup st now)) now pid
  = false.
Proof.
  unfold SocketService.isInactive at 1. simpl.
  destruct (filter _ (SocketService.connectedPlayers st) !! pid)
    as [c|] eqn:E; [|reflexivity].
  apply map_lookup_filter_Some in E as [E1 E2]. simpl in E2.
  unfold SocketService.isInactive in E2. rewrite E1 in E2. exact E2.
Qed.

(** X26. One run of the cleanup interval.  A connection stays in the
    registry exactly when its last activity is at most ten minutes old
    (an age of exactly ten minutes stays); a player's subscriptions go
    exactly when that player's connection goes; the sockets handed to
    the transport for disconnection are those of the connections that
    went.  The map from sockets to players, the rooms, the players'
    documents, the sessions and the rate limiter are not touched, the
    number of connected players does not grow, and a second run at the
    same time removes nothing more. *)
Theorem X26_cleanup_sweeps_connections_idle_over_ten_minutes
        (st : SocketService.state) (now : Z) :
  let r := SocketService.cleanup st now in
  let st' := fst r in
  (forall pid c,
      SocketService.connectedPlayers st' !! pid = Some c
      <-> SocketService.connectedPlayers st !! pid = Some c
          /\ now - SocketService.lastActivity c <= 600000)
  /\ (forall pid subs,
         SocketService.roomSubscriptions st' !! pid = Some subs
         <-> SocketService.roomSubscriptions st !! pid = Some subs
             /\ ~ (exists c,
                      SocketService.connectedPlayers st !! pid = Some c
                      /\ 600000 < now - SocketService.lastActivity c))
  /\ (forall s,
         s ∈ snd r
         <-> exists pid c,
             SocketService.connectedPlayers st !! pid = Some c
             /\ 600000 < now - SocketService.lastActivity c
             /\ SocketService.socketId c = s)
  /\ SocketService.socketToPlayer st' = SocketService.socketToPlayer st
  /\ SocketService.socketRooms st' = SocketService.socketRooms st
  /\ SocketService.playerStore st' = SocketService.playerStore st
  /\ SocketService.sessionStore st' = SocketService.sessionStore st
  /\ SocketService.scoreUpdateRateLimit st'
     = SocketService.scoreUpdateRateLimit st
  /\ (SocketService.getConnectedPlayersCount st'
      <= SocketService.getConnectedPlayersCount st)%nat
  /\ SocketService.cleanup st' now = (st', []).
Proof.
  cbv zeta. split; [|split; [|split]].
  - intros pid c. simpl. rewrite map_lookup_filter_Some. simpl.
    split; intros [H1 H2]; (split; [exact H1|]).
    + destruct (Z_lt_le_dec 600000 (now - SocketService.lastActivity c))
        as [Hlt|Hle]; [|exact Hle].
      assert (Hi : SocketService.isInactive st now pid = true)
        by (apply isInactive_spec; exists c; auto).
      congruence.
    + destruct (SocketService.isInactive st now pid) eqn:Hi; [|reflexivity].
      apply isInactive_spec in Hi. destruct Hi as (c' & E & Hlt).
      rewrite H1 in E. injection E as <-. lia.
  - intros pid subs. simpl. rewrite map_lookup_filter_Some. simpl.
    split; intros [H1 H2]; (split; [exact H1|]).
    + intros Hex. apply isInactive_spec in Hex. congruence.
    + destruct (SocketService.isInactive st now pid) eqn:Hi; [|reflexivity].
      exfalso. apply H2. apply isInactive_spec. exact Hi.
  - intros s. simpl. rewrite list_elem_of_fmap. split.
    + intros (c & -> & Hc). apply list_elem_of_fmap in Hc.
      destruct Hc as ([pid c'] & -> & Hin). simpl.
      apply elem_of_map_to_list, map_lookup_filter_Some in Hin.
      destruct Hin as [H1 H2]. simpl in H2.
      apply isInactive_spec in H2. destruct H2 as (c & E & Hlt).
      rewrite H1 in E. injection E as <-. exists pid, c'. auto.
    + intros (pid & c & H1 & Hlt & <-). exists c. split; [reflexivity|].
      apply list_elem_of_fmap. exists (pid, c). split; [reflexivity|].
      apply elem_of_map_to_list, map_lookup_filter_Some. split; [exact H1|].
      simpl. apply isInactive_spec. exists c. auto.
  - do 5 (split; [reflexivity|]).
    split. { unfold SocketService.getConnectedPlayersCount. simpl.
             apply map_size_filter. }
    set (st' := fst (SocketService.cleanup st now)).
    unfold SocketService.cleanup.
    assert (E1 : filter (fun kv : string * SocketService.connectionInfo =>
                           SocketService.isInactive st' now kv.1 = false)
                        (SocketService.connectedPlayers st')
                 = SocketService.connectedPlayers st').
    { apply map_filter_id. intros i x _. simpl.
      apply isInactive_after_cleanup. }
    assert (E2 : filter (fun kv : string * gset string =>
                           SocketService.isInactive st' now kv.1 = false)
                        (SocketService.roomSubscriptions st')
                 = SocketService.roomSubscriptions st').
    { apply map_filter_id. intros i x _. simpl.
      apply isInactive_after_cleanup. }
    assert (E3 : filter (fun kv : string * SocketService.connectionInfo =>
                           SocketService.isInactive st' now kv.1 = true)
                        (SocketService.connectedPlayers st')
                 = ∅).
    { apply map_eq. intros i. rewrite lookup_empty.
      apply map_lookup_filter_None. right. intros x _. simpl.
      unfold st'. rewrite isInactive_after_cleanup. discriminate. }
    rewrite E1, E2, E3, map_to_list_empty. reflexivity.
Qed.

(** ** Socket service: session rooms and the status event *)

(** X27. Session rooms over the socket.  Joining needs a socket that
    owns a player and a session id; it puts the socket in the session's
    room, announces the player there, leaves the leaderboard
    subscriptions alone and never looks at the stored sessions: the
    result is the same whatever they contain, so the room of a session
    that does not exist, or that the player takes no part in, is joined
    as well.  Leaving needs no player at all; it takes the socket out of
    the room, and a leave after a join leaves the socket outside the
    room. *)
Theorem X27_session_room_join_and_leave
        (st : SocketService.state) (socket sid : string) :
  SocketService.truthyStr sid = true ->
  let left := SocketService.handleSessionLeave st socket (Some sid) in
  SocketService.roomsOf (fst left) socket
  = SocketService.roomsOf st socket ∖ {[ SocketService.sessionRoom sid ]}
  /\ SocketService.handleSessionJoin st socket None
     = (st, [(SocketService.ToSender, SocketService.InvalidData)])
  /\ SocketService.handleSessionLeave st socket None = (st, [])
  /\ (SocketService.socketToPlayer st !! socket = None ->
      snd left = [(SocketService.ToSender, SocketService.SessionLeft sid)]
      /\ SocketService.handleSessionJoin st socket (Some sid)
         = (st, [(SocketService.ToSender, SocketService.InvalidData)]))
  /\ (forall pid,
         SocketService.socketToPlayer st !! socket = Some pid ->
         SocketService.truthyStr pid = true ->
         let joined := SocketService.handleSessionJoin st socket (Some sid) in
         SocketService.roomsOf (fst joined) socket
         = SocketService.roomsOf st socket
           ∪ {[ SocketService.sessionRoom sid ]}
         /\ snd joined
            = [(SocketService.ToSender, SocketService.SessionJoined sid);
               (SocketService.ToRoomButSender (SocketService.sessionRoom sid),
                SocketService.SessionPlayerJoined pid
                  (SocketService.username
                     <$> SocketService.connectedPlayers st !! pid))]
         /\ SocketService.roomSubscriptions (fst joined)
            = SocketService.roomSubscriptions st
         /\ (forall sessions,
                SocketService.handleSessionJoin
                  (SocketService.set_sessionStore sessions st) socket (Some sid)
                = (SocketService.set_sessionStore sessions (fst joined),
                   snd joined))
         /\ SocketService.roomsOf
              (fst (SocketService.handleSessionLeave (fst joined) socket
                                                     (Some sid))) socket
            = SocketService.roomsOf st socket
              ∖ {[ SocketService.sessionRoom sid ]}).
Proof.
  intros Ht. simpl.
  unfold SocketService.handleSessionLeave, SocketService.handleSessionJoin.
  rewrite Ht. simpl.
  split.
  { unfold SocketService.roomsOf. simpl. rewrite lookup_insert_eq.
    reflexivity. }
  split. { destruct (SocketService.socketToPlayer st !! socket); reflexivity. }
  split; [reflexivity|].
  split. { intros ->. auto. }
  intros pid Hs Hp. rewrite Hs, Hp. simpl.
  unfold SocketService.roomsOf. simpl. rewrite !lookup_insert_eq. simpl.
  split; [reflexivity|]. split; [reflexivity|]. split; [reflexivity|].
  split; [reflexivity|]. set_solver.
Qed.

Lemma X27_witness :
  let st := fst (SocketService.handlePlayerJoin
                   (SocketService.mkState ∅ ∅ ∅ ∅
                      [Player.fresh "p1" "alice" "NA" "classic" 0] ∅ ∅)
                   "s1" (Validation.mkJoinRoom (Some "p1") None None) 7) in
  let joined := SocketService.handleSessionJoin st "s1" (Some "nowhere") in
  SocketService.sessionStore st !! "nowhere" = None
  /\ SocketService.roomsOf (fst joined) "s1"
     = SocketService.roomsOf st "s1" ∪ {[ "session:nowhere" ]}.
Proof.
  intros st joined.
  assert (Hs : SocketService.socketToPlayer st !! "s1" = Some "p1")
    by reflexivity.
  destruct (X27_session_room_join_and_leave st "s1" "nowhere" eq_refl)
    as (_ & _ & _ & _ & H).
  destruct (H "p1" Hs eq_refl) as (H1 & _).
  split; [reflexivity | exact H1].
Defined.

Lemma handlePlayerStatus_owner (st : SocketService.state) (socket : string)
      (data : Validation.playerStatus) (now : Z) (found : Player.doc) :
  Validation.validPlayerStatus data = true ->
  let playerId := default "" (Validation.ps_playerId data) in
  let online := default false (Validation.ps_isOnline data) in
  SocketService.socketToPlayer st !! socket = Some playerId ->
  Player.findOne (SocketService.playerStore st) playerId = Some found ->
  SocketService.handlePlayerStatus st socket data now
  = (SocketService.mkState
       (match SocketService.connectedPlayers st !! playerId with
        | Some c =>
            <[playerId := SocketService.set_lastActivity now c]>
              (SocketService.connectedPlayers st)
        | None => SocketService.connectedPlayers st
        end)
       (SocketService.socketToPlayer st) (SocketService.roomSubscriptions st)
       (SocketService.socketRooms st)
       (fst (Player.updateOnlineStatus (SocketService.playerStore st) found
                                       online now))
       (SocketService.sessionStore st) (SocketService.scoreUpdateRateLimit st),
     List.map (fun room =>
                 (SocketService.ToRoomButSender room,
                  SocketService.PlayerStatusChanged playerId
                    (Player.username found) online))
              (elements (SocketService.subscriptionsOf st playerId))
     ++ [(SocketService.ToSender,
          SocketService.PlayerStatusUpdated playerId (Player.username found)
                                            online)]).
Proof.
  intros Hv. simpl. intros Hs Hf.
  unfold SocketService.handlePlayerStatus. rewrite Hv. simpl.
  rewrite bool_decide_eq_true_2 by exact Hs. simpl. rewrite Hf.
  pose proof (updateOnlineStatus_keeps (SocketService.playerStore st) found
                (default false (Validation.ps_isOnline data)) now)
    as (_ & _ & K).
  destruct (Player.updateOnlineStatus (SocketService.playerStore st) found
              (default false (Validation.ps_isOnline data)) now)
    as [store' player].
  simpl in *. rewrite K. unfold SocketService.subscriptionsOf.
  destruct (SocketService.connectedPlayers st
              !! default "" (Validation.ps_playerId data)); reflexivity.
Qed.

(** X28. The status event.  A valid payload from a socket that does not
    own the named player is refused as [unauthorized] and changes
    nothing.  From the owner, with the player's document present, the
    document is saved with the requested online flag and [lastActiveAt]
    now, the score unchanged; the registry keeps exactly the players it
    had, so a player who reports offline is still counted as connected;
    a registered connection is only stamped with the time; the
    subscriptions stay; and the change is sent once to each subscribed
    room and then confirmed to the sender. *)
Theorem X28_status_event_sets_flag_but_keeps_registry
        (st : SocketService.state) (socket : string)
        (data : Validation.playerStatus) (now : Z) :
  Validation.validPlayerStatus data = true ->
  let playerId := default "" (Validation.ps_playerId data) in
  let online := default false (Validation.ps_isOnline data) in
  let r := SocketService.handlePlayerStatus st socket data now in
  (SocketService.socketToPlayer st !! socket <> Some playerId ->
   r = (st, [(SocketService.ToSender,
              SocketService.NoticeError SocketService.unauthorized)]))
  /\ (forall found,
         SocketService.socketToPlayer st !! socket = Some playerId ->
         Player.findOne (SocketService.playerStore st) playerId = Some found ->
         (exists stored,
             Player.findOne (SocketService.playerStore (fst r)) playerId
             = Some stored
             /\ Player.isOnline stored = online
             /\ Player.lastActiveAt stored = now
             /\ Player.currentScore stored = Player.currentScore found)
         /\ (forall q, SocketService.isPlayerOnline (fst r) q
                       = SocketService.isPlayerOnline st q)
         /\ (forall c,
                SocketService.connectedPlayers st !! playerId = Some c ->
                SocketService.connectedPlayers (fst r) !! playerId
                = Some (SocketService.set_lastActivity now c))
         /\ SocketService.roomSubscriptions (fst r)
            = SocketService.roomSubscriptions st
         /\ SocketService.socketToPlayer (fst r)
            = SocketService.socketToPlayer st
         /\ snd r
            = List.map (fun room =>
                          (SocketService.ToRoomButSender room,
                           SocketService.PlayerStatusChanged playerId
                             (Player.username found) online))
                       (elements (SocketService.subscriptionsOf st playerId))
              ++ [(SocketService.ToSender,
                   SocketService.PlayerStatusUpdated playerId
                     (Player.username found) online)]).
Proof.
  intros Hv. simpl. split.
  - intros Hno. unfold SocketService.handlePlayerStatus. rewrite Hv. simpl.
    rewrite bool_decide_eq_false_2 by exact Hno. reflexivity.
  - intros found Hs Hf.
    rewrite (handlePlayerStatus_owner st socket data now found Hv Hs Hf).
    simpl.
    destruct (updateOnlineStatus_result (SocketService.playerStore st) found
                (default false (Validation.ps_isOnline data)) now)
      as (H1 & _ & H3 & H4 & H5 & _).
    rewrite (findOne_id _ _ _ Hf) in H1.
    split; [eexists; split; [exact H1|]; auto|].
    split.
    { intros q. unfold SocketService.isPlayerOnline. simpl.
      destruct (SocketService.connectedPlayers st
                  !! default "" (Validation.ps_playerId data))
        as [c|] eqn:Ec; [|reflexivity].
      apply bool_decide_ext.
      destruct (decide (default "" (Validation.ps_playerId data) = q))
        as [<-|Hne].
      - rewrite lookup_insert_eq, Ec. split; eauto.
      - rewrite lookup_insert_ne by exact Hne. reflexivity. }
    split.
    { intros c Hc. rewrite Hc. apply lookup_insert_eq. }
    auto.
Qed.

Lemma X28_witness :
  let st := fst (SocketService.handlePlayerJoin
                   (SocketService.mkState ∅ ∅ ∅ ∅
                      [Player.fresh "p1" "alice" "NA" "classic" 0] ∅ ∅)
                   "s1" (Validation.mkJoinRoom (Some "p1") None None) 7) in
  let data := Validation.mkPlayerStatus (Some "p1") (Some false) in
  let r := SocketService.handlePlayerStatus st "s1" data 9 in
  (exists stored,
      Player.findOne (SocketService.playerStore (fst r)) "p1" = Some stored
      /\ Player.isOnline stored = false)
  /\ SocketService.isPlayerOnline (fst r) "p1" = true.
Proof.
  intros st data r.
  assert (Hs : SocketService.socketToPlayer st !! "s1" = Some "p1")
    by reflexivity.
  assert (Hf : exists found,
             Player.findOne (SocketService.playerStore st) "p1" = Some found)
    by (eexists; reflexivity).
  destruct Hf as [found Hf].
  destruct (X28_status_event_sets_flag_but_keeps_registry st "s1" data 9
              eq_refl) as (_ & H).
  destruct (H found Hs Hf) as ((stored & H1 & H2 & _) & H3 & _).
  split; [exists stored; split; [exact H1 | exact H2]|].
  unfold r. rewrite H3. reflexivity.
Defined.

(** ** Session routes: the write-back of the end route *)







(** ** Session routes: the position bonus *)

Lemma bonusShape_100 : bonusShape 100 = true.
Proof. vm_compute. reflexivity. Qed.

Lemma bonusShape_sound (upTo total position : nat) :
  bonusShape upTo = true ->
  (total <= upTo)%nat -> (1 <= position <= total)%nat ->
  exists b next,
    SessionRoutes.calculatePositionBonus (Z.of_nat position) (Z.of_nat total)
    = Some b
    /\ SessionRoutes.calculatePositionBonus (Z.of_nat (S position))
                                            (Z.of_nat total)
       = Some next
    /\ 0 <= b <= 100
    /\ next <= b
    /\ ((2 <= total)%nat -> 1 <= b /\ (position = 1%nat -> b = 100)).
Proof.
  intros T Ht Hp. unfold bonusShape in T. rewrite forallb_forall in T.
  assert (Hin : In total (seq 0 (S upTo))) by (apply in_seq; lia).
  specialize (T total Hin). rewrite forallb_forall in T.
  assert (Hin' : In position (seq 1 total)) by (apply in_seq; lia).
  specialize (T position Hin'). unfold bonusShaped in T.
  destruct (SessionRoutes.calculatePositionBonus (Z.of_nat position) _)
    as [b|]; [|discriminate].
  destruct (SessionRoutes.calculatePositionBonus (Z.of_nat (S position)) _)
    as [next|]; [|discriminate].
  exists b, next.
  apply andb_true_iff in T as [T T4]. apply andb_true_iff in T as [T T3].
  apply andb_true_iff in T as [T1 T2].
  apply Z.leb_le in T1, T2, T3.
  split; [reflexivity|]. split; [reflexivity|]. split; [lia|].
  split; [exact T3|].
  intros H2. apply Nat.leb_le in H2. rewrite H2 in T4.
  apply andb_true_iff in T4 as [T5 T6]. apply Z.leb_le in T5.
  split; [exact T5|]. intros ->. simpl in T6. apply Z.eqb_eq, T6.
Qed.

Lemma bonus_monotone (total : nat) (d : nat) :
  (total <= 100)%nat ->
  forall (position : nat) (b b' : Z),
    (1 <= position)%nat -> (position + d <= total)%nat ->
    SessionRoutes.calculatePositionBonus (Z.of_nat position) (Z.of_nat total)
    = Some b ->
    SessionRoutes.calculatePositionBonus (Z.of_nat (position + d))
                                         (Z.of_nat total)
    = Some b' ->
    b' <= b.
Proof.
  intros Ht. induction d as [|d IH]; intros position b b' H1 H2 Hb Hb'.
  - rewrite Nat.add_0_r in Hb'. rewrite Hb in Hb'. injection Hb' as ->. lia.
  - destruct (bonusShape_sound 100 total position bonusShape_100 Ht)
      as (b0 & next & E0 & E1 & _ & Hle & _); [lia|].
    rewrite Hb in E0. injection E0 as <-.
    assert (Hstep : next <= b) by exact Hle.
    replace (position + S d)%nat with (S position + d)%nat in Hb' by lia.
    specialize (IH (S position) next b').
    assert (b' <= next) by (apply IH; [lia | lia | exact E1 | exact Hb']).
    lia.
Qed.

(** X30. The shape of the position bonus.  With fewer than two
    participants the bonus is 0 at any position.  In a session of 2 to
    100 participants every position from first to last has a bonus, a
    whole number from 1 to 100; the first place gets exactly 100; and a
    later position never gets more than an earlier one. *)
Theorem X30_position_bonus_is_bounded_and_monotone
        (total position : nat) :
  (forall pos tot, tot < 2 ->
                   SessionRoutes.calculatePositionBonus pos tot = Some 0)
  /\ ((2 <= total <= 100)%nat -> (1 <= position <= total)%nat ->
      exists b,
        SessionRoutes.calculatePositionBonus (Z.of_nat position)
                                             (Z.of_nat total) = Some b
        /\ 1 <= b <= 100
        /\ (position = 1%nat -> b = 100)
        /\ (forall position' b',
               (position <= position' <= total)%nat ->
               SessionRoutes.calculatePositionBonus (Z.of_nat position')
                                                    (Z.of_nat total)
               = Some b' ->
               b' <= b)).
Proof.
  split.
  - intros pos tot H. unfold SessionRoutes.calculatePositionBonus.
    apply Z.ltb_lt in H. rewrite H. reflexivity.
  - intros Ht Hp.
    destruct (bonusShape_sound 100 total position bonusShape_100)
      as (b & next & E0 & _ & Hr & _ & H2); [lia | lia |].
    destruct H2 as [H1 Hfirst]; [lia|].
    exists b. split; [exact E0|]. split; [lia|]. split; [exact Hfirst|].
    intros position' b' Hpp Hb'.
    replace position' with (position + (position' - position))%nat in Hb'
      by lia.
    apply (bonus_monotone total (position' - position) ltac:(lia)
                          position b b'); [lia | lia | exact E0 | exact Hb'].
Qed.

Lemma X30_witness :
  exists b,
    SessionRoutes.calculatePositionBonus 3 4 = Some b
    /\ 1 <= b <= 100
    /\ (forall b', SessionRoutes.calculatePositionBonus 4 4 = Some b' ->
                   b' <= b).
Proof.
  destruct (X30_position_bonus_is_bounded_and_monotone 4 3) as (_ & H).
  destruct H as (b & E & Hr & _ & Hm); [lia | lia |].
  exists b. split; [exact E|]. split; [exact Hr|].
  intros b' Hb'. apply (Hm 4%nat b'); [lia | exact Hb'].
Defined.
